(** * CMCParser: a shallow embedding of [demo_cmc_parser.py]

    The Python class [CMCParser] downloads a coin listing, extracts records
    along one of three paths (embedded JSON payload, first HTML table,
    secondary JSON API), cleans free-text table cells into numbers and writes
    the records to a JSON and a CSV file.

    Conventions of the embedding:
    - a Python [str] is a [string]; the character with code [n] stands for
      the code point U+00[n], so the embedding covers Latin-1 text.  A value
      that is a [str] with a character beyond Latin-1 is kept by its code
      points ([PText]): such values reach the writers and the console;
    - a Python [int] is a [Z], a Python [float] is a binary64 [spec_float];
    - a call that may raise returns a [result]; code that also prints or
      writes files runs in the state-and-exception monad [M];
    - what the third-party libraries compute (HTTP transfer, HTML parsing,
      JSON text decoding, the clock, file opening) is read from a [platform]
      record, so every theorem holds whatever these libraries answer;
    - a JSON file is the document that [json.dump] wrote, in JSON's own data
      model; a CSV file is the rows handed to the writer. *)

From Stdlib Require Import ZArith List Bool Ascii String DecimalString Lia.
From Stdlib Require Import Floats.SpecFloat.
From stdpp Require Import base option gmap strings.

Import ListNotations.
Open Scope string_scope.
Open Scope Z_scope.

(** ** Exceptions and results *)

(** The classes of exception that the modelled code and libraries raise.
    All of them derive from Python's [Exception]. *)
Inductive exn_class :=
| AttributeError | TypeError | ValueError | IndexError | KeyError
| JSONDecodeError | HTTPError | ConnectionError | OSError
| UnicodeEncodeError | RecursionError.

Record exn := Exn { exn_cls : exn_class; exn_msg : string }.

Inductive result (A : Type) :=
| Ok (a : A)
| Raise (e : exn).
Arguments Ok {A} a.
Arguments Raise {A} e.

Definition raise {A} (c : exn_class) (msg : string) : result A :=
  Raise (Exn c msg).

Definition rbind {A B} (r : result A) (k : A -> result B) : result B :=
  match r with
  | Ok a => k a
  | Raise e => Raise e
  end.

(** [try: r except: h] is a [try] block whose handler catches [Exception]
    (or everything, for a bare [except:]). *)
Definition rtry {A} (r : result A) (h : exn -> result A) : result A :=
  match r with
  | Ok a => Ok a
  | Raise e => h e
  end.

Definition is_ok {A} (r : result A) : bool :=
  match r with Ok _ => true | Raise _ => false end.

#[export] Instance result_ret : MRet result := fun _ a => Ok a.
#[export] Instance result_bind : MBind result := fun _ _ k r => rbind r k.

(** ** Python text primitives *)

Module Py.

Definition code (c : ascii) : N := N_of_ascii c.

(** [str.isdigit] on U+0000..U+00FF: the decimal digits and the three
    superscript digits U+00B2, U+00B3, U+00B9. *)
Definition isdecimal (c : ascii) : bool :=
  ((48 <=? code c) && (code c <=? 57))%N.

Definition isdigit (c : ascii) : bool :=
  isdecimal c || (code c =? 178)%N || (code c =? 179)%N || (code c =? 185)%N.

(** Whitespace as [str.strip()] sees it on U+0000..U+00FF. *)
Definition isspace (c : ascii) : bool :=
  ((9 <=? code c) && (code c <=? 13))%N
  || ((28 <=? code c) && (code c <=? 32))%N
  || (code c =? 133)%N || (code c =? 160)%N.

(** [''.join(filter(p, text))] *)
Fixpoint filter_join (p : ascii -> bool) (text : string) : string :=
  match text with
  | EmptyString => EmptyString
  | String c rest =>
      if p c then String c (filter_join p rest) else filter_join p rest
  end.

(** [text.replace(c, '')] for a one-character pattern [c]. *)
Definition remove (c : ascii) (text : string) : string :=
  filter_join (fun d => negb (Ascii.eqb d c)) text.

Fixpoint lstrip (text : string) : string :=
  match text with
  | String c rest => if isspace c then lstrip rest else text
  | EmptyString => EmptyString
  end.

Fixpoint rstrip (text : string) : string :=
  match text with
  | EmptyString => EmptyString
  | String c rest =>
      match rstrip rest with
      | EmptyString => if isspace c then EmptyString else String c EmptyString
      | kept => String c kept
      end
  end.

(** [text.strip()] *)
Definition strip (text : string) : string := rstrip (lstrip text).

(** [c in text] for a one-character [c]. *)
Fixpoint contains (c : ascii) (text : string) : bool :=
  match text with
  | EmptyString => false
  | String d rest => Ascii.eqb d c || contains c rest
  end.

(** [text.split(c)]: never empty, one more piece than occurrences of [c]. *)
Fixpoint split (c : ascii) (text : string) : list string :=
  match text with
  | EmptyString => [EmptyString]
  | String d rest =>
      if Ascii.eqb d c then EmptyString :: split c rest
      else match split c rest with
           | piece :: pieces => String d piece :: pieces
           | [] => [String d EmptyString]
           end
  end.

(** [needle in text] for a string [needle]. *)
Fixpoint starts_with (needle text : string) : bool :=
  match needle, text with
  | EmptyString, _ => true
  | String a n', String b t' => Ascii.eqb a b && starts_with n' t'
  | String _ _, EmptyString => false
  end.

Fixpoint contains_str (needle text : string) : bool :=
  starts_with needle text
  || match text with
     | EmptyString => false
     | String _ rest => contains_str needle rest
     end.

Definition lower (c : ascii) : ascii :=
  if ((65 <=? code c) && (code c <=? 90))%N
  then ascii_of_N (code c + 32) else c.

Fixpoint lower_str (text : string) : string :=
  match text with
  | EmptyString => EmptyString
  | String c rest => String (lower c) (lower_str rest)
  end.

(** *** Numeric literals *)

Definition digit_value (c : ascii) : Z := Z.of_N (code c) - 48.

(** A [digitpart]: a decimal digit, then decimal digits each optionally
    preceded by one underscore.  Returns the digits read, most significant
    first, and the unread text; [None] when the text does not start with a
    digit. *)
Fixpoint digits_tail (text : string) : list Z * string :=
  match text with
  | String c rest =>
      if isdecimal c then
        let '(ds, r) := digits_tail rest in (digit_value c :: ds, r)
      else if Ascii.eqb c "_" then
        match rest with
        | String d rest' =>
            if isdecimal d then
              let '(ds, r) := digits_tail rest' in (digit_value d :: ds, r)
            else ([], text)
        | EmptyString => ([], text)
        end
      else ([], text)
  | EmptyString => ([], EmptyString)
  end.

Definition digitpart (text : string) : option (list Z * string) :=
  match text with
  | String c rest =>
      if isdecimal c then
        let '(ds, r) := digits_tail rest in Some (digit_value c :: ds, r)
      else None
  | EmptyString => None
  end.

Definition decimal_value (ds : list Z) : Z :=
  fold_left (fun acc d => 10 * acc + d) ds 0.

(** An optional sign: [true] for a minus. *)
Definition sign (text : string) : bool * string :=
  match text with
  | String "-" rest => (true, rest)
  | String "+" rest => (false, rest)
  | _ => (false, text)
  end.

(** [int(text)] in base ten.  [max_digits] is the interpreter's
    [sys.int_max_str_digits] (4300 by default since Python 3.11, and [0%nat]
    when there is no limit). *)
Definition int (max_digits : nat) (text : string) : result Z :=
  let '(neg, body) := sign (strip text) in
  match digitpart body with
  | Some (ds, EmptyString) =>
      if negb (Nat.eqb max_digits 0) && (max_digits <? List.length ds)%nat
      then raise ValueError "Exceeds the limit for integer string conversion"
      else Ok (if neg then - decimal_value ds else decimal_value ds)
  | _ => raise ValueError "invalid literal for int() with base 10"
  end.

(** *** [float(text)] *)

Definition prec : Z := 53.
Definition emax : Z := 1024.

(** The binary64 number nearest to [(-1)^neg * m * 10^e10], ties to even. *)
Definition float_of_decimal (neg : bool) (m e10 : Z) : spec_float :=
  match m with
  | Zpos p =>
      if 0 <=? e10
      then binary_round prec emax neg (Z.to_pos (Zpos p * 10 ^ e10)) 0
      else SFdiv prec emax (S754_finite neg p 0)
                 (S754_finite false (Z.to_pos (10 ^ (- e10))) 0)
  | _ => S754_zero neg
  end.

(** [[sign] digitpart], the exponent after [e] or [E]. *)
Definition exponent (text : string) : option (Z * string) :=
  let '(neg, body) := sign text in
  match digitpart body with
  | Some (ds, r) => Some (if neg then - decimal_value ds else decimal_value ds, r)
  | None => None
  end.

(** [number]: [[digitpart] "." digitpart | digitpart ["."]].  Returns the
    digits before and after the point. *)
Definition number (text : string) : option (list Z * list Z * string) :=
  match digitpart text with
  | Some (ip, String "." r) =>
      match digitpart r with
      | Some (fp, r') => Some (ip, fp, r')
      | None => Some (ip, [], r)
      end
  | Some (ip, r) => Some (ip, [], r)
  | None =>
      match text with
      | String "." r =>
          match digitpart r with
          | Some (fp, r') => Some ([], fp, r')
          | None => None
          end
      | _ => None
      end
  end.

(** [inf], [infinity] and [nan], in any letter case. *)
Definition parse_inf_or_nan (neg : bool) (body : string) : option spec_float :=
  let word := lower_str body in
  if String.eqb word "inf" || String.eqb word "infinity"
  then Some (S754_infinity neg)
  else if String.eqb word "nan" then Some S754_nan
  else None.

Definition float (text : string) : result spec_float :=
  let '(neg, body) := sign (strip text) in
  match parse_inf_or_nan neg body with
  | Some special => Ok special
  | None =>
      match number body with
      | Some (ip, fp, r) =>
          let m := decimal_value (ip ++ fp) in
          let scale := Z.of_nat (List.length fp) in
          match r with
          | EmptyString => Ok (float_of_decimal neg m (- scale))
          | String c r' =>
              if Ascii.eqb (lower c) "e" then
                match exponent r' with
                | Some (e, EmptyString) =>
                    Ok (float_of_decimal neg m (e - scale))
                | _ => raise ValueError "could not convert string to float"
                end
              else raise ValueError "could not convert string to float"
          end
      | None => raise ValueError "could not convert string to float"
      end
  end.

(** The infinity or NaN that [float(text)] reads, if [text] spells one. *)
Definition inf_or_nan (text : string) : option spec_float :=
  let '(neg, body) := sign (strip text) in parse_inf_or_nan neg body.

(** [all(p(c) for c in text)] *)
Fixpoint all (p : ascii -> bool) (text : string) : bool :=
  match text with
  | EmptyString => true
  | String c rest => p c && all p rest
  end.

Definition nondecimal (c : ascii) : bool := negb (isdecimal c).

(** A non-empty run of decimal digits, no longer than the interpreter
    lets [int] read. *)
Definition readable_digits (max_digits : nat) (text : string) : bool :=
  match text with
  | EmptyString => false
  | String _ _ =>
      all isdecimal text
      && (Nat.eqb max_digits 0 || (String.length text <=? max_digits)%nat)
  end.

Definition digit_values (text : string) : list Z :=
  map digit_value (list_ascii_of_string text).

End Py.

(** ** Python values *)

(** The values that [json.loads] and [response.json()] build.  A [dict]
    lists its entries in insertion order, with distinct keys; the keys are
    Latin-1 (the code looks up ASCII keys only).  A [str] whose characters
    are all Latin-1 is a [PStr]; a [str] with a character beyond is a
    [PText], the list of its code points.  Among the latter are the lone
    surrogates U+D800 to U+DFFF, which [json.loads] builds from an escape
    such as [\ud83d] and which no encoder of a file or of the console
    takes. *)
#[warnings="-register-all"]
Inductive pyval :=
| PNone
| PBool (b : bool)
| PInt (n : Z)
| PFloat (f : spec_float)
| PStr (s : string)
| PText (codes : list N)
| PList (items : list pyval)
| PDict (entries : list (string * pyval)).

(** The code points of a Latin-1 text, and the way back. *)
Definition codes (s : string) : list N :=
  map Py.code (list_ascii_of_string s).

Definition latin (c : N) : bool := (c <? 256)%N.

Definition narrow (cs : list N) : option string :=
  if forallb latin cs
  then Some (string_of_list_ascii (map ascii_of_N cs))
  else None.

(** The [str] with the code points [cs]. *)
Definition str_of (cs : list N) : pyval :=
  match narrow cs with
  | Some s => PStr s
  | None => PText cs
  end.

Definition surrogate (c : N) : bool := (55296 <=? c)%N && (c <=? 57343)%N.

Fixpoint assoc {A} (key : string) (entries : list (string * A)) : option A :=
  match entries with
  | [] => None
  | (k, v) :: rest => if String.eqb k key then Some v else assoc key rest
  end.

(** [v.get(key, default)]: only a [dict] has the method. *)
Definition get (v : pyval) (key : string) (dflt : pyval) : result pyval :=
  match v with
  | PDict entries => Ok (default dflt (assoc key entries))
  | _ => raise AttributeError "object has no attribute 'get'"
  end.

(** [isinstance(v, dict)] *)
Definition is_dict (v : pyval) : bool :=
  match v with PDict _ => true | _ => false end.

(** [xs[lo:hi]] on a sequence of length [n]: a negative bound counts from
    the end, and both bounds are clamped to [0..n]. *)
Definition clamp (n i : Z) : Z :=
  if i <? 0 then Z.max 0 (i + n) else Z.min i n.

Definition slice {A} (lo hi : Z) (xs : list A) : list A :=
  let n := Z.of_nat (List.length xs) in
  let lo' := clamp n lo in
  let hi' := clamp n hi in
  firstn (Z.to_nat (hi' - lo')) (skipn (Z.to_nat lo') xs).

Definition chars (s : string) : list pyval :=
  map (fun c => PStr (String c EmptyString)) (list_ascii_of_string s).

Definition wide_chars (cs : list N) : list pyval :=
  map (fun c => str_of [c]) cs.

(** The items that [for item in v[:limit]] visits.  A [str] is sliced and
    iterated character by character; a [dict] cannot be sliced (the slice is
    looked up as a key); nothing else is subscriptable. *)
Definition slice_items (v : pyval) (limit : Z) : result (list pyval) :=
  match v with
  | PList items => Ok (slice 0 limit items)
  | PStr s => Ok (slice 0 limit (chars s))
  | PText cs => Ok (slice 0 limit (wide_chars cs))
  | PDict _ => raise TypeError "unhashable type: 'slice'"
  | _ => raise TypeError "object is not subscriptable"
  end.

(** The items that [for item in v] visits: a [dict] yields its keys. *)
Definition items_of (v : pyval) : result (list pyval) :=
  match v with
  | PList items => Ok items
  | PStr s => Ok (chars s)
  | PText cs => Ok (wide_chars cs)
  | PDict entries => Ok (map (fun e => PStr (fst e)) entries)
  | _ => raise TypeError "object is not iterable"
  end.

(** [v[0]] *)
Definition first_item (v : pyval) : result pyval :=
  match v with
  | PList (x :: _) => Ok x
  | PList [] => raise IndexError "list index out of range"
  | PStr (String c _) => Ok (PStr (String c EmptyString))
  | PStr EmptyString => raise IndexError "string index out of range"
  | PText (c :: _) => Ok (str_of [c])
  | PText [] => raise IndexError "string index out of range"
  | PDict _ => raise KeyError "0"
  | _ => raise TypeError "object is not subscriptable"
  end.

(** [xs[i]] for a list [xs] and [0 <= i]. *)
Definition index {A} (xs : list A) (i : nat) : result A :=
  match nth_error xs i with
  | Some x => Ok x
  | None => raise IndexError "list index out of range"
  end.

(** [for x in xs: acc = body(x, acc)]; the first exception leaves the loop. *)
Fixpoint for_each {A S} (xs : list A) (body : A -> S -> result S) (acc : S)
  : result S :=
  match xs with
  | [] => Ok acc
  | x :: rest => acc' ← body x acc; for_each rest body acc'
  end.

(** ** Parsed pages *)

(** A [bs4] tag kept as a value, known by its rendering [str(tag)]. *)
Record Tag := { tag_str : string }.

(** What the code reads from a [td] cell. *)
Record Cell := {
  cell_text : string;            (* cell.get_text() *)
  cell_text_strip : string;      (* cell.get_text(strip=True) *)
  cell_symbol : option Tag;      (* cell.find('p', class_='coin-item-symbol') *)
}.

(** [row.find_all('td')] and [table.find_all('tr')]. *)
Definition Row := list Cell.
Definition Table := list Row.

(** What the code reads from a [script] tag. *)
Record Script := {
  script_string : option string; (* script.string *)
  script_str : string;           (* str(script) *)
}.

Record Soup := {
  soup_scripts : list Script;    (* soup.find_all('script') *)
  soup_table : option Table;     (* soup.find('table') *)
}.

Record response := {
  status_code : Z;
  text : string;
}.

(** [response.raise_for_status()] *)
Definition raise_for_status (r : response) : result unit :=
  if (400 <=? status_code r) && (status_code r <? 600)
  then raise HTTPError "Client or Server Error"
  else Ok tt.

(** ** Records *)

(** A field of a coin record: a plain value or, on the table path, a tag. *)
Inductive value :=
| V (v : pyval)
| T (t : Tag).

(** A coin record is a [dict]: its fields in insertion order. *)
Definition record := list (string * value).

Definition keys (r : record) : list string := map fst r.

(** ** The platform *)

(** The answers of the libraries and of the operating system. *)
Record platform := {
  (* session.get(url, params=params) *)
  session_get : string -> list (string * pyval) -> result response;
  (* BeautifulSoup(text, 'html.parser') *)
  BeautifulSoup : string -> result Soup;
  (* json.loads(text), also behind response.json() *)
  json_loads : string -> result pyval;
  (* sys.int_max_str_digits, 0 for no limit *)
  int_max_str_digits : nat;
  (* datetime.now().isoformat() *)
  now_isoformat : string;
  (* whether open(filename, 'w') succeeds *)
  writable : string -> bool;
  (* how many containers deep inside a field value json.dump can go before
     the interpreter's recursion limit (sys.getrecursionlimit()) is hit *)
  nesting_limit : nat;
}.

(** ** JSON documents *)

(** A JSON text in JSON's data model.  A number keeps the [int] or the
    [float] it was written from (the [repr] of a float reads back as the
    same float); [NaN] and the infinities are among the floats, as
    [json.dump] writes them by default; a string is its code points. *)
#[warnings="-register-all"]
Inductive json :=
| JNull
| JBool (b : bool)
| JInt (n : Z)
| JFloat (f : spec_float)
| JString (codes : list N)
| JArray (items : list json)
| JObject (members : list (string * json)).

(** [[f(x) for x in xs]] for an [f] that may raise: the first exception
    ends the traversal. *)
Definition traverse {A B} (f : A -> result B) : list A -> result (list B) :=
  fix go xs :=
    match xs with
    | [] => Ok []
    | x :: rest => b ← f x; bs ← go rest; mret (b :: bs)
    end.

(** An [int] of more than [max_digits] decimal digits has no [repr];
    [max_digits] is [sys.int_max_str_digits], [0%nat] for no limit. *)
Definition too_long (max_digits : nat) (n : Z) : bool :=
  negb (Nat.eqb max_digits 0) && (10 ^ Z.of_nat max_digits <=? Z.abs n).

(** [json.dump(v, f, indent=2, ensure_ascii=False)] into a file opened with
    [encoding='utf-8'].  The encoder walks the value in order and hands each
    chunk to the file as it goes, so the first value it cannot write ends
    the dump: an [int] without [repr], a [str] with a lone surrogate (which
    UTF-8 refuses), a container nested deeper than recursion allows.
    [depth] is the number of containers that may still be entered. *)
Fixpoint dump_value (P : platform) (depth : nat) (v : pyval) {struct v}
  : result json :=
  match v with
  | PNone => Ok JNull
  | PBool b => Ok (JBool b)
  | PInt n =>
      if too_long (int_max_str_digits P) n
      then raise ValueError "Exceeds the limit for integer string conversion"
      else Ok (JInt n)
  | PFloat f => Ok (JFloat f)
  | PStr s => Ok (JString (codes s))
  | PText cs =>
      if existsb surrogate cs
      then raise UnicodeEncodeError
                 "'utf-8' codec can't encode character: surrogates not allowed"
      else Ok (JString cs)
  | PList items =>
      match depth with
      | O => raise RecursionError "maximum recursion depth exceeded"
      | S d => js ← traverse (dump_value P d) items; mret (JArray js)
      end
  | PDict entries =>
      match depth with
      | O => raise RecursionError "maximum recursion depth exceeded"
      | S d =>
          ms ← traverse (fun e => j ← dump_value P d (snd e); mret (fst e, j))
                        entries;
          mret (JObject ms)
      end
  end.

(** [d[key] = v] on a [dict] given by its entries. *)
Fixpoint update {A} (key : string) (v : A) (entries : list (string * A))
  : list (string * A) :=
  match entries with
  | [] => [(key, v)]
  | (k, x) :: rest =>
      if String.eqb k key then (k, v) :: rest else (k, x) :: update key v rest
  end.

(** [dict(pairs)]: a key that comes again keeps its place and takes the
    later value. *)
Definition dict_of {A} (pairs : list (string * A)) : list (string * A) :=
  fold_left (fun d p => update (fst p) (snd p) d) pairs [].

(** [json.load]: the Python value that a JSON document denotes. *)
Fixpoint load_value (j : json) : pyval :=
  match j with
  | JNull => PNone
  | JBool b => PBool b
  | JInt n => PInt n
  | JFloat f => PFloat f
  | JString cs => str_of cs
  | JArray items => PList (map load_value items)
  | JObject members =>
      PDict (dict_of (map (fun m => (fst m, load_value (snd m))) members))
  end.

(** *** Equality of values *)

(** [n == f] for an [int] and a [float]: the comparison is exact. *)
Definition int_eq_float (n : Z) (f : spec_float) : bool :=
  match f with
  | S754_zero _ => n =? 0
  | S754_finite s m e =>
      let mag := if s then Z.neg m else Z.pos m in
      if 0 <=? e then n =? mag * 2 ^ e else n * 2 ^ (- e) =? mag
  | _ => false
  end.

Definition int_of_bool (b : bool) : Z := if b then 1 else 0.

(** The code points of a [str]. *)
Definition text_of (v : pyval) : option (list N) :=
  match v with
  | PStr s => Some (codes s)
  | PText cs => Some cs
  | _ => None
  end.

Definition same_codes (a b : list N) : bool :=
  Nat.eqb (List.length a) (List.length b)
  && forallb (fun p => N.eqb (fst p) (snd p)) (combine a b).

(** [a == b] for two values that are not the same object: numbers compare
    by value across [bool], [int] and [float], and NaN equals nothing, not
    even itself; sequences compare item by item; a [dict] equals a [dict]
    with the same keys and equal values, whatever the order. *)
Fixpoint py_eq (a b : pyval) {struct a} : bool :=
  match a, b with
  | PNone, PNone => true
  | PBool x, PBool y => Bool.eqb x y
  | PBool x, PInt n | PInt n, PBool x => int_of_bool x =? n
  | PBool x, PFloat f | PFloat f, PBool x => int_eq_float (int_of_bool x) f
  | PInt n, PInt m => n =? m
  | PInt n, PFloat f | PFloat f, PInt n => int_eq_float n f
  | PFloat f, PFloat g => SFeqb f g
  | PStr s, _ =>
      match text_of b with
      | Some cs => same_codes (codes s) cs
      | None => false
      end
  | PText cs, _ =>
      match text_of b with
      | Some ds => same_codes cs ds
      | None => false
      end
  | PList xs, PList ys =>
      (fix go xs ys :=
         match xs, ys with
         | [], [] => true
         | x :: xs', y :: ys' => py_eq x y && go xs' ys'
         | _, _ => false
         end) xs ys
  | PDict d, PDict e =>
      Nat.eqb (List.length d) (List.length e)
      && (fix go d :=
            match d with
            | [] => true
            | (k, v) :: d' =>
                match assoc k e with
                | Some v' => py_eq v v'
                | None => false
                end && go d'
            end) d
  | _, _ => false
  end.

(** ** Files, console and the monad of effects *)

Inductive file :=
| JsonFile (doc : json)                  (* a complete JSON text *)
| CsvFile (header : list string) (rows : list (list value))
| Truncated.                             (* what an interrupted dump leaves *)

Record world := {
  files : gmap string file;
  stdout : list string;
}.

Definition M (A : Type) : Type := world -> result A * world.

#[export] Instance M_ret : MRet M := fun _ a w => (Ok a, w).
#[export] Instance M_bind : MBind M := fun _ _ k m w =>
  match m w with
  | (Ok a, w') => k a w'
  | (Raise e, w') => (Raise e, w')
  end.

Definition lift {A} (r : result A) : M A := fun w => (r, w).

(** [try: m except Exception as e: h e]; what [m] did before raising stays
    done. *)
Definition try_except {A} (m : M A) (h : exn -> M A) : M A := fun w =>
  match m w with
  | (Ok a, w') => (Ok a, w')
  | (Raise e, w') => h e w'
  end.

Definition print (line : string) : M unit := fun w =>
  (Ok tt, {| files := files w; stdout := stdout w ++ [line] |}).

Definition write (filename : string) (f : file) : M unit := fun w =>
  (Ok tt, {| files := <[filename := f]> (files w); stdout := stdout w |}).

Definition show_nat (n : nat) : string :=
  NilEmpty.string_of_uint (Nat.to_uint n).

(** ** The class [CMCParser] *)

Module CMCParser.

Definition BASE_URL : string := "https://coinmarketcap.com".

Definition api_url : string :=
  "https://api.coinmarketcap.com/data-api/v3/cryptocurrency/listing".

Definition zero : spec_float := S754_zero false.

Definition newline : ascii := "010"%char.
Definition quote_mark : string := String "034"%char EmptyString.

(** The pattern of [re.search] is a literal opening tag, a shortest group
    (which, with [re.DOTALL], may span lines) and a literal closing tag. *)
Definition opening_tag : string :=
  "<script id=" ++ quote_mark ++ "__NEXT_DATA__" ++ quote_mark
  ++ " type=" ++ quote_mark ++ "application/json" ++ quote_mark ++ ">".

Definition closing_tag : string := "</script>".

(** The text after [needle], when [text] starts with it. *)
Fixpoint after (needle text : string) : option string :=
  match needle, text with
  | EmptyString, _ => Some text
  | String a n', String b t' => if Ascii.eqb a b then after n' t' else None
  | String _ _, EmptyString => None
  end.

(** The shortest prefix of [text] that [stop] follows. *)
Fixpoint shortest_before (stop text : string) : option string :=
  if Py.starts_with stop text then Some EmptyString
  else match text with
       | EmptyString => None
       | String c rest => String c <$> shortest_before stop rest
       end.

Definition match_here (s : string) : option string :=
  rest ← after opening_tag s; shortest_before closing_tag rest.

(** [re.search(pattern, s, re.DOTALL)]: the group of the leftmost match. *)
Fixpoint re_search (s : string) : option string :=
  match match_here s with
  | Some group => Some group
  | None =>
      match s with
      | EmptyString => None
      | String _ rest => re_search rest
      end
  end.

(** Truth value of [script.string]. *)
Definition truthy (s : option string) : bool :=
  match s with
  | Some (String _ _) => true
  | _ => false
  end.

Definition len {A} (xs : list A) : Z := Z.of_nat (List.length xs).

(** The loop [for x in xs: out.append(f(x))] run inside a [try] block: the
    items appended before the first exception, and that exception. *)
Fixpoint collect {A B} (f : A -> result B) (xs : list A)
  : list B * option exn :=
  match xs with
  | [] => ([], None)
  | x :: rest =>
      match f x with
      | Ok b => let '(bs, e) := collect f rest in (b :: bs, e)
      | Raise e => ([], Some e)
      end
  end.

(** The envelope that [save_to_json] dumps. *)
Record Output := {
  timestamp : string;
  count : Z;
  data : list record;
}.

(** [json.dump] turns the envelope into a JSON document, field by field in
    the order of the records; a tag is not serializable.  The count of a
    list in memory is far below any digit limit that can be set. *)
Definition encode_value (P : platform) (x : value) : result json :=
  match x with
  | V v => dump_value P (nesting_limit P) v
  | T _ => raise TypeError "Object of type Tag is not JSON serializable"
  end.

Fixpoint encode_fields (P : platform) (r : record)
  : result (list (string * json)) :=
  match r with
  | [] => Ok []
  | (k, x) :: rest =>
      v ← encode_value P x; vs ← encode_fields P rest; mret ((k, v) :: vs)
  end.

Fixpoint encode_records (P : platform) (rs : list record)
  : result (list json) :=
  match rs with
  | [] => Ok []
  | r :: rest =>
      d ← encode_fields P r; ds ← encode_records P rest;
      mret (JObject d :: ds)
  end.

Definition json_dump (P : platform) (output : Output) : result json :=
  ds ← encode_records P (data output);
  mret (JObject [("timestamp", JString (codes (timestamp output)));
                 ("count", JInt (count output));
                 ("data", JArray ds)]).

(** [json.load] on a file: a complete document is decoded, anything else
    is refused. *)
Definition json_load (f : option file) : result pyval :=
  match f with
  | Some (JsonFile doc) => Ok (load_value doc)
  | Some _ => raise JSONDecodeError "Expecting value"
  | None => raise OSError "No such file or directory"
  end.

(** [csv.DictWriter]: a row may not have a key outside the header, and a
    key it lacks is written as the empty string.  A CSV file records the
    rows as the values handed to [writerow]; their text is the library's. *)
Definition in_header (header : list string) (k : string) : bool :=
  existsb (String.eqb k) header.

Definition _dict_to_list (header : list string) (r : record)
  : result (list value) :=
  if forallb (in_header header) (keys r)
  then Ok (map (fun k => default (V (PStr "")) (assoc k r)) header)
  else raise ValueError "dict contains fields not in fieldnames".

Section Methods.

Variable P : platform.

(** [open(filename, 'w')]: raises when the file cannot be opened, else
    leaves it empty. *)
Definition open_w (filename : string) : M unit :=
  if writable P filename then write filename Truncated
  else lift (raise OSError "cannot open file for writing").

Definition _clean_number (text : string) : result Z :=
  rtry (Py.int (int_max_str_digits P) (Py.filter_join Py.isdigit text))
       (fun _ => Ok 0).

Definition _clean_price (text : string) : result spec_float :=
  rtry (let cleaned := Py.strip (Py.remove "," (Py.remove "$" text)) in
        Py.float cleaned)
       (fun _ => Ok zero).

Definition _clean_percent (text : string) : result spec_float :=
  rtry (let cleaned := Py.strip (Py.remove "," (Py.remove "%" text)) in
        Py.float cleaned)
       (fun _ => Ok zero).

(** [None] is Python's [None], returned by the bare [except]. *)
Definition _parse_coin_data (item : pyval) : option record :=
  let body : result record :=
    usd ← get item "quote" (PDict []);
    quote ← get usd "USD" (PDict []);
    rank' ← get item "rank" PNone;
    rank ← get item "cmc_rank" rank';
    name ← get item "name" PNone;
    symbol ← get item "symbol" PNone;
    price ← get quote "price" PNone;
    change_1h ← get quote "percent_change_1h" PNone;
    change_24h ← get quote "percent_change_24h" PNone;
    change_7d ← get quote "percent_change_7d" PNone;
    market_cap ← get quote "market_cap" PNone;
    volume_24h ← get quote "volume_24h" PNone;
    circulating_supply ← get item "circulating_supply" PNone;
    mret [("rank", V rank); ("name", V name); ("symbol", V symbol);
          ("price", V price); ("change_1h", V change_1h);
          ("change_24h", V change_24h); ("change_7d", V change_7d);
          ("market_cap", V market_cap); ("volume_24h", V volume_24h);
          ("circulating_supply", V circulating_supply)]
  in
  match body with
  | Ok coin => Some coin
  | Raise _ => None
  end.

(** The cells of one row, read at their fixed positions. *)
Definition row_record (cells : Row) : result record :=
  c1 ← index cells 1;
  rank ← _clean_number (cell_text_strip c1);
  c2 ← index cells 2;
  let name := List.hd EmptyString (Py.split newline (cell_text_strip c2)) in
  let symbol :=
    if Py.contains newline (cell_text c2) then
      match cell_symbol c2 with
      | Some tag => T tag
      | None => V (PStr (List.last (Py.split newline (cell_text_strip c2))
                                   EmptyString))
      end
    else V (PStr EmptyString) in
  c3 ← index cells 3;
  price ← _clean_price (cell_text_strip c3);
  c4 ← index cells 4;
  change_24h ← _clean_percent (cell_text_strip c4);
  c5 ← index cells 5;
  change_7d ← _clean_percent (cell_text_strip c5);
  c6 ← index cells 6;
  market_cap ← _clean_price (cell_text_strip c6);
  volume_24h ←
    (if 7 <? len cells
     then c7 ← index cells 7;
          volume ← _clean_price (cell_text_strip c7);
          mret (V (PFloat volume))
     else mret (V PNone));
  mret [("rank", V (PInt rank)); ("name", V (PStr name)); ("symbol", symbol);
        ("price", V (PFloat price)); ("change_24h", V (PFloat change_24h));
        ("change_7d", V (PFloat change_7d));
        ("market_cap", V (PFloat market_cap)); ("volume_24h", volume_24h)].

Definition _parse_table (soup : Soup) (limit : Z) : result (list record) :=
  match soup_table soup with
  | None => Ok []
  | Some table =>
      let rows := slice 1 (limit + 1) table in
      for_each rows
        (fun row (coins : list record) =>
           if 7 <=? len row
           then rtry (coin ← row_record row; mret (coins ++ [coin])%list)
                     (fun _ => Ok coins)
           else Ok coins)
        []
  end.

(** One pass of the loop over the [script] tags of the page. *)
Definition listings_of (data : pyval) : result pyval :=
  props ← get data "props" (PDict []);
  state ← get props "initialState" (PDict []);
  crypto ← get state "cryptocurrency" (PDict []);
  latest ← get crypto "listingLatest" (PDict []);
  get latest "data" (PList []).

Definition add_item (item : pyval) (coins : list record)
  : result (list record) :=
  if is_dict item then
    match _parse_coin_data item with
    | Some (field :: fields) => Ok (coins ++ [field :: fields])%list
    | _ => Ok coins
    end
  else Ok coins.

Definition scan_script (limit : Z) (script : Script) (coins : list record)
  : result (list record) :=
  if truthy (script_string script)
     && Py.contains_str "__NEXT_DATA__" (script_str script)
  then
    match re_search (script_str script) with
    | Some group1 =>
        data ← json_loads P group1;
        listings ← listings_of data;
        items ← slice_items listings limit;
        for_each items add_item coins
    | None => Ok coins
    end
  else Ok coins.

Definition api_params (limit : Z) : list (string * pyval) :=
  [("start", PInt 1); ("limit", PInt limit); ("sortBy", PStr "market_cap");
   ("sortType", PStr "desc"); ("convert", PStr "USD");
   ("cryptoType", PStr "all"); ("tagType", PStr "all")].

Definition api_record (item : pyval) : result record :=
  quotes ← get item "quotes" (PList [PDict []]);
  quote ← first_item quotes;
  rank ← get item "cmcRank" PNone;
  name ← get item "name" PNone;
  symbol ← get item "symbol" PNone;
  price ← get quote "price" PNone;
  change_1h ← get quote "percentChange1h" PNone;
  change_24h ← get quote "percentChange24h" PNone;
  change_7d ← get quote "percentChange7d" PNone;
  market_cap ← get quote "marketCap" PNone;
  volume_24h ← get quote "volume24h" PNone;
  circulating_supply ← get item "circulatingSupply" PNone;
  mret [("rank", V rank); ("name", V name); ("symbol", V symbol);
        ("price", V price); ("change_1h", V change_1h);
        ("change_24h", V change_24h); ("change_7d", V change_7d);
        ("market_cap", V market_cap); ("volume_24h", V volume_24h);
        ("circulating_supply", V circulating_supply)].

(** The [try] block of [_fetch_via_api]: the coins appended so far and the
    exception that ended the block, if any. *)
Definition api_block (limit : Z) : list record * option exn :=
  let listed : result (list pyval) :=
    response ← session_get P api_url (api_params limit);
    data ← json_loads P (text response);
    inner ← get data "data" (PDict []);
    listing ← get inner "cryptoCurrencyList" (PList []);
    items_of listing
  in
  match listed with
  | Ok items => collect api_record items
  | Raise e => ([], Some e)
  end.

Definition _fetch_via_api (limit : Z) : M (list record) :=
  let '(coins, failure) := api_block limit in
  match failure with
  | Some e => print ("API Error: " ++ exn_msg e)
  | None => mret tt
  end;;
  mret coins.

(** The [try] block of [get_top_coins]: first the part that works on the
    parsed page, then the whole block. *)
Definition extract (limit : Z) (soup : Soup) : result (list record) :=
  coins ← for_each (soup_scripts soup) (scan_script limit) [];
  match coins with
  | [] => _parse_table soup limit
  | _ => Ok coins
  end.

Definition primary (limit : Z) : result (list record) :=
  response ← session_get P (BASE_URL ++ "/") [];
  _ ← raise_for_status response;
  soup ← BeautifulSoup P (text response);
  extract limit soup.

Definition get_top_coins (limit : Z) : M (list record) :=
  try_except (lift (primary limit))
    (fun e => print ("Error fetching data: " ++ exn_msg e);;
              _fetch_via_api limit).

Definition save_to_json (coins : list record) (filename : string) : M unit :=
  let output := {| timestamp := now_isoformat P;
                   count := len coins;
                   data := coins |} in
  open_w filename;;
  doc ← lift (json_dump P output);
  write filename (JsonFile doc);;
  print ("Saved " ++ show_nat (List.length coins) ++ " coins to " ++ filename).

Definition save_to_csv (coins : list record) (filename : string) : M unit :=
  match coins with
  | [] => mret tt
  | first :: _ =>
      open_w filename;;
      let header := keys first in
      write filename (CsvFile header []);;
      let '(rows, failure) := collect (_dict_to_list header) coins in
      write filename (CsvFile header rows);;
      match failure with
      | Some e => lift (Raise e)
      | None =>
          print ("Saved " ++ show_nat (List.length coins) ++ " coins to "
                 ++ filename)
      end
  end.

End Methods.

End CMCParser.

(** ** The driver [main] *)

(** What Python's formatting machinery, arithmetic and console answer
    where the driver uses them: [format(x, spec)] and [x / 1e9] for a number
    [x], and [print(line)] for a line with a character beyond Latin-1 and no
    lone surrogate (whether the encoding of [sys.stdout] has the character
    is the console's affair: the answer is the line as it appears there, or
    the [UnicodeEncodeError] of the encoder). *)
Record formatter := {
  format_spec : value -> string -> result string;
  per_billion : value -> result value;
  console : list N -> result string;
}.

Module Driver.

Import CMCParser.

(** [s * n] *)
Fixpoint times (s : string) (n : nat) : string :=
  match n with
  | O => EmptyString
  | S k => s ++ times s k
  end.

(** [format(s, '<width')] and [format(s, '>width')] for a [str] [s]: spaces
    are added up to the width, nothing is cut. *)
Definition ljust (width : nat) (s : string) : string :=
  s ++ times " " (width - String.length s).

Definition rjust (width : nat) (s : string) : string :=
  times " " (width - String.length s) ++ s.

(** The truth value of a field, as [if price] tests it. *)
Definition truth (x : value) : bool :=
  match x with
  | V PNone => false
  | V (PBool b) => b
  | V (PInt n) => negb (n =? 0)
  | V (PFloat (S754_zero _)) => false
  | V (PFloat _) => true
  | V (PStr EmptyString) => false
  | V (PStr (String _ _)) => true
  | V (PText []) => false
  | V (PText (_ :: _)) => true
  | V (PList []) => false
  | V (PList (_ :: _)) => true
  | V (PDict []) => false
  | V (PDict (_ :: _)) => true
  | T _ => true
  end.

(** [coin.get(key, dflt)] *)
Definition field (coin : record) (key : string) (dflt : value) : value :=
  default dflt (assoc key coin).

Definition rule : string := times "=" 80.

Definition heading : string :=
  ljust 6 "Rank" ++ ljust 10 "Symbol" ++ ljust 20 "Name" ++ rjust 15 "Price"
  ++ rjust 10 "24h %" ++ rjust 20 "Market Cap".

Section Display.

Variable P : platform.
Variable F : formatter.

(** [f"{x:<width}"]: a [str] is padded with spaces up to the width, a
    number is left to the formatter, and [None], a [list], a [dict] and a
    tag have no format specification. *)
Definition left_aligned (x : value) (width : nat) (spec : string)
  : result (list N) :=
  match x with
  | V (PStr s) => Ok (codes (ljust width s))
  | V (PText cs) => Ok (cs ++ repeat 32%N (width - List.length cs))%list
  | V (PBool _) | V (PInt _) | V (PFloat _) =>
      s ← format_spec F x spec; mret (codes s)
  | V PNone =>
      raise TypeError "unsupported format string passed to NoneType.__format__"
  | V (PList _) =>
      raise TypeError "unsupported format string passed to list.__format__"
  | V (PDict _) =>
      raise TypeError "unsupported format string passed to dict.__format__"
  | T _ =>
      raise TypeError "unsupported format string passed to Tag.__format__"
  end.

(** [f"{x:,.2f}"] and [f"{x:+.2f}"]: a number is left to the formatter. *)
Definition fixed_point (x : value) (spec : string) : result string :=
  match x with
  | V (PStr _) | V (PText _) =>
      raise ValueError "Unknown format code 'f' for object of type 'str'"
  | V (PBool _) | V (PInt _) | V (PFloat _) => format_spec F x spec
  | V PNone =>
      raise TypeError "unsupported format string passed to NoneType.__format__"
  | V (PList _) =>
      raise TypeError "unsupported format string passed to list.__format__"
  | V (PDict _) =>
      raise TypeError "unsupported format string passed to dict.__format__"
  | T _ =>
      raise TypeError "unsupported format string passed to Tag.__format__"
  end.

(** [x / 1e9]: only a number can be divided. *)
Definition billions_of (x : value) : result value :=
  match x with
  | V (PBool _) | V (PInt _) | V (PFloat _) => per_billion F x
  | _ => raise TypeError "unsupported operand type(s) for /"
  end.

(** [print(line)]: a Latin-1 line goes to the console as it is; no encoding
    takes a lone surrogate. *)
Definition print_line (line : list N) : M unit :=
  match narrow line with
  | Some s => print s
  | None =>
      if existsb surrogate line
      then lift (raise UnicodeEncodeError
                       "codec can't encode character: surrogates not allowed")
      else s ← lift (console F line); print s
  end.

(** The body of the loop over the coins: one line of the table. *)
Definition line_of (coin : record) : result (list N) :=
  let price := field coin "price" (V (PInt 0)) in
  let change := field coin "change_24h" (V (PInt 0)) in
  let mcap := field coin "market_cap" (V (PInt 0)) in
  price_str ←
    (if truth price
     then s ← fixed_point price ",.2f"; mret ("$" ++ s)
     else mret "N/A");
  change_str ←
    (if truth change
     then s ← fixed_point change "+.2f"; mret (s ++ "%")
     else mret "N/A");
  mcap_str ←
    (if truth mcap
     then billions ← billions_of mcap;
          s ← fixed_point billions ",.2f";
          mret ("$" ++ s ++ "B")
     else mret "N/A");
  rank ← left_aligned (field coin "rank" (V (PStr "N/A"))) 6 "<6";
  symbol ← left_aligned (field coin "symbol" (V (PStr "N/A"))) 10 "<10";
  name ← left_aligned (field coin "name" (V (PStr "N/A"))) 20 "<20";
  mret (rank ++ symbol ++ name
        ++ codes (rjust 15 price_str ++ rjust 10 change_str
                  ++ rjust 20 mcap_str))%list.

(** [for coin in coins: print(line)] *)
Fixpoint show (coins : list record) : M unit :=
  match coins with
  | [] => mret tt
  | coin :: rest => line ← lift (line_of coin); print_line line;; show rest
  end.

Definition main : M unit :=
  print "Fetching top 20 cryptocurrencies from CoinMarketCap...";;
  coins ← get_top_coins P 20;
  match coins with
  | [] => print "No data retrieved"
  | _ =>
      print (String newline rule);;
      print heading;;
      print rule;;
      show coins;;
      print (rule ++ String newline EmptyString);;
      save_to_json P coins "coins_data.json";;
      save_to_csv P coins "coins_data.csv"
  end.

End Display.

End Driver.

(** ** Sample platforms

    Concrete pages and answers, used to run the code. *)

Module Sample.

Import CMCParser.

Definition quiet : world := {| files := ∅; stdout := [] |}.

Definition page : response := {| status_code := 200; text := "<html>" |}.

Definition usd (price : Z) : pyval :=
  PDict [("USD", PDict [("price", PInt price); ("market_cap", PInt (price * 1000))])].

Definition listing_item (rank : Z) (name symbol : string) (price : Z) : pyval :=
  PDict [("cmc_rank", PInt rank); ("name", PStr name); ("symbol", PStr symbol);
         ("quote", usd price); ("circulating_supply", PInt 21)].

Definition five_items : list pyval :=
  [listing_item 1 "Bitcoin" "BTC" 60000; listing_item 2 "Ethereum" "ETH" 3000;
   listing_item 3 "Tether" "USDT" 1; listing_item 4 "BNB" "BNB" 500;
   listing_item 5 "Solana" "SOL" 150].

Definition next_data : pyval :=
  PDict [("props", PDict [("initialState", PDict [("cryptocurrency",
    PDict [("listingLatest", PDict [("data", PList five_items)])])])])].

Definition payload_script : Script :=
  {| script_string := Some "{payload}";
     script_str := opening_tag ++ "{payload}" ++ closing_tag |}.

Definition other_script : Script :=
  {| script_string := Some "var a = 1;";
     script_str := "<script>var a = 1;</script>" |}.

Definition cell (s : string) : Cell :=
  {| cell_text := s; cell_text_strip := Py.strip s; cell_symbol := None |}.

Definition coin_row (rank name price day week cap volume : string) : Row :=
  [cell ""; cell rank; cell name; cell price; cell day; cell week; cell cap;
   cell volume].

Definition header_row : Row := [].

Definition four_rows : list Row :=
  [coin_row "1" "Bitcoin" "$60,000.00" "+1.5%" "-2.25%" "$1,200,000" "$35,000";
   coin_row "2" "Ethereum" "$3,000.50" "0.10%" "4%" "$360,000" "$15,000";
   coin_row "3" "Tether" "$1.00" "0.00%" "0.01%" "$100,000" "$50,000";
   coin_row "4" "BNB" "$500" "-0.5%" "1%" "$75,000" "$1,000"].

(** A name cell that spans two lines and holds the symbol in a tagged
    paragraph. *)
Definition symbol_tag : Tag :=
  {| tag_str := "<p class=" ++ quote_mark ++ "coin-item-symbol" ++ quote_mark
                ++ ">BTC</p>" |}.

Definition tagged_name : Cell :=
  {| cell_text := String newline "Bitcoin" ++ String newline "BTC";
     cell_text_strip := "BitcoinBTC";
     cell_symbol := Some symbol_tag |}.

Definition tagged_row : Row :=
  [cell ""; cell "1"; tagged_name; cell "$60,000.00"; cell "+1.5%";
   cell "-2.25%"; cell "$1,200,000"; cell "$35,000"].

Definition api_item (rank : Z) (name symbol : string) : pyval :=
  PDict [("cmcRank", PInt rank); ("name", PStr name); ("symbol", PStr symbol);
         ("quotes", PList [PDict [("price", PInt 1)]])].

Definition api_answer : pyval :=
  PDict [("data", PDict [("cryptoCurrencyList",
    PList [api_item 1 "Bitcoin" "BTC"; api_item 2 "Ethereum" "ETH";
           api_item 3 "Tether" "USDT"])])].

(** A platform is fixed by the page it parses and by whether the site
    answers; its API sends [api_answer]. *)
Definition serving (soup : Soup) (online : bool) : platform :=
  {| session_get := fun url _ =>
       if String.eqb url api_url
       then Ok {| status_code := 200; text := "{api}" |}
       else if online then Ok page
       else raise ConnectionError "Max retries exceeded";
     BeautifulSoup := fun _ => Ok soup;
     json_loads := fun s =>
       if String.eqb s "{payload}" then Ok next_data
       else if String.eqb s "{api}" then Ok api_answer
       else raise JSONDecodeError "Expecting value";
     int_max_str_digits := 4300;
     now_isoformat := "2024-01-01T00:00:00";
     writable := fun _ => true;
     nesting_limit := 300 |}.

Definition structured_soup : Soup :=
  {| soup_scripts := [other_script; payload_script]; soup_table := None |}.

Definition table_soup : Soup :=
  {| soup_scripts := [other_script];
     soup_table := Some (header_row :: four_rows) |}.

Definition tagged_soup : Soup :=
  {| soup_scripts := []; soup_table := Some [header_row; tagged_row] |}.

Definition structured_site : platform := serving structured_soup true.

Definition table_site : platform := serving table_soup true.

Definition tagged_site : platform := serving tagged_soup true.

Definition offline_site : platform :=
  serving {| soup_scripts := []; soup_table := None |} false.

(** A platform on which no file can be opened for writing. *)
Definition read_only_site : platform :=
  {| session_get := session_get offline_site;
     BeautifulSoup := BeautifulSoup offline_site;
     json_loads := json_loads offline_site;
     int_max_str_digits := 4300;
     now_isoformat := "2024-01-01T00:00:00";
     writable := fun _ => false;
     nesting_limit := 300 |}.

(** A page that carries the payload twice. *)
Definition twin_site : platform :=
  serving {| soup_scripts := [payload_script; payload_script];
             soup_table := None |} true.

(** The records expected from these platforms. *)
Definition api_coin (rank : Z) (name symbol : string) : record :=
  [("rank", V (PInt rank)); ("name", V (PStr name)); ("symbol", V (PStr symbol));
   ("price", V (PInt 1)); ("change_1h", V PNone); ("change_24h", V PNone);
   ("change_7d", V PNone); ("market_cap", V PNone); ("volume_24h", V PNone);
   ("circulating_supply", V PNone)].

Definition listed_coin (rank : Z) (name symbol : string) (price : Z) : record :=
  [("rank", V (PInt rank)); ("name", V (PStr name)); ("symbol", V (PStr symbol));
   ("price", V (PInt price)); ("change_1h", V PNone); ("change_24h", V PNone);
   ("change_7d", V PNone); ("market_cap", V (PInt (price * 1000)));
   ("volume_24h", V PNone); ("circulating_supply", V (PInt 21))].

Definition first_three : list record :=
  [listed_coin 1 "Bitcoin" "BTC" 60000; listed_coin 2 "Ethereum" "ETH" 3000;
   listed_coin 3 "Tether" "USDT" 1].

Definition decimal (neg : bool) (digits scale : Z) : value :=
  V (PFloat (Py.float_of_decimal neg digits (- scale))).

Definition tagged_coins : list record :=
  [[("rank", V (PInt 1)); ("name", V (PStr "BitcoinBTC"));
    ("symbol", T symbol_tag); ("price", decimal false 6000000 2);
    ("change_24h", decimal false 15 1); ("change_7d", decimal true 225 2);
    ("market_cap", decimal false 1200000 0);
    ("volume_24h", decimal false 35000 0)]].

Definition plain_coins : list record :=
  [api_coin 1 "Bitcoin" "BTC"; api_coin 2 "Ethereum" "ETH"].

(** The records of [four_rows]. *)
Definition table_coin (rank : Z) (name : string)
           (price day week cap volume : value) : record :=
  [("rank", V (PInt rank)); ("name", V (PStr name)); ("symbol", V (PStr ""));
   ("price", price); ("change_24h", day); ("change_7d", week);
   ("market_cap", cap); ("volume_24h", volume)].

Definition table_coins : list record :=
  [table_coin 1 "Bitcoin" (decimal false 6000000 2) (decimal false 15 1)
              (decimal true 225 2) (decimal false 1200000 0)
              (decimal false 35000 0);
   table_coin 2 "Ethereum" (decimal false 300050 2) (decimal false 10 2)
              (decimal false 4 0) (decimal false 360000 0)
              (decimal false 15000 0);
   table_coin 3 "Tether" (decimal false 100 2) (decimal false 0 2)
              (decimal false 1 2) (decimal false 100000 0)
              (decimal false 50000 0);
   table_coin 4 "BNB" (decimal false 500 0) (decimal true 5 1)
              (decimal false 1 0) (decimal false 75000 0)
              (decimal false 1000 0)].

End Sample.

(** ** Vocabulary of the statements *)

Definition ten_keys : list string :=
  ["rank"; "name"; "symbol"; "price"; "change_1h"; "change_24h"; "change_7d";
   "market_cap"; "volume_24h"; "circulating_supply"].

Definition eight_keys : list string :=
  ["rank"; "name"; "symbol"; "price"; "change_24h"; "change_7d";
   "market_cap"; "volume_24h"].

(** The field values of a record, in order: its row in the CSV file. *)
Definition values (r : record) : list value := map snd r.

(** The primary download succeeds and parses into [soup]. *)
Definition fetches (P : platform) (soup : Soup) : Prop :=
  exists response,
    session_get P (CMCParser.BASE_URL ++ "/") [] = Ok response
    /\ raise_for_status response = Ok tt
    /\ BeautifulSoup P (text response) = Ok soup.

(** A script that the loop of [get_top_coins] passes over. *)
Definition no_payload (script : Script) : bool :=
  negb (CMCParser.truthy (script_string script)
        && Py.contains_str "__NEXT_DATA__" (script_str script)).

(** Exactly one script of the page carries the embedded payload, and its
    listings array is [items]. *)
Definition embeds (P : platform) (soup : Soup) (items : list pyval) : Prop :=
  exists before script after payload data,
    soup_scripts soup = (before ++ script :: after)%list
    /\ forallb no_payload before = true
    /\ forallb no_payload after = true
    /\ no_payload script = false
    /\ CMCParser.re_search (script_str script) = Some payload
    /\ json_loads P payload = Ok data
    /\ CMCParser.listings_of data = Ok (PList items).

(** The outcome of the structured-data path on a parsed page. *)
Definition structured (P : platform) (limit : Z) (soup : Soup)
  : result (list record) :=
  for_each (soup_scripts soup) (CMCParser.scan_script P limit) [].

(** A listing item whose quote, and the USD entry in it, are objects when
    present. *)
Definition well_formed (item : pyval) : bool :=
  match item with
  | PDict entries =>
      match assoc "quote" entries with
      | None => true
      | Some (PDict quotes) =>
          match assoc "USD" quotes with
          | None | Some (PDict _) => true
          | Some _ => false
          end
      | Some _ => false
      end
  | _ => false
  end.

(** The rank that a listing item announces. *)
Definition rank_of (item : pyval) : pyval :=
  match item with
  | PDict entries =>
      default (default PNone (assoc "rank" entries)) (assoc "cmc_rank" entries)
  | _ => PNone
  end.

(** Every field of every record is a plain value. *)
Definition plain (r : record) : bool :=
  forallb (fun field => match snd field with V _ => true | T _ => false end) r.

(** ** More vocabulary *)

(** An item of the API listing whose projection does not raise: an object
    whose [quotes], when present, is a list that starts with an object. *)
Definition api_well_formed (item : pyval) : bool :=
  match item with
  | PDict entries =>
      match assoc "quotes" entries with
      | None | Some (PList (PDict _ :: _)) => true
      | Some _ => false
      end
  | _ => false
  end.

(** The longest prefix of [xs] whose elements satisfy [p]. *)
Fixpoint leading {A} (p : A -> bool) (xs : list A) : list A :=
  match xs with
  | [] => []
  | x :: rest => if p x then x :: leading p rest else []
  end.

(** The listing that the secondary API answers with, when it answers. *)
Definition api_lists (P : platform) (limit : Z) (items : list pyval) : Prop :=
  exists response data inner,
    session_get P CMCParser.api_url (CMCParser.api_params limit) = Ok response
    /\ json_loads P (text response) = Ok data
    /\ get data "data" (PDict []) = Ok inner
    /\ get inner "cryptoCurrencyList" (PList []) = Ok (PList items).

(** A row that [_parse_table] reads. *)
Definition wide (row : Row) : bool := 7 <=? CMCParser.len row.

(** The name cell of a row spans lines and holds a symbol paragraph. *)
Definition tagged (cells : Row) : bool :=
  match nth_error cells 2 with
  | Some cell =>
      Py.contains CMCParser.newline (cell_text cell)
      && match cell_symbol cell with Some _ => true | None => false end
  | None => false
  end.

(** The row that [csv.DictWriter] writes for a record under a header. *)
Definition csv_row (header : list string) (r : record) : list value :=
  map (fun k => default (V (PStr "")) (assoc k r)) header.

(** Every key of the record is in the header. *)
Definition fits (header : list string) (r : record) : bool :=
  forallb (CMCParser.in_header header) (keys r).

(** The characters of a numeric literal that is not an infinity or NaN. *)
Definition numeric_char (c : ascii) : bool :=
  Py.isdecimal c || Ascii.eqb c "." || Ascii.eqb c "_" || Ascii.eqb c "+"
  || Ascii.eqb c "-" || Ascii.eqb c "e" || Ascii.eqb c "E".

(** The characters that a cleaning function can make sense of: those of a
    numeric literal, the symbol it drops, the comma and whitespace. *)
Definition cell_char (symbol : ascii) (c : ascii) : bool :=
  numeric_char c || Py.isspace c || Ascii.eqb c "," || Ascii.eqb c symbol.

(** The records that [get_top_coins] returns: those of the primary block,
    or what the secondary API path collected when that block raised. *)
Definition fetched (P : platform) (limit : Z) : list record :=
  match CMCParser.primary P limit with
  | Ok coins => coins
  | Raise _ => fst (CMCParser.api_block P limit)
  end.

(** *** Table rows, cell by cell *)

Definition blank : Cell :=
  {| cell_text := ""; cell_text_strip := ""; cell_symbol := None |}.

(** The stripped text of the cell at position [i] of a row. *)
Definition stripped (row : Row) (i : nat) : string :=
  cell_text_strip (List.nth i row blank).

(** What a cleaning function returns. *)
Definition cleaned {A} (dflt : A) (r : result A) : A :=
  match r with
  | Ok a => a
  | Raise _ => dflt
  end.

(** The record that a table row stands for: the rank is read from the cell
    at index 1, name and symbol from the cell at index 2, the price from
    index 3, the changes over a day and a week from indices 4 and 5, the
    market cap from index 6 and the volume from index 7 when the row has
    that cell. *)
Definition table_record (P : platform) (row : Row) : record :=
  let name_cell := List.nth 2 row blank in
  let lines := Py.split CMCParser.newline (cell_text_strip name_cell) in
  [("rank", V (PInt (cleaned 0 (CMCParser._clean_number P (stripped row 1)))));
   ("name", V (PStr (List.hd EmptyString lines)));
   ("symbol",
    if Py.contains CMCParser.newline (cell_text name_cell)
    then match cell_symbol name_cell with
         | Some tag => T tag
         | None => V (PStr (List.last lines EmptyString))
         end
    else V (PStr EmptyString));
   ("price",
    V (PFloat (cleaned CMCParser.zero (CMCParser._clean_price (stripped row 3)))));
   ("change_24h",
    V (PFloat (cleaned CMCParser.zero
                 (CMCParser._clean_percent (stripped row 4)))));
   ("change_7d",
    V (PFloat (cleaned CMCParser.zero
                 (CMCParser._clean_percent (stripped row 5)))));
   ("market_cap",
    V (PFloat (cleaned CMCParser.zero (CMCParser._clean_price (stripped row 6)))));
   ("volume_24h",
    match nth_error row 7 with
    | Some cell =>
        V (PFloat (cleaned CMCParser.zero
                     (CMCParser._clean_price (cell_text_strip cell))))
    | None => V PNone
    end)].

(** *** What [json.dump] takes and gives back *)

(** A value that [json.dump] writes: no [int] beyond the digit limit, no
    [str] with a lone surrogate, no nesting beyond [depth] containers. *)
Fixpoint dumpable (P : platform) (depth : nat) (v : pyval) {struct v} : bool :=
  match v with
  | PInt n => negb (too_long (int_max_str_digits P) n)
  | PText cs => negb (existsb surrogate cs)
  | PList items =>
      match depth with
      | O => false
      | S d => forallb (dumpable P d) items
      end
  | PDict entries =>
      match depth with
      | O => false
      | S d => forallb (fun e => dumpable P d (snd e)) entries
      end
  | _ => true
  end.

(** The plain values of the record are such values. *)
Definition sound (P : platform) (r : record) : bool :=
  forallb (fun field =>
             match snd field with
             | V v => dumpable P (nesting_limit P) v
             | T _ => true
             end) r.

(** A record that [json.dump] writes: no tag, and values as above. *)
Definition serializable (P : platform) (r : record) : bool :=
  plain r && sound P r.

(** The keys are pairwise different, as those of a [dict] are. *)
Fixpoint distinct (ks : list string) : bool :=
  match ks with
  | [] => true
  | k :: rest => negb (existsb (String.eqb k) rest) && distinct rest
  end.

Fixpoint keyed (v : pyval) : bool :=
  match v with
  | PList items => forallb keyed items
  | PDict entries =>
      distinct (map fst entries) && forallb (fun e => keyed (snd e)) entries
  | _ => true
  end.

(** The record is a [dict], and so is every object inside its values. *)
Definition well_keyed (r : record) : bool :=
  distinct (keys r)
  && forallb (fun field =>
                match snd field with
                | V v => keyed v
                | T _ => true
                end) r.

(** No NaN among the floats of the value. *)
Fixpoint nan_free (v : pyval) : bool :=
  match v with
  | PFloat S754_nan => false
  | PList items => forallb nan_free items
  | PDict entries => forallb (fun e => nan_free (snd e)) entries
  | _ => true
  end.

Definition without_nan (r : record) : bool :=
  forallb (fun field =>
             match snd field with
             | V v => nan_free v
             | T _ => true
             end) r.

(** Two dictionaries are equal when they have as many entries and every
    key of the first has an equal value in the second. *)
Definition same_entries {A B} (eq : A -> B -> bool)
           (d : list (string * A)) (e : list (string * B)) : bool :=
  Nat.eqb (List.length d) (List.length e)
  && forallb (fun m =>
                match assoc (fst m) e with
                | Some b => eq (snd m) b
                | None => false
                end) d.

(** [v == x] for a loaded value [v] and a field [x] of a record: a loaded
    value never equals a tag. *)
Definition equals_value (v : pyval) (x : value) : bool :=
  match x with
  | V v' => py_eq v v'
  | T _ => false
  end.

(** [d == r] for a loaded value [d] and a record [r]. *)
Definition equals_record (d : pyval) (r : record) : bool :=
  match d with
  | PDict e => same_entries equals_value e r
  | _ => false
  end.

(** [data == records] *)
Definition data_equals (d : pyval) (rs : list record) : bool :=
  match d with
  | PList ds =>
      Nat.eqb (List.length ds) (List.length rs)
      && forallb (fun p => equals_record (fst p) (snd p)) (combine ds rs)
  | _ => false
  end.

(** The keys of a loaded object, in order. *)
Definition field_names (v : pyval) : list string :=
  match v with
  | PDict e => map fst e
  | _ => []
  end.

(** *** What the console shows *)

(** [print(line)] returns. *)
Definition printable (F : formatter) (line : list N) : bool :=
  match narrow line with
  | Some _ => true
  | None => negb (existsb surrogate line) && is_ok (console F line)
  end.

(** The line of the record can be built and printed. *)
Definition shown (F : formatter) (coin : record) : bool :=
  match Driver.line_of F coin with
  | Ok line => printable F line
  | Raise _ => false
  end.

(** More sample platforms. *)
Module Fixture.

Import CMCParser.

(** A formatter that renders every number as a question mark, on a
    Latin-1 console. *)
Definition plain_formatter : formatter :=
  {| format_spec := fun _ _ => Ok "?";
     per_billion := fun x => Ok x;
     console := fun _ =>
       raise UnicodeEncodeError "'latin-1' codec can't encode character" |}.

(** The API answers a listing whose second item has a text for quotes. *)
Definition broken_answer : pyval :=
  PDict [("data", PDict [("cryptoCurrencyList",
    PList [Sample.api_item 1 "Bitcoin" "BTC";
           PDict [("cmcRank", PInt 2); ("quotes", PStr "none")];
           Sample.api_item 3 "Tether" "USDT"])])].

Definition broken_api_site : platform :=
  {| session_get := session_get Sample.offline_site;
     BeautifulSoup := BeautifulSoup Sample.offline_site;
     json_loads := fun s =>
       if String.eqb s "{api}" then Ok broken_answer
       else raise JSONDecodeError "Expecting value";
     int_max_str_digits := 4300;
     now_isoformat := "2024-01-01T00:00:00";
     writable := fun _ => true;
     nesting_limit := 300 |}.

(** The site answers with an error status. *)
Definition failing_site : platform :=
  {| session_get := fun url _ =>
       if String.eqb url api_url
       then Ok {| status_code := 500; text := "{api}" |}
       else Ok {| status_code := 503; text := "Service Unavailable" |};
     BeautifulSoup := BeautifulSoup Sample.offline_site;
     json_loads := json_loads Sample.offline_site;
     int_max_str_digits := 4300;
     now_isoformat := "2024-01-01T00:00:00";
     writable := fun _ => true;
     nesting_limit := 300 |}.

(** Neither the site nor the API can be reached. *)
Definition dead_site : platform :=
  {| session_get := fun _ _ => raise ConnectionError "Max retries exceeded";
     BeautifulSoup := BeautifulSoup Sample.offline_site;
     json_loads := json_loads Sample.offline_site;
     int_max_str_digits := 4300;
     now_isoformat := "2024-01-01T00:00:00";
     writable := fun _ => true;
     nesting_limit := 300 |}.

(** A listing with an item that is no object and one whose quote is a
    number, between well-formed ones. *)
Definition mixed_items : list pyval :=
  [Sample.listing_item 1 "Bitcoin" "BTC" 60000; PStr "advert";
   PDict [("cmc_rank", PInt 2); ("quote", PInt 0)];
   Sample.listing_item 3 "Tether" "USDT" 1].

Definition mixed_data : pyval :=
  PDict [("props", PDict [("initialState", PDict [("cryptocurrency",
    PDict [("listingLatest", PDict [("data", PList mixed_items)])])])])].

Definition mixed_site : platform :=
  {| session_get := session_get Sample.structured_site;
     BeautifulSoup := BeautifulSoup Sample.structured_site;
     json_loads := fun s =>
       if String.eqb s "{payload}" then Ok mixed_data
       else raise JSONDecodeError "Expecting value";
     int_max_str_digits := 4300;
     now_isoformat := "2024-01-01T00:00:00";
     writable := fun _ => true;
     nesting_limit := 300 |}.

(** The site is down and the API lists a second item without a name. *)
Definition nameless_answer : pyval :=
  PDict [("data", PDict [("cryptoCurrencyList",
    PList [Sample.api_item 1 "Bitcoin" "BTC";
           PDict [("cmcRank", PInt 2)]])])].

Definition mixed_api_site : platform :=
  {| session_get := session_get Sample.offline_site;
     BeautifulSoup := BeautifulSoup Sample.offline_site;
     json_loads := fun s =>
       if String.eqb s "{api}" then Ok nameless_answer
       else raise JSONDecodeError "Expecting value";
     int_max_str_digits := 4300;
     now_isoformat := "2024-01-01T00:00:00";
     writable := fun _ => true;
     nesting_limit := 300 |}.

(** A table with a short row between two rows of eight cells. *)
Definition short_row : Row := [Sample.cell "ad"; Sample.cell "sponsored"].

Definition gappy_soup : Soup :=
  {| soup_scripts := [];
     soup_table :=
       Some [Sample.header_row;
             Sample.coin_row "1" "Bitcoin" "$60,000.00" "+1.5%" "-2.25%"
                             "$1,200,000" "$35,000";
             short_row;
             Sample.coin_row "2" "Ethereum" "$3,000.50" "0.10%" "4%"
                             "$360,000" "$15,000"] |}.

Definition gappy_site : platform := Sample.serving gappy_soup true.

(** Records that [json.dump] does not give back: a name with a lone
    surrogate, an integer of 641 digits (too long under a limit of 640),
    a value nested four deep (too deep under a limit of three), a NaN. *)
Definition surrogate_coin : record :=
  [("rank", V (PInt 1)); ("name", V (PText [55357%N]))].

Definition long_coin : record := [("rank", V (PInt (10 ^ 640)))].

Definition deep_coin : record :=
  [("rank", V (PList [PList [PList [PList []]]]))].

Definition nan_coin : record :=
  [("rank", V (PInt 1)); ("price", V (PFloat S754_nan))].

(** A platform with tight limits on digits and nesting. *)
Definition strict_site : platform :=
  {| session_get := session_get Sample.offline_site;
     BeautifulSoup := BeautifulSoup Sample.offline_site;
     json_loads := json_loads Sample.offline_site;
     int_max_str_digits := 640;
     now_isoformat := "2024-01-01T00:00:00";
     writable := fun _ => true;
     nesting_limit := 3 |}.

(** The site is down and the API lists one item whose volume is a string
    with a lone surrogate. *)
Definition torn_answer : pyval :=
  PDict [("data", PDict [("cryptoCurrencyList",
    PList [PDict [("cmcRank", PInt 1); ("name", PStr "Bitcoin");
                  ("symbol", PStr "BTC");
                  ("quotes", PList [PDict [("price", PInt 1);
                                           ("volume24h", PText [55357%N])]])]])])].

Definition torn_site : platform :=
  {| session_get := session_get Sample.offline_site;
     BeautifulSoup := BeautifulSoup Sample.offline_site;
     json_loads := fun s =>
       if String.eqb s "{api}" then Ok torn_answer
       else raise JSONDecodeError "Expecting value";
     int_max_str_digits := 4300;
     now_isoformat := "2024-01-01T00:00:00";
     writable := fun _ => true;
     nesting_limit := 300 |}.

(** The same with the lone surrogate in the name, which is shown. *)
Definition unprintable_site : platform :=
  {| session_get := session_get Sample.offline_site;
     BeautifulSoup := BeautifulSoup Sample.offline_site;
     json_loads := fun s =>
       if String.eqb s "{api}"
       then Ok (PDict [("data", PDict [("cryptoCurrencyList",
              PList [PDict [("cmcRank", PInt 1);
                            ("name", PText [55357%N]);
                            ("symbol", PStr "BTC")]])])])
       else raise JSONDecodeError "Expecting value";
     int_max_str_digits := 4300;
     now_isoformat := "2024-01-01T00:00:00";
     writable := fun _ => true;
     nesting_limit := 300 |}.

Definition torn_coin : record :=
  [("rank", V (PInt 1)); ("name", V (PStr "Bitcoin")); ("symbol", V (PStr "BTC"));
   ("price", V (PInt 1)); ("change_1h", V PNone); ("change_24h", V PNone);
   ("change_7d", V PNone); ("market_cap", V PNone);
   ("volume_24h", V (PText [55357%N])); ("circulating_supply", V PNone)].

(** Records with different keys. *)
Definition short_record : record := [("rank", V (PInt 2))].

Definition long_record : record :=
  [("rank", V (PInt 3)); ("name", V (PStr "Tether")); ("note", V (PStr "x"))].

Definition two_keys : record := [("rank", V (PInt 1)); ("name", V (PStr "Bitcoin"))].

(** A world with an earlier JSON file. *)
Definition stocked : world :=
  {| files := {[ "coins_data.json" := JsonFile (JString (codes "old")) ]};
     stdout := [] |}.

End Fixture.

(** * Properties *)

Import CMCParser.

(** ** Worked examples *)

Example float_reads_decimal :
  Py.float " 1_234.5e-1 " = Ok (Py.float_of_decimal false 12345 (-2)).
Proof. reflexivity. Qed.

Example float_rounds_to_nearest :
  Py.float "0.1" = Ok (S754_finite false 7205759403792794 (-56)).
Proof. reflexivity. Qed.

Example float_overflows_to_infinity :
  Py.float "1.7976931348623159e308" = Ok (S754_infinity false).
Proof. vm_compute. reflexivity. Qed.

Example float_refuses_lone_point : is_ok (Py.float ".") = false.
Proof. reflexivity. Qed.

Example clean_percent_signed :
  _clean_percent "+3.25%" = Ok (Py.float_of_decimal false 325 (-2)).
Proof. reflexivity. Qed.

Example clean_price_unparseable : _clean_price "N/A" = Ok zero.
Proof. reflexivity. Qed.

(** A superscript two is a digit for [str.isdigit] and no digit for [int]. *)
Example clean_number_superscript :
  _clean_number Sample.offline_site (String "178"%char "7") = Ok 0.
Proof. reflexivity. Qed.

Example slice_negative_bound : slice 0 (-1) [1; 2; 3] = [1; 2].
Proof. reflexivity. Qed.

Example re_search_shortest_group :
  re_search ("<p>" ++ opening_tag ++ "a</script>b</script>") = Some "a".
Proof. reflexivity. Qed.

Example structured_site_run :
  get_top_coins Sample.structured_site 3 Sample.quiet
  = (Ok Sample.first_three, Sample.quiet).
Proof. vm_compute. reflexivity. Qed.

(** ** Text primitives *)

Section TextFacts.

Ltac by_char c :=
  destruct c as [[] [] [] [] [] [] [] []]; try discriminate; try reflexivity.

Lemma isdigit_not_space c : Py.isdigit c = true -> Py.isspace c = false.
Proof. by_char c. Qed.

Lemma isdigit_not_sign c :
  Py.isdigit c = true ->
  Ascii.eqb c "-" = false /\ Ascii.eqb c "+" = false /\ Ascii.eqb c "_" = false.
Proof. by_char c; repeat split. Qed.

Lemma isdecimal_isdigit c : Py.isdecimal c = true -> Py.isdigit c = true.
Proof. by_char c. Qed.

Lemma all_tail p c s : Py.all p (String c s) = true -> Py.all p s = true.
Proof. simpl. intros [_ H]%andb_true_iff. exact H. Qed.

Lemma all_filter_join p s : Py.all p (Py.filter_join p s) = true.
Proof.
  induction s as [|c s IH]; simpl; [reflexivity|].
  destruct (p c) eqn:Hc; simpl; [rewrite Hc|]; exact IH.
Qed.

Lemma all_weaken (p q : ascii -> bool) s :
  (forall c, p c = true -> q c = true) ->
  Py.all p s = true -> Py.all q s = true.
Proof.
  intros Hpq. induction s as [|c s IH]; simpl; [reflexivity|].
  intros [Hc Hs]%andb_true_iff. rewrite (Hpq _ Hc), (IH Hs). reflexivity.
Qed.

Lemma all_filter_keeps p q s :
  Py.all p s = true -> Py.all p (Py.filter_join q s) = true.
Proof.
  induction s as [|c s IH]; simpl; [reflexivity|].
  intros [Hc Hs]%andb_true_iff.
  destruct (q c); simpl; [rewrite Hc|]; auto.
Qed.

Lemma all_lstrip p s : Py.all p s = true -> Py.all p (Py.lstrip s) = true.
Proof.
  induction s as [|c s IH]; simpl; [reflexivity|].
  intros H. destruct (Py.isspace c); [|exact H].
  apply andb_true_iff in H as [_ Hs]. auto.
Qed.

Lemma all_rstrip p s : Py.all p s = true -> Py.all p (Py.rstrip s) = true.
Proof.
  induction s as [|c s IH]; simpl; [reflexivity|].
  intros [Hc Hs]%andb_true_iff. specialize (IH Hs).
  destruct (Py.rstrip s) eqn:E.
  - destruct (Py.isspace c); simpl; [reflexivity|]. rewrite Hc. reflexivity.
  - change (p c && Py.all p (String a s0) = true). rewrite Hc. exact IH.
Qed.

Lemma all_strip p s : Py.all p s = true -> Py.all p (Py.strip s) = true.
Proof. intros H. apply all_rstrip, all_lstrip, H. Qed.

Lemma lstrip_no_space s :
  Py.all (fun c => negb (Py.isspace c)) s = true -> Py.lstrip s = s.
Proof.
  destruct s as [|c s]; simpl; [reflexivity|].
  intros [Hc _]%andb_true_iff. apply negb_true_iff in Hc. rewrite Hc.
  reflexivity.
Qed.

Lemma rstrip_no_space s :
  Py.all (fun c => negb (Py.isspace c)) s = true -> Py.rstrip s = s.
Proof.
  induction s as [|c s IH]; simpl; [reflexivity|].
  intros [Hc Hs]%andb_true_iff. apply negb_true_iff in Hc.
  rewrite (IH Hs). destruct s; [rewrite Hc|]; reflexivity.
Qed.

Lemma strip_digits s : Py.all Py.isdigit s = true -> Py.strip s = s.
Proof.
  intros H.
  assert (Hs : Py.all (fun c => negb (Py.isspace c)) s = true).
  { revert H. apply all_weaken. intros c Hc.
    rewrite (isdigit_not_space c Hc). reflexivity. }
  unfold Py.strip. rewrite (lstrip_no_space s Hs). apply rstrip_no_space, Hs.
Qed.

Lemma filter_join_app p a b :
  Py.filter_join p (a ++ b) = Py.filter_join p a ++ Py.filter_join p b.
Proof.
  induction a as [|c a IH]; simpl; [reflexivity|].
  destruct (p c); simpl; rewrite IH; reflexivity.
Qed.

Lemma length_digit_values s : List.length (Py.digit_values s) = String.length s.
Proof.
  unfold Py.digit_values. rewrite length_map.
  induction s as [|c s IH]; simpl; [reflexivity|]. rewrite IH. reflexivity.
Qed.

Lemma digits_tail_decimal s :
  Py.all Py.isdecimal s = true ->
  Py.digits_tail s = (Py.digit_values s, EmptyString).
Proof.
  induction s as [|c s IH]; simpl; [reflexivity|].
  intros [Hc Hs]%andb_true_iff. rewrite Hc, (IH Hs). reflexivity.
Qed.

Lemma digits_tail_leftover s :
  Py.all Py.isdigit s = true -> Py.all Py.isdecimal s = false ->
  exists ds c r, Py.digits_tail s = (ds, String c r).
Proof.
  induction s as [|c s IH]; simpl; [discriminate|].
  intros [Hc Hs]%andb_true_iff Hd.
  destruct (Py.isdecimal c) eqn:Edec.
  - simpl in Hd. destruct (IH Hs Hd) as (ds & c' & r & E). rewrite E.
    eauto.
  - destruct (isdigit_not_sign c Hc) as (_ & _ & Hu). rewrite Hu. eauto.
Qed.

Lemma sign_digits s :
  Py.all Py.isdigit s = true -> Py.sign s = (false, s).
Proof.
  destruct s as [|c s]; [reflexivity|]. simpl Py.all.
  intros [Hc _]%andb_true_iff. revert Hc. by_char c.
Qed.

(** [int] on a text made of [isdigit] characters: it reads a non-empty
    run of decimal digits within the limit, and raises on anything else. *)
Lemma int_of_digits max_digits s :
  Py.all Py.isdigit s = true ->
  rtry (Py.int max_digits s) (fun _ => Ok 0)
  = Ok (if Py.readable_digits max_digits s
        then Py.decimal_value (Py.digit_values s) else 0).
Proof.
  intros H. unfold Py.int. rewrite (strip_digits s H), (sign_digits s H).
  destruct s as [|c s]; [reflexivity|].
  pose proof (all_tail _ _ _ H) as Hs.
  unfold Py.readable_digits, Py.digitpart.
  change (Py.all Py.isdecimal (String c s))
    with (Py.isdecimal c && Py.all Py.isdecimal s).
  destruct (Py.isdecimal c) eqn:Edec; [|reflexivity].
  destruct (Py.all Py.isdecimal s) eqn:Eall.
  - rewrite (digits_tail_decimal s Eall).
    change (Py.digit_value c :: Py.digit_values s)
      with (Py.digit_values (String c s)).
    rewrite length_digit_values.
    generalize (String.length (String c s)); intros n.
    rewrite Nat.ltb_antisym.
    destruct (Nat.eqb max_digits 0), (n <=? max_digits)%nat; reflexivity.
  - destruct (digits_tail_leftover s Hs Eall) as (ds & c' & r & E).
    rewrite E. reflexivity.
Qed.

Lemma digitpart_nondecimal s :
  Py.all Py.nondecimal s = true -> Py.digitpart s = None.
Proof.
  destruct s as [|c s]; [reflexivity|]. simpl.
  intros [Hc _]%andb_true_iff. apply negb_true_iff in Hc. rewrite Hc.
  reflexivity.
Qed.

Lemma number_nondecimal s :
  Py.all Py.nondecimal s = true -> Py.number s = None.
Proof.
  intros H. unfold Py.number. rewrite (digitpart_nondecimal s H).
  destruct s as [|c s]; [reflexivity|].
  apply all_tail in H. rewrite (digitpart_nondecimal s H).
  by_char c.
Qed.

Lemma sign_keeps p s :
  Py.all p s = true -> Py.all p (snd (Py.sign s)) = true.
Proof.
  destruct s as [|c s]; [reflexivity|]. intros H.
  pose proof (all_tail p c s H) as Ht. by_char c; assumption.
Qed.

(** [float] on a text without decimal digits: an infinity or NaN if the
    text spells one, a [ValueError] otherwise. *)
Lemma float_nondecimal s :
  Py.all Py.nondecimal s = true ->
  rtry (Py.float s) (fun _ => Ok zero)
  = Ok (default zero (Py.inf_or_nan s)).
Proof.
  intros H. unfold Py.float, Py.inf_or_nan.
  pose proof (sign_keeps _ _ (all_strip _ _ H)) as Hb.
  destruct (Py.sign (Py.strip s)) as [neg body]. simpl in Hb.
  destruct (Py.parse_inf_or_nan neg body); [reflexivity|].
  rewrite (number_nondecimal body Hb). reflexivity.
Qed.

End TextFacts.

(** ** The cleaning functions *)

Lemma readable_digits_nondecimal max_digits s :
  Py.all Py.nondecimal s = true -> Py.readable_digits max_digits s = false.
Proof.
  destruct s as [|c s]; [reflexivity|]. simpl.
  intros [Hc _]%andb_true_iff. apply negb_true_iff in Hc. rewrite Hc.
  reflexivity.
Qed.

Lemma clean_number_value (P : platform) (text : string) :
  _clean_number P text
  = Ok (if Py.readable_digits (int_max_str_digits P)
             (Py.filter_join Py.isdigit text)
        then Py.decimal_value
               (Py.digit_values (Py.filter_join Py.isdigit text))
        else 0).
Proof. unfold _clean_number. apply int_of_digits, all_filter_join. Qed.

Lemma rtry_default {A} (r : result A) (a : A) :
  rtry r (fun _ => Ok a) = Ok (match r with Ok x => x | Raise _ => a end).
Proof. destruct r; reflexivity. Qed.

(** C7. [_clean_number] keeps the digit characters of the text and reads
    them as an integer: the result is the decimal value of the kept digits
    when they form a literal that [int] reads, and 0 otherwise; in particular
    a text without digit characters gives 0, and "Rank #7" gives 7. *)
Theorem clean_number_spec (P : platform) (text : string) :
  let digits := Py.filter_join Py.isdigit text in
  _clean_number P text
  = Ok (match Py.int (int_max_str_digits P) digits with
        | Ok n => n
        | Raise _ => 0
        end)
  /\ _clean_number P text
     = Ok (if Py.readable_digits (int_max_str_digits P) digits
           then Py.decimal_value (Py.digit_values digits) else 0)
  /\ (digits = EmptyString -> _clean_number P text = Ok 0)
  /\ _clean_number P "Rank #7" = Ok 7.
Proof.
  intros digits. repeat split.
  - apply rtry_default.
  - apply clean_number_value.
  - intros E. rewrite clean_number_value. fold digits. rewrite E.
    reflexivity.
  - rewrite clean_number_value.
    change (Py.filter_join Py.isdigit "Rank #7") with "7".
    unfold Py.readable_digits.
    destruct (int_max_str_digits P); reflexivity.
Qed.

Lemma clean_number_spec_witness :
  _clean_number Sample.offline_site "Rank #" = Ok 0.
Proof.
  apply (clean_number_spec Sample.offline_site "Rank #"). reflexivity.
Defined.

(** C6. [_clean_price] removes a leading dollar sign (and any other one)
    and the commas that separate thousands, reads what is left as a
    floating-point literal and returns 0.0 when it is not one; "$1,234.56"
    gives the binary64 number nearest to 1234.56. *)
Theorem clean_price_spec (text a b : string) :
  _clean_price (String "$" text) = _clean_price text
  /\ _clean_price (a ++ "$" ++ b) = _clean_price (a ++ b)
  /\ _clean_price (a ++ "," ++ b) = _clean_price (a ++ b)
  /\ _clean_price text
     = Ok (match Py.float (Py.strip (Py.remove "," (Py.remove "$" text))) with
           | Ok x => x
           | Raise _ => zero
           end)
  /\ _clean_price "$1,234.56" = Ok (Py.float_of_decimal false 123456 (-2))
  /\ Py.float_of_decimal false 123456 (-2)
     = S754_finite false 5429652300748554 (-42)
  /\ 2 * Z.abs (100 * 5429652300748554 - 123456 * 2 ^ 42) <= 100.
Proof.
  repeat split.
  - unfold _clean_price, Py.remove. rewrite !filter_join_app.
    reflexivity.
  - unfold _clean_price, Py.remove. rewrite !filter_join_app.
    reflexivity.
  - apply rtry_default.
  - vm_compute. discriminate.
Qed.

(** C3, as stated, fails: "inf" holds no digit, and [_clean_price] and
    [_clean_percent] return the infinity that [float] reads, not 0.0. *)
Lemma clean_price_inf_not_zero :
  Py.all Py.nondecimal "inf" = true
  /\ Py.all (fun c => negb (Py.isdigit c)) "inf" = true
  /\ _clean_price "inf" = Ok (S754_infinity false)
  /\ _clean_percent "inf" = Ok (S754_infinity false)
  /\ _clean_price "inf" <> Ok zero.
Proof. repeat split. discriminate. Qed.

(** C3, amended. The three cleaning functions never raise and always
    return a number.  For a text without decimal digits [_clean_number]
    returns 0, and [_clean_price] and [_clean_percent] return 0.0 unless the
    text left after removing the symbol, the commas and the surrounding
    whitespace spells an infinity or a NaN, which is then returned. *)
Theorem cleaning_total (P : platform) (text : string) :
  (exists n, _clean_number P text = Ok n)
  /\ (exists x, _clean_price text = Ok x)
  /\ (exists x, _clean_percent text = Ok x)
  /\ (Py.all Py.nondecimal text = true ->
      _clean_number P text = Ok 0
      /\ _clean_price text
         = Ok (default zero
                 (Py.inf_or_nan
                    (Py.strip (Py.remove "," (Py.remove "$" text)))))
      /\ _clean_percent text
         = Ok (default zero
                 (Py.inf_or_nan
                    (Py.strip (Py.remove "," (Py.remove "%" text)))))).
Proof.
  split; [|split; [|split]].
  - rewrite clean_number_value. eauto.
  - unfold _clean_price. rewrite rtry_default. eauto.
  - unfold _clean_percent. rewrite rtry_default. eauto.
  - intros H. split; [|split].
    + rewrite clean_number_value, readable_digits_nondecimal; [reflexivity|].
      apply all_filter_keeps, H.
    + apply float_nondecimal, all_strip, all_filter_keeps, all_filter_keeps, H.
    + apply float_nondecimal, all_strip, all_filter_keeps, all_filter_keeps, H.
Qed.

Lemma cleaning_total_witness :
  _clean_number Sample.offline_site "N/A" = Ok 0
  /\ _clean_price "N/A" = Ok zero
  /\ _clean_percent " -Infinity% " = Ok (S754_infinity true).
Proof.
  split; [|split].
  - apply (cleaning_total Sample.offline_site "N/A"). reflexivity.
  - apply (cleaning_total Sample.offline_site "N/A"). reflexivity.
  - apply (cleaning_total Sample.offline_site " -Infinity% "). reflexivity.
Defined.

(** ** Loops *)

Lemma for_each_app {A S} (xs ys : list A) (body : A -> S -> result S) acc :
  for_each (xs ++ ys) body acc
  = rbind (for_each xs body acc) (for_each ys body).
Proof.
  revert acc. induction xs as [|x xs IH]; intros acc; simpl; [reflexivity|].
  destruct (body x acc); simpl; [apply IH|reflexivity].
Qed.

Lemma for_each_invariant {A S} (Inv : S -> Prop) (body : A -> S -> result S)
      xs acc out :
  (forall x a a', body x a = Ok a' -> Inv a -> Inv a') ->
  Inv acc -> for_each xs body acc = Ok out -> Inv out.
Proof.
  intros Hstep. revert acc.
  induction xs as [|x xs IH]; simpl; intros acc Hacc E.
  - injection E as <-. exact Hacc.
  - destruct (body x acc) as [a'|e] eqn:Eb; simpl in E; [|discriminate].
    eapply IH; [|exact E]. eapply Hstep; eassumption.
Qed.

Lemma for_each_skip {A S} (body : A -> S -> result S) xs acc :
  (forall x, In x xs -> body x acc = Ok acc) ->
  for_each xs body acc = Ok acc.
Proof.
  induction xs as [|x xs IH]; simpl; intros H; [reflexivity|].
  rewrite (H x (or_introl eq_refl)). simpl. apply IH.
  intros y Hy. apply H. right. exact Hy.
Qed.

Lemma collect_invariant {A B} (Inv : B -> Prop) (f : A -> result B) xs :
  (forall x b, f x = Ok b -> Inv b) -> Forall Inv (fst (collect f xs)).
Proof.
  intros Hf. induction xs as [|x xs IH]; simpl; [constructor|].
  destruct (f x) as [b|e] eqn:E; [|constructor].
  destruct (collect f xs) as [bs failure]. simpl in *.
  constructor; [eapply Hf, E|exact IH].
Qed.

(** Splits the goal or a hypothesis along the next call that may raise. *)
Ltac on_result :=
  match goal with
  | |- context [rbind ?r _] => destruct r eqn:?; cbn [rbind]
  | H : context [rbind ?r _] |- _ => destruct r eqn:?; cbn [rbind] in H
  end.

Ltac unbind := unfold mbind, mret, result_bind, result_ret in *.

(** ** The key sets of the records *)

Lemma parse_coin_data_keys item coin :
  _parse_coin_data item = Some coin -> keys coin = ten_keys.
Proof.
  unfold _parse_coin_data. unbind. intros H.
  repeat on_result; try discriminate; injection H as <-; reflexivity.
Qed.

Lemma api_record_keys item coin :
  api_record item = Ok coin -> keys coin = ten_keys.
Proof.
  unfold api_record. unbind. intros H.
  repeat on_result; try discriminate; injection H as <-; reflexivity.
Qed.

Lemma row_record_keys P cells coin :
  row_record P cells = Ok coin -> keys coin = eight_keys.
Proof.
  unfold row_record. unbind. intros H.
  repeat on_result; try discriminate; injection H as <-; reflexivity.
Qed.

Lemma add_item_keys item coins coins' :
  add_item item coins = Ok coins' ->
  Forall (fun r => keys r = ten_keys) coins ->
  Forall (fun r => keys r = ten_keys) coins'.
Proof.
  unfold add_item. intros H Hall.
  destruct (is_dict item); [|injection H as <-; exact Hall].
  destruct (_parse_coin_data item) as [[|field fields]|] eqn:E;
    injection H as <-; try exact Hall.
  apply Forall_app. split; [exact Hall|].
  constructor; [|constructor]. apply (parse_coin_data_keys item), E.
Qed.

Lemma scan_script_keys P limit script coins coins' :
  scan_script P limit script coins = Ok coins' ->
  Forall (fun r => keys r = ten_keys) coins ->
  Forall (fun r => keys r = ten_keys) coins'.
Proof.
  unfold scan_script. unbind. intros H Hall.
  destruct (_ && _); [|injection H as <-; exact Hall].
  destruct (re_search _); [|injection H as <-; exact Hall].
  repeat on_result; try discriminate.
  eapply for_each_invariant; [|exact Hall|exact H].
  intros ? ? ?. apply add_item_keys.
Qed.

Lemma parse_table_keys P soup limit coins :
  _parse_table P soup limit = Ok coins ->
  Forall (fun r => keys r = eight_keys) coins.
Proof.
  unfold _parse_table. intros H.
  destruct (soup_table soup); [|injection H as <-; constructor].
  eapply for_each_invariant; [|constructor|exact H].
  intros row acc acc' E Ha. cbv beta in E.
  destruct (7 <=? len row); [|injection E as <-; exact Ha].
  unbind. destruct (row_record P row) as [coin|e] eqn:Er; cbn in E;
    injection E as <-; [|exact Ha].
  apply Forall_app. split; [exact Ha|].
  constructor; [|constructor]. apply (row_record_keys P row), Er.
Qed.

Lemma api_block_keys P limit :
  Forall (fun r => keys r = ten_keys) (fst (api_block P limit)).
Proof.
  unfold api_block. destruct (_ ← _; _) as [items|e]; [|constructor].
  apply collect_invariant. apply api_record_keys.
Qed.

(** The result of the [try] block comes from one path: ten-key records
    from the payload, or eight-key records from the table. *)
Lemma extract_keys P limit soup coins :
  extract P limit soup = Ok coins ->
  Forall (fun r => keys r = ten_keys) coins
  \/ Forall (fun r => keys r = eight_keys) coins.
Proof.
  unfold extract. unbind. intros H.
  destruct (for_each _ _ _) as [found|e] eqn:E; cbn in H; [|discriminate].
  assert (Hten : Forall (fun r => keys r = ten_keys) found).
  { eapply for_each_invariant; [|constructor|exact E].
    intros ? ? ?. apply scan_script_keys. }
  destruct found as [|c cs].
  - right. eapply parse_table_keys, H.
  - left. injection H as <-. exact Hten.
Qed.

(** ** What [get_top_coins] returns *)

Lemma fetch_via_api_run P limit w :
  exists w',
    _fetch_via_api P limit w = (Ok (fst (api_block P limit)), w')
    /\ files w' = files w.
Proof.
  unfold _fetch_via_api.
  destruct (api_block P limit) as [coins [e|]]; eexists; split; reflexivity.
Qed.

Lemma get_top_coins_run P limit w :
  exists w',
    get_top_coins P limit w
    = (Ok (match primary P limit with
           | Ok coins => coins
           | Raise _ => fst (api_block P limit)
           end), w')
    /\ files w' = files w
    /\ (is_ok (primary P limit) = true -> w' = w).
Proof.
  unfold get_top_coins, try_except, lift.
  destruct (primary P limit) as [coins|e].
  - exists w. repeat split.
  - unfold mbind, M_bind, print.
    match goal with
    | |- context [_fetch_via_api P limit ?w0] =>
        destruct (fetch_via_api_run P limit w0) as (w' & E & Hf)
    end.
    exists w'. split; [exact E|]. split; [exact Hf|discriminate].
Qed.


(** ** The CSV writer *)

Lemma in_header_keys (r : record) k : In k (keys r) -> in_header (keys r) k = true.
Proof.
  intros H. unfold in_header. apply existsb_exists. exists k.
  split; [exact H|apply String.eqb_refl].
Qed.

Lemma row_in_key_order (r : record) :
  List.NoDup (keys r) ->
  map (fun k => default (V (PStr "")) (assoc k r)) (keys r) = values r.
Proof.
  unfold keys, values.
  induction r as [|[k x] r IH]; [reflexivity|].
  cbn [map fst snd assoc]. intros Hnd.
  apply NoDup_cons_iff in Hnd as [Hk Hnd].
  rewrite String.eqb_refl. cbn [default]. f_equal.
  rewrite <- (IH Hnd). apply map_ext_in. intros k' Hk'.
  destruct (String.eqb k k') eqn:E; [|reflexivity].
  apply String.eqb_eq in E. subst k'. contradiction.
Qed.

Lemma dict_to_list_same_keys (header : list string) (r : record) :
  List.NoDup header -> keys r = header -> _dict_to_list header r = Ok (values r).
Proof.
  intros Hnd <-. unfold _dict_to_list.
  rewrite (proj2 (forallb_forall _ _)) by (intros k; apply in_header_keys).
  rewrite (row_in_key_order r Hnd). reflexivity.
Qed.

Lemma collect_all_ok {A B} (f : A -> result B) (g : A -> B) xs :
  Forall (fun x => f x = Ok (g x)) xs -> collect f xs = (map g xs, None).
Proof.
  induction 1 as [|x xs Hx _ IH]; [reflexivity|].
  cbn [collect map]. rewrite Hx, IH. reflexivity.
Qed.

Lemma save_to_csv_uniform P (first : record) rest filename w :
  List.NoDup (keys first) ->
  Forall (fun r => keys r = keys first) (first :: rest) ->
  writable P filename = true ->
  exists w',
    save_to_csv P (first :: rest) filename w = (Ok tt, w')
    /\ files w' !! filename
       = Some (CsvFile (keys first) (map values (first :: rest))).
Proof.
  intros Hnd Hall Hw. unfold save_to_csv, open_w. rewrite Hw.
  rewrite (collect_all_ok _ values).
  - eexists. split; [reflexivity|]. cbn. apply lookup_insert_eq.
  - eapply List.Forall_impl; [|exact Hall]. intros r Hr.
    apply dict_to_list_same_keys; assumption.
Qed.

Lemma ten_keys_distinct : List.NoDup ten_keys.
Proof.
  apply (NoDup_count_occ' string_dec). intros k Hk.
  repeat destruct Hk as [<-|Hk]; try reflexivity. contradiction.
Qed.

Lemma eight_keys_distinct : List.NoDup eight_keys.
Proof.
  apply (NoDup_count_occ' string_dec). intros k Hk.
  repeat destruct Hk as [<-|Hk]; try reflexivity. contradiction.
Qed.

(** C9. [save_to_csv] on an empty list returns at once: no file is
    written, the file at the path and every other file stay as they were,
    nothing is printed and nothing is raised, whether or not the path could
    be opened. *)
Theorem save_to_csv_empty (P : platform) (filename : string) (w : world) :
  save_to_csv P [] filename w = (Ok tt, w).
Proof. reflexivity. Qed.


(** ** The structured-data path *)

Lemma parse_well_formed item :
  well_formed item = true ->
  exists field fields,
    _parse_coin_data item = Some (field :: fields)
    /\ assoc "rank" (field :: fields) = Some (V (rank_of item))
    /\ is_dict item = true.
Proof.
  destruct item as [| | | | | | |entries]; try discriminate.
  unfold well_formed, _parse_coin_data, rank_of. unbind. cbn.
  destruct (assoc "quote" entries) as [[| | | | | | |quotes]|];
    try discriminate; cbn.
  - destruct (assoc "USD" quotes) as [[| | | | | | |usd]|];
      try discriminate; intros _; cbn; eexists _, _; repeat split.
  - intros _. eexists _, _; repeat split.
Qed.

Lemma add_items_well_formed items coins :
  forallb well_formed items = true ->
  exists found,
    for_each items add_item coins = Ok (coins ++ found)%list
    /\ Forall2 (fun item coin =>
                  _parse_coin_data item = Some coin
                  /\ assoc "rank" coin = Some (V (rank_of item)))
               items found.
Proof.
  revert coins. induction items as [|item items IH]; intros coins H.
  - exists []. rewrite app_nil_r. split; [reflexivity|constructor].
  - cbn [forallb] in H. apply andb_true_iff in H as [Hi Hs].
    destruct (parse_well_formed item Hi) as (field & fields & Ep & Er & Ed).
    destruct (IH (coins ++ [field :: fields])%list Hs) as (found & Ef & Hall).
    exists ((field :: fields) :: found). split.
    + assert (Ea : add_item item coins = Ok (coins ++ [field :: fields])%list).
      { unfold add_item. rewrite Ed, Ep. reflexivity. }
      cbn [for_each]. unbind. rewrite Ea. cbn [rbind].
      rewrite Ef, <- app_assoc. reflexivity.
    + constructor; [split; assumption|exact Hall].
Qed.

Lemma scan_skips P limit scripts coins :
  forallb no_payload scripts = true ->
  for_each scripts (scan_script P limit) coins = Ok coins.
Proof.
  intros H. apply for_each_skip. intros script Hin.
  apply (proj1 (forallb_forall _ _) H) in Hin.
  unfold no_payload in Hin. apply negb_true_iff in Hin.
  unfold scan_script. rewrite Hin. reflexivity.
Qed.

Lemma structured_embedded P limit soup items :
  embeds P soup items ->
  structured P limit soup = for_each (slice 0 limit items) add_item [].
Proof.
  intros (before & script & after & payload & data
          & Es & Hb & Ha & Hs & Em & Ej & El).
  unfold structured. rewrite Es, for_each_app, (scan_skips _ _ _ _ Hb).
  cbn [rbind for_each]. unbind.
  unfold scan_script at 1. unfold no_payload in Hs.
  apply negb_false_iff in Hs. rewrite Hs, Em. unbind. rewrite Ej.
  cbn [rbind]. rewrite El. cbn [rbind slice_items].
  destruct (for_each (slice 0 limit items) add_item []) as [found|e];
    cbn [rbind]; [|reflexivity].
  apply scan_skips, Ha.
Qed.

Lemma primary_fetched P limit soup :
  fetches P soup -> primary P limit = extract P limit soup.
Proof.
  intros (response & Eg & Es & Eb). unfold primary. unbind.
  rewrite Eg. cbn [rbind]. rewrite Es. cbn [rbind]. rewrite Eb. reflexivity.
Qed.

Lemma get_top_coins_primary P limit w coins :
  primary P limit = Ok coins -> get_top_coins P limit w = (Ok coins, w).
Proof.
  intros E. unfold get_top_coins, try_except, lift. rewrite E. reflexivity.
Qed.

(** C4. When the page embeds a payload whose listings array holds five
    well-formed items, [get_top_coins] with limit 3 returns exactly three
    records: the projections of the first three items, in the order of the
    payload, each with the rank of its item. *)
Theorem structured_five_limit_three (P : platform) (w : world) (soup : Soup)
        (i1 i2 i3 i4 i5 : pyval) :
  fetches P soup ->
  embeds P soup [i1; i2; i3; i4; i5] ->
  forallb well_formed [i1; i2; i3; i4; i5] = true ->
  exists c1 c2 c3,
    get_top_coins P 3 w = (Ok [c1; c2; c3], w)
    /\ _parse_coin_data i1 = Some c1
    /\ _parse_coin_data i2 = Some c2
    /\ _parse_coin_data i3 = Some c3
    /\ map (assoc "rank") [c1; c2; c3]
       = map (fun item => Some (V (rank_of item))) [i1; i2; i3].
Proof.
  intros Hf He Hw.
  assert (Hw3 : forallb well_formed [i1; i2; i3] = true).
  { cbn [forallb] in *. repeat (apply andb_true_iff in Hw as [? Hw]).
    repeat (apply andb_true_iff; split); auto. }
  destruct (add_items_well_formed [i1; i2; i3] [] Hw3) as (found & Ef & Hall).
  inversion Hall as [|? c1 ? ? [Ep1 Er1] Hall1]; subst.
  inversion Hall1 as [|? c2 ? ? [Ep2 Er2] Hall2]; subst.
  inversion Hall2 as [|? c3 ? ? [Ep3 Er3] Hall3]; subst.
  inversion Hall3; subst.
  exists c1, c2, c3. repeat split; try assumption.
  - apply get_top_coins_primary.
    rewrite (primary_fetched P 3 soup Hf). unfold extract. unbind.
    fold (structured P 3 soup). rewrite (structured_embedded P 3 soup _ He).
    change (slice 0 3 [i1; i2; i3; i4; i5]) with [i1; i2; i3].
    rewrite Ef. reflexivity.
  - cbn [map]. rewrite Er1, Er2, Er3. reflexivity.
Qed.

(** ** The table path *)

Lemma row_record_total P (cells : Row) :
  7 <= len cells -> exists coin, row_record P cells = Ok coin.
Proof.
  intros H. unfold len in H.
  do 7 (destruct cells as [|? cells]; [cbn [List.length] in H; lia|]).
  clear H.
  unfold row_record, _clean_price, _clean_percent. unbind.
  repeat (cbn [index nth_error rbind];
          first [rewrite clean_number_value | rewrite rtry_default]).
  destruct cells as [|c7 cells].
  - eexists. reflexivity.
  - match goal with
    | |- context [7 <? len ?l] =>
        assert (E : (7 <? len l) = true)
          by (apply Z.ltb_lt; unfold len; cbn [List.length]; lia)
    end.
    rewrite E. cbn [index nth_error rbind]. rewrite rtry_default.
    eexists. reflexivity.
Qed.

Lemma rows_to_records P (rows : list Row) (coins : list record) :
  forallb (fun row => 7 <=? len row) rows = true ->
  exists found,
    for_each rows
      (fun row (coins : list record) =>
         if 7 <=? len row
         then rtry (coin ← row_record P row; mret (coins ++ [coin])%list)
                   (fun _ => Ok coins)
         else Ok coins)
      coins
    = Ok (coins ++ found)%list
    /\ Forall2 (fun row coin => row_record P row = Ok coin) rows found.
Proof.
  revert coins. induction rows as [|row rows IH]; intros coins H.
  - exists []. rewrite app_nil_r. split; [reflexivity|constructor].
  - cbn [forallb] in H. apply andb_true_iff in H as [Hr Hs].
    destruct (row_record_total P row) as [coin Ec];
      [apply Z.leb_le, Hr|].
    destruct (IH (coins ++ [coin])%list Hs) as (found & Ef & Hall).
    exists (coin :: found). split.
    + cbn [for_each]. unbind. rewrite Hr, Ec. cbn [rbind rtry].
      rewrite Ef, <- app_assoc. reflexivity.
    + constructor; assumption.
Qed.

Lemma clean_number_cleaned P text :
  _clean_number P text = Ok (cleaned 0 (_clean_number P text)).
Proof. rewrite clean_number_value. reflexivity. Qed.

Lemma clean_price_cleaned text :
  _clean_price text = Ok (cleaned zero (_clean_price text)).
Proof. unfold _clean_price. rewrite rtry_default. reflexivity. Qed.

Lemma clean_percent_cleaned text :
  _clean_percent text = Ok (cleaned zero (_clean_percent text)).
Proof. unfold _clean_percent. rewrite rtry_default. reflexivity. Qed.

(** A row of at least seven cells is read cell by cell, each field from
    its own position. *)
Lemma row_record_reads P (cells : Row) :
  7 <= len cells -> row_record P cells = Ok (table_record P cells).
Proof.
  intros H. unfold len in H.
  do 7 (destruct cells as [|? cells]; [cbn [List.length] in H; lia|]).
  clear H.
  match goal with
  | |- row_record P ?row = Ok ?expected =>
      assert (Hvol :
        (if 7 <? len row
         then c7 ← index row 7;
              volume ← _clean_price (cell_text_strip c7);
              mret (V (PFloat volume))
         else mret (V PNone))
        = Ok match nth_error row 7 with
             | Some cell =>
                 V (PFloat (cleaned zero (_clean_price (cell_text_strip cell))))
             | None => V PNone
             end)
  end.
  { destruct cells as [|c7 cells].
    - reflexivity.
    - match goal with
      | |- context [7 <? len ?l] =>
          assert (E : (7 <? len l) = true)
            by (apply Z.ltb_lt; unfold len; cbn [List.length]; lia)
      end.
      rewrite E. unbind. cbn [index nth_error rbind].
      rewrite (clean_price_cleaned (cell_text_strip c7)) at 1.
      reflexivity. }
  unfold row_record. unbind. rewrite Hvol. clear Hvol.
  unfold table_record, stripped.
  cbn [index nth_error rbind List.nth].
  rewrite (clean_number_cleaned P (cell_text_strip c0)) at 1.
  cbn [rbind].
  rewrite (clean_price_cleaned (cell_text_strip c2)) at 1.
  cbn [rbind].
  rewrite (clean_percent_cleaned (cell_text_strip c3)) at 1.
  cbn [rbind].
  rewrite (clean_percent_cleaned (cell_text_strip c4)) at 1.
  cbn [rbind].
  rewrite (clean_price_cleaned (cell_text_strip c5)) at 1.
  reflexivity.
Qed.

Lemma for_each_total {A S} (body : A -> S -> result S) xs acc :
  (forall x a, exists a', body x a = Ok a') ->
  exists out, for_each xs body acc = Ok out.
Proof.
  intros Hb. revert acc. induction xs as [|x xs IH]; intros acc.
  - exists acc. reflexivity.
  - destruct (Hb x acc) as [a' E]. destruct (IH a') as [out Eo].
    exists out. cbn [for_each]. unbind. rewrite E. exact Eo.
Qed.

Lemma parse_table_total P soup limit :
  exists coins, _parse_table P soup limit = Ok coins.
Proof.
  unfold _parse_table. destruct (soup_table soup) as [table|]; [|eauto].
  apply for_each_total. intros row coins.
  destruct (7 <=? len row); [|eauto].
  destruct (_ ← _; _); cbn [rtry]; eauto.
Qed.

(** C5. When the structured-data path ends without raising and without a
    record, and the first table of the page has a header row and four rows
    of at least seven cells, [get_top_coins] with limit 10 returns exactly
    the four records of these rows, in the order of the rows; each record
    is read from the cells of its row, position by position: the rank from
    the cell at index 1, name and symbol from index 2, the price from index
    3, the two changes from indices 4 and 5, the market cap from index 6 and
    the volume from index 7, each cleaned by its cleaning function.  The
    table is read precisely in that case: an empty structured result gives
    the table's records, a non-empty one is returned as it is, and an
    exception leads to the secondary API. *)
Theorem table_fallback (P : platform) (w : world) (soup : Soup) :
  fetches P soup ->
  (forall header r1 r2 r3 r4,
      structured P 10 soup = Ok [] ->
      soup_table soup = Some [header; r1; r2; r3; r4] ->
      forallb (fun row => 7 <=? len row) [r1; r2; r3; r4] = true ->
      exists c1 c2 c3 c4,
        get_top_coins P 10 w = (Ok [c1; c2; c3; c4], w)
        /\ row_record P r1 = Ok c1 /\ row_record P r2 = Ok c2
        /\ row_record P r3 = Ok c3 /\ row_record P r4 = Ok c4
        /\ [c1; c2; c3; c4] = map (table_record P) [r1; r2; r3; r4])
  /\ (forall limit,
         (structured P limit soup = Ok [] ->
          exists coins,
            _parse_table P soup limit = Ok coins
            /\ get_top_coins P limit w = (Ok coins, w))
         /\ (forall c cs,
                structured P limit soup = Ok (c :: cs) ->
                get_top_coins P limit w = (Ok (c :: cs), w))
         /\ (forall e,
                structured P limit soup = Raise e ->
                exists w',
                  get_top_coins P limit w
                  = (Ok (fst (api_block P limit)), w'))).
Proof.
  intros Hf. split.
  - intros header r1 r2 r3 r4 Es Et Hrows.
    destruct (rows_to_records P [r1; r2; r3; r4] [] Hrows)
      as (found & Ef & Hall).
    inversion Hall as [|? c1 ? ? E1 Hall1]; subst.
    inversion Hall1 as [|? c2 ? ? E2 Hall2]; subst.
    inversion Hall2 as [|? c3 ? ? E3 Hall3]; subst.
    inversion Hall3 as [|? c4 ? ? E4 Hall4]; subst.
    inversion Hall4; subst.
    cbn [forallb] in Hrows.
    apply andb_true_iff in Hrows as [H1 Hrows].
    apply andb_true_iff in Hrows as [H2 Hrows].
    apply andb_true_iff in Hrows as [H3 Hrows].
    apply andb_true_iff in Hrows as [H4 _].
    apply Z.leb_le in H1, H2, H3, H4.
    exists c1, c2, c3, c4. repeat split; try assumption.
    2:{ rewrite (row_record_reads P r1 H1) in E1.
        rewrite (row_record_reads P r2 H2) in E2.
        rewrite (row_record_reads P r3 H3) in E3.
        rewrite (row_record_reads P r4 H4) in E4.
        injection E1 as <-. injection E2 as <-.
        injection E3 as <-. injection E4 as <-. reflexivity. }
    apply get_top_coins_primary. rewrite (primary_fetched P 10 soup Hf).
    unfold extract. unbind. fold (structured P 10 soup). rewrite Es.
    cbn [rbind]. unfold _parse_table. rewrite Et.
    change (slice 1 (10 + 1) [header; r1; r2; r3; r4]) with [r1; r2; r3; r4].
    exact Ef.
  - intros limit.
    pose proof (primary_fetched P limit soup Hf) as Ep.
    unfold extract in Ep. unbind. fold (structured P limit soup) in Ep.
    split; [|split].
    + intros Es. rewrite Es in Ep. cbn [rbind] in Ep.
      destruct (parse_table_total P soup limit) as [coins Et].
      exists coins. split; [exact Et|].
      apply get_top_coins_primary. rewrite Ep. exact Et.
    + intros c cs Es. rewrite Es in Ep.
      apply get_top_coins_primary, Ep.
    + intros e Es. rewrite Es in Ep. cbn [rbind] in Ep.
      destruct (get_top_coins_run P limit w) as (w' & E & _).
      rewrite Ep in E. eauto.
Qed.

(** ** How many records come back *)

Lemma slice_prefix_length {A} (limit : Z) (xs : list A) :
  0 <= limit -> len (slice 0 limit xs) <= limit.
Proof.
  intros H. unfold slice, len, clamp. rewrite length_firstn.
  destruct (0 <? 0) eqn:E0; [discriminate|].
  destruct (limit <? 0) eqn:El; [apply Z.ltb_lt in El; lia|]. lia.
Qed.

Lemma slice_rows_length {A} (limit : Z) (xs : list A) :
  0 <= limit -> len (slice 1 (limit + 1) xs) <= limit.
Proof.
  intros H. unfold slice, len, clamp. rewrite length_firstn.
  destruct (1 <? 0) eqn:E0; [discriminate|].
  destruct (limit + 1 <? 0) eqn:El; [apply Z.ltb_lt in El; lia|]. lia.
Qed.

Lemma len_app {A} (xs ys : list A) : len (xs ++ ys) = len xs + len ys.
Proof. unfold len. rewrite length_app. lia. Qed.

Lemma add_items_length items coins out :
  for_each items add_item coins = Ok out -> len out <= len coins + len items.
Proof.
  revert coins. induction items as [|item items IH]; intros coins E.
  - injection E as <-. unfold len. cbn. lia.
  - cbn [for_each] in E. unbind.
    destruct (add_item item coins) as [coins'|e] eqn:Ea; [|discriminate].
    cbn [rbind] in E. apply IH in E.
    assert (len coins' <= len coins + 1).
    { unfold add_item in Ea. destruct (is_dict item);
        [destruct (_parse_coin_data item) as [[|? ?]|]|];
        injection Ea as <-; rewrite ?len_app; unfold len; cbn; lia. }
    unfold len in *. cbn [List.length]. lia.
Qed.

Lemma scan_script_length P limit script coins out :
  0 <= limit ->
  scan_script P limit script coins = Ok out ->
  len out <= len coins + (if no_payload script then 0 else limit).
Proof.
  intros Hl. unfold scan_script, no_payload. unbind. intros E.
  destruct (_ && _); cbn [negb]; [|injection E as <-; lia].
  destruct (re_search _); [|injection E as <-; lia].
  repeat on_result; try discriminate.
  apply add_items_length in E.
  match goal with
  | H : slice_items ?v limit = Ok ?items |- _ =>
      assert (len items <= limit)
        by (destruct v; try discriminate; injection H as <-;
            apply slice_prefix_length, Hl)
  end.
  lia.
Qed.

Lemma parse_table_length P soup limit coins :
  0 <= limit -> _parse_table P soup limit = Ok coins -> len coins <= limit.
Proof.
  intros Hl. unfold _parse_table.
  destruct (soup_table soup) as [table|];
    [|intros E; injection E as <-; exact Hl].
  pose proof (slice_rows_length limit table Hl) as Hrows.
  revert Hrows. generalize (slice 1 (limit + 1) table). intros rows Hrows E.
  assert (G : forall (todo : list Row) acc out,
             for_each todo
               (fun row (coins : list record) =>
                  if 7 <=? len row
                  then rtry (coin ← row_record P row;
                             mret (coins ++ [coin])%list)
                            (fun _ => Ok coins)
                  else Ok coins) acc = Ok out ->
             len out <= len acc + len todo).
  { induction todo as [|row todo IH]; intros acc out Eo.
    - injection Eo as <-. unfold len. cbn. lia.
    - cbn [for_each] in Eo. unbind.
      match type of Eo with
      | rbind ?step _ = _ => destruct step as [acc'|e] eqn:Es; [|discriminate]
      end.
      cbn [rbind] in Eo. apply IH in Eo.
      assert (len acc' <= len acc + 1).
      { destruct (7 <=? len row); [|injection Es as <-; lia].
        destruct (row_record P row); cbn in Es; injection Es as <-;
          rewrite ?len_app; unfold len; cbn; lia. }
      unfold len in *. cbn [List.length]. lia. }
  apply G in E. unfold len in *. cbn [List.length] in E. lia.
Qed.

(** The two primary paths keep to a non-negative limit as long as at most
    one script carries a payload. *)
Lemma extract_bounded P limit soup coins :
  0 <= limit ->
  (List.length (List.filter (fun script => negb (no_payload script))
                       (soup_scripts soup)) <= 1)%nat ->
  extract P limit soup = Ok coins -> len coins <= limit.
Proof.
  intros Hl Hone. unfold extract. unbind.
  destruct (for_each _ _ _) as [found|e] eqn:E; [|discriminate].
  cbn [rbind].
  assert (G : forall scripts acc out,
             for_each scripts (scan_script P limit) acc = Ok out ->
             len out
             <= len acc
                + limit * len (List.filter (fun s => negb (no_payload s)) scripts)).
  { induction scripts as [|script scripts IH]; intros acc out Eo.
    - injection Eo as <-. unfold len. cbn. lia.
    - cbn [for_each] in Eo. unbind.
      destruct (scan_script P limit script acc) as [acc'|e] eqn:Es;
        [|discriminate].
      cbn [rbind] in Eo. apply IH in Eo.
      apply scan_script_length in Es; [|exact Hl].
      revert Es. cbn [List.filter]. destruct (no_payload script); cbn [negb] in *.
      + lia.
      + unfold len in *. cbn [List.length]. intros Es. nia. }
  apply G in E. unfold len in E at 2. cbn [List.length] in E.
  assert (len found <= limit) by (unfold len in *; nia).
  destruct found; [apply parse_table_length, Hl|].
  intros Ec. injection Ec as <-. assumption.
Qed.

(** C1 fails on the code: the secondary API path keeps every item of the
    answer.  With the site unreachable and an API answer of three items,
    [get_top_coins] with limit 1 returns three records; and a page that
    carries its payload in two script tags yields six records for limit 3,
    because each tag contributes up to [limit] records. *)
Theorem get_top_coins_exceeds_limit :
  get_top_coins Sample.offline_site 1 Sample.quiet
  = (Ok [Sample.api_coin 1 "Bitcoin" "BTC"; Sample.api_coin 2 "Ethereum" "ETH";
         Sample.api_coin 3 "Tether" "USDT"],
     {| files := ∅;
        stdout := ["Error fetching data: Max retries exceeded"] |})
  /\ get_top_coins Sample.twin_site 3 Sample.quiet
     = (Ok (Sample.first_three ++ Sample.first_three)%list, Sample.quiet).
Proof. split; vm_compute; reflexivity. Qed.

(** ** The JSON writer *)

(** Induction on values, through lists and objects. *)
Lemma pyval_induction (Q : pyval -> Prop) :
  Q PNone -> (forall b, Q (PBool b)) -> (forall n, Q (PInt n)) ->
  (forall f, Q (PFloat f)) -> (forall s, Q (PStr s)) ->
  (forall cs, Q (PText cs)) ->
  (forall items, Forall Q items -> Q (PList items)) ->
  (forall entries, Forall (fun e => Q (snd e)) entries -> Q (PDict entries)) ->
  forall v, Q v.
Proof.
  intros HNone HBool HInt HFloat HStr HText HList HDict.
  fix IH 1. intros [| b | n | f | s | cs | items | entries].
  - exact HNone.
  - apply HBool.
  - apply HInt.
  - apply HFloat.
  - apply HStr.
  - apply HText.
  - apply HList. induction items as [|x xs IHxs]; constructor;
      [apply IH|exact IHxs].
  - apply HDict. induction entries as [|e es IHes]; constructor;
      [apply IH|exact IHes].
Qed.

Lemma traverse_cons {A B} (f : A -> result B) x xs :
  traverse f (x :: xs) = (b ← f x; bs ← traverse f xs; mret (b :: bs)).
Proof. reflexivity. Qed.

Lemma traverse_is_ok {A B} (f : A -> result B) xs :
  is_ok (traverse f xs) = forallb (fun x => is_ok (f x)) xs.
Proof.
  induction xs as [|x xs IH]; [reflexivity|].
  rewrite traverse_cons. cbn [forallb]. unbind.
  destruct (f x); cbn [rbind is_ok andb]; [|reflexivity].
  rewrite <- IH. destruct (traverse f xs); reflexivity.
Qed.

Lemma traverse_forall2 {A B} (f : A -> result B) xs ys :
  traverse f xs = Ok ys -> Forall2 (fun x y => f x = Ok y) xs ys.
Proof.
  revert ys. induction xs as [|x xs IH]; intros ys H.
  - injection H as <-. constructor.
  - rewrite traverse_cons in H. unbind.
    destruct (f x) as [b|] eqn:Ex; [|discriminate]. cbn [rbind] in H.
    destruct (traverse f xs) as [bs|]; [|discriminate]. cbn [rbind] in H.
    injection H as <-. constructor; [exact Ex|apply IH; reflexivity].
Qed.

Lemma forallb_agree {A} (p q : A -> bool) xs :
  Forall (fun x => p x = q x) xs -> forallb p xs = forallb q xs.
Proof.
  induction 1 as [|x xs Hx _ IH]; [reflexivity|].
  cbn [forallb]. rewrite Hx, IH. reflexivity.
Qed.

(** [json.dump] completes exactly on the values that [dumpable] accepts. *)
Lemma dump_value_ok P v :
  forall depth, is_ok (dump_value P depth v) = dumpable P depth v.
Proof.
  induction v as [| b | n | f | s | cs | items IH | entries IH]
    using pyval_induction; intros depth; try reflexivity.
  - cbn [dump_value dumpable]. destruct (too_long _ n); reflexivity.
  - cbn [dump_value dumpable]. destruct (existsb surrogate cs); reflexivity.
  - destruct depth as [|d]; [reflexivity|]. cbn [dump_value dumpable]. unbind.
    transitivity (is_ok (traverse (dump_value P d) items)).
    { destruct (traverse _ items); reflexivity. }
    rewrite traverse_is_ok. apply forallb_agree.
    eapply List.Forall_impl; [|exact IH]. intros x Hx. apply Hx.
  - destruct depth as [|d]; [reflexivity|]. cbn [dump_value dumpable]. unbind.
    match goal with
    | |- is_ok (rbind (traverse ?f entries) _) = _ =>
        transitivity (is_ok (traverse f entries));
          [destruct (traverse f entries); reflexivity|]
    end.
    rewrite traverse_is_ok. apply forallb_agree.
    eapply List.Forall_impl; [|exact IH]. intros e He. cbv beta.
    rewrite <- He. destruct (dump_value P d (snd e)); reflexivity.
Qed.

Lemma encode_fields_ok P (r : record) :
  is_ok (encode_fields P r) = serializable P r.
Proof.
  unfold serializable, plain, sound.
  induction r as [|[k x] r IH]; [reflexivity|].
  cbn [encode_fields forallb snd]. unbind.
  destruct x as [v|t]; cbn [encode_value]; [|reflexivity].
  rewrite <- (dump_value_ok P v).
  destruct (dump_value P (nesting_limit P) v); cbn [rbind is_ok andb];
    [|destruct (forallb _ r); reflexivity].
  rewrite <- IH. destruct (encode_fields P r); reflexivity.
Qed.

Lemma encode_records_ok P (rs : list record) :
  is_ok (encode_records P rs) = forallb (serializable P) rs.
Proof.
  induction rs as [|r rs IH]; [reflexivity|].
  cbn [encode_records forallb]. unbind. rewrite <- encode_fields_ok.
  destruct (encode_fields P r); cbn [rbind is_ok andb]; [|reflexivity].
  rewrite <- IH. destruct (encode_records P rs); reflexivity.
Qed.

Lemma encode_fields_keys P (r : record) d :
  encode_fields P r = Ok d ->
  Forall2 (fun field m =>
             fst m = fst field
             /\ exists v, snd field = V v
                          /\ dump_value P (nesting_limit P) v = Ok (snd m))
          r d.
Proof.
  revert d. induction r as [|[k x] r IH]; intros d H.
  - injection H as <-. constructor.
  - cbn [encode_fields] in H. unbind.
    destruct x as [v|t]; [|discriminate]. cbn [encode_value] in H.
    destruct (dump_value P (nesting_limit P) v) as [j|] eqn:Ej;
      [|discriminate]. cbn [rbind] in H.
    destruct (encode_fields P r) as [ms|]; [|discriminate]. cbn [rbind] in H.
    injection H as <-. constructor; [|apply IH; reflexivity].
    split; [reflexivity|]. exists v. split; [reflexivity|exact Ej].
Qed.

Lemma encode_records_objects P (rs : list record) ds :
  encode_records P rs = Ok ds ->
  Forall2 (fun r j => exists d, j = JObject d /\ encode_fields P r = Ok d)
          rs ds.
Proof.
  revert ds. induction rs as [|r rs IH]; intros ds H.
  - injection H as <-. constructor.
  - cbn [encode_records] in H. unbind.
    destruct (encode_fields P r) as [d|] eqn:Ed; [|discriminate].
    cbn [rbind] in H.
    destruct (encode_records P rs) as [js|]; [|discriminate].
    cbn [rbind] in H. injection H as <-.
    constructor; [eauto|apply IH; reflexivity].
Qed.

(** A tag is what stops the dump when the plain values are in order. *)
Lemma encode_fields_tagged P (r : record) :
  plain r = false -> sound P r = true ->
  encode_fields P r
  = Raise (Exn TypeError "Object of type Tag is not JSON serializable").
Proof.
  unfold plain, sound.
  induction r as [|[k x] r IH]; [discriminate|].
  cbn [forallb snd encode_fields]. unbind.
  destruct x as [v|t]; [|reflexivity].
  cbn [andb encode_value]. intros Hp Hs.
  apply andb_true_iff in Hs as [Hv Hs].
  rewrite <- dump_value_ok in Hv.
  destruct (dump_value P (nesting_limit P) v); [|discriminate].
  cbn [rbind]. rewrite (IH Hp Hs). reflexivity.
Qed.

Lemma encode_records_tagged P (rs : list record) :
  forallb plain rs = false -> forallb (sound P) rs = true ->
  encode_records P rs
  = Raise (Exn TypeError "Object of type Tag is not JSON serializable").
Proof.
  induction rs as [|r rs IH]; [discriminate|].
  cbn [forallb encode_records]. unbind. intros Hp Hs.
  apply andb_true_iff in Hs as [Hr Hs].
  destruct (plain r) eqn:Ep.
  - assert (Hok : is_ok (encode_fields P r) = true).
    { rewrite encode_fields_ok. unfold serializable. rewrite Ep, Hr.
      reflexivity. }
    destruct (encode_fields P r); [|discriminate].
    cbn [andb rbind] in *. rewrite (IH Hp Hs). reflexivity.
  - rewrite (encode_fields_tagged P r Ep Hr). reflexivity.
Qed.

Lemma encode_records_refused P (rs : list record) :
  forallb plain rs = false -> is_ok (encode_records P rs) = false.
Proof.
  intros Hp. rewrite encode_records_ok.
  apply not_true_is_false. intros Hs. apply not_true_iff_false in Hp.
  apply Hp. apply forallb_forall. intros r Hin.
  apply (proj1 (forallb_forall _ _) Hs) in Hin.
  unfold serializable in Hin. apply andb_true_iff in Hin as [Hin _].
  exact Hin.
Qed.

(** *** Reading back what was written *)

Lemma forallb_latin_codes (l : list ascii) :
  forallb latin (map Py.code l) = true.
Proof.
  induction l as [|c l IH]; [reflexivity|].
  cbn [map forallb]. rewrite IH, andb_true_r.
  unfold latin, Py.code. apply N.ltb_lt. apply N_ascii_bounded.
Qed.

Lemma narrow_codes s : narrow (codes s) = Some s.
Proof.
  unfold narrow, codes. rewrite forallb_latin_codes. f_equal.
  rewrite map_map.
  rewrite <- (string_of_list_ascii_of_string s) at 2. f_equal.
  induction (list_ascii_of_string s) as [|c l IH]; [reflexivity|].
  cbn [map]. unfold Py.code at 1. rewrite ascii_N_embedding, IH.
  reflexivity.
Qed.

Lemma codes_narrow cs s : narrow cs = Some s -> codes s = cs.
Proof.
  unfold narrow, codes. destruct (forallb latin cs) eqn:E; [|discriminate].
  intros H. injection H as <-.
  rewrite list_ascii_of_string_of_list_ascii, map_map.
  induction cs as [|c cs IH]; [reflexivity|].
  cbn [forallb] in E. apply andb_true_iff in E as [Hc Hcs].
  cbn [map]. rewrite (IH Hcs). f_equal.
  unfold Py.code. apply N_ascii_embedding. apply N.ltb_lt. exact Hc.
Qed.

Lemma same_codes_refl cs : same_codes cs cs = true.
Proof.
  unfold same_codes. rewrite Nat.eqb_refl. cbn [andb].
  induction cs as [|c cs IH]; [reflexivity|].
  cbn [combine forallb fst snd]. rewrite N.eqb_refl, IH. reflexivity.
Qed.

Lemma py_eq_str_of cs : py_eq (str_of cs) (PText cs) = true.
Proof.
  unfold str_of. destruct (narrow cs) as [s|] eqn:E; cbn [py_eq text_of].
  - rewrite (codes_narrow cs s E). apply same_codes_refl.
  - apply same_codes_refl.
Qed.

Lemma SFeqb_refl f : f <> S754_nan -> SFeqb f f = true.
Proof.
  intros Hf. destruct f as [s|s| |s m e]; unfold SFeqb, SFcompare.
  - reflexivity.
  - destruct s; reflexivity.
  - contradiction.
  - rewrite Z.compare_refl, Pos.compare_cont_refl. destruct s; reflexivity.
Qed.

Lemma py_eq_lists xs ys :
  Forall2 (fun x y => py_eq x y = true) xs ys ->
  py_eq (PList xs) (PList ys) = true.
Proof.
  induction 1 as [|x y xs ys Hxy _ IH]; [reflexivity|].
  cbn [py_eq] in IH |- *. rewrite Hxy. exact IH.
Qed.

Lemma py_eq_dicts d e :
  py_eq (PDict d) (PDict e) = same_entries py_eq d e.
Proof.
  unfold same_entries. cbn [py_eq]. f_equal.
  induction d as [|[k v] d IH]; [reflexivity|].
  cbn [forallb fst snd]. rewrite IH. reflexivity.
Qed.

Lemma distinct_app_cons xs k ys :
  distinct (xs ++ k :: ys) = true ->
  forallb (fun a => negb (String.eqb a k)) xs = true.
Proof.
  induction xs as [|x xs IH]; [reflexivity|].
  cbn [app distinct forallb]. intros H.
  apply andb_true_iff in H as [Hx Hxs]. rewrite (IH Hxs), andb_true_r.
  apply negb_true_iff in Hx. apply negb_true_iff.
  rewrite existsb_app in Hx. apply orb_false_iff in Hx as [_ Hx].
  cbn [existsb] in Hx. apply orb_false_iff in Hx as [Hx _]. exact Hx.
Qed.

Lemma update_fresh {A} key (v : A) entries :
  forallb (fun a => negb (String.eqb a key)) (map fst entries) = true ->
  update key v entries = (entries ++ [(key, v)])%list.
Proof.
  induction entries as [|[k x] entries IH]; [reflexivity|].
  cbn [map fst forallb update app]. intros H.
  apply andb_true_iff in H as [Hk Hs]. apply negb_true_iff in Hk.
  rewrite Hk, (IH Hs). reflexivity.
Qed.

Lemma dict_of_distinct {A} (pairs : list (string * A)) :
  distinct (map fst pairs) = true -> dict_of pairs = pairs.
Proof.
  unfold dict_of.
  assert (G : forall l (acc : list (string * A)),
            distinct (map fst (acc ++ l)) = true ->
            fold_left (fun d p => update (fst p) (snd p) d) l acc
            = (acc ++ l)%list).
  { induction l as [|[k v] l IH]; intros acc H.
    - rewrite app_nil_r. reflexivity.
    - cbn [fold_left fst snd].
      rewrite update_fresh.
      + rewrite IH; rewrite <- app_assoc; [reflexivity|exact H].
      + rewrite map_app in H. cbn [map fst] in H.
        apply (distinct_app_cons _ _ _ H). }
  intros H. apply (G pairs []). exact H.
Qed.

Lemma assoc_distinct_in {A} (l : list (string * A)) k v :
  distinct (map fst l) = true -> In (k, v) l -> assoc k l = Some v.
Proof.
  induction l as [|[k0 v0] l IH]; [contradiction|].
  cbn [map fst distinct assoc]. intros H Hin.
  apply andb_true_iff in H as [Hk Hl]. apply negb_true_iff in Hk.
  destruct Hin as [E|Hin].
  - injection E as -> ->. rewrite String.eqb_refl. reflexivity.
  - destruct (String.eqb k0 k) eqn:Ek; [|apply IH; assumption].
    exfalso. apply String.eqb_eq in Ek. subst k0.
    assert (Hex : existsb (String.eqb k) (map fst l) = true).
    { apply existsb_exists. exists k. split; [|apply String.eqb_refl].
      apply in_map_iff. exists (k, v). split; [reflexivity|exact Hin]. }
    congruence.
Qed.

(** Entries that agree position by position are equal as dictionaries. *)
Lemma same_entries_aligned {A B} (eq : A -> B -> bool)
      (d : list (string * A)) (e : list (string * B)) :
  Forall2 (fun m n => fst m = fst n /\ eq (snd m) (snd n) = true) d e ->
  distinct (map fst e) = true ->
  same_entries eq d e = true.
Proof.
  intros Hall Hd. unfold same_entries. apply andb_true_iff. split.
  - apply Nat.eqb_eq. clear Hd.
    induction Hall; cbn [List.length]; [reflexivity|f_equal; assumption].
  - apply forallb_forall. intros m Hm.
    assert (Hn : exists n, In n e /\ fst m = fst n
                           /\ eq (snd m) (snd n) = true).
    { clear Hd. induction Hall as [|m0 n0 d e [Hk He] _ IH];
        [contradiction|].
      destruct Hm as [<-|Hm].
      - exists n0. split; [left; reflexivity|split; assumption].
      - destruct (IH Hm) as (n & Hin & Hn). exists n.
        split; [right; exact Hin|exact Hn]. }
    destruct Hn as ([k b] & Hin & Hk & He). cbn [fst snd] in Hk, He.
    rewrite Hk, (assoc_distinct_in e k b Hd Hin). exact He.
Qed.

Lemma aligned_keys {A B} (R : A -> B -> Prop)
      (d : list (string * A)) (e : list (string * B)) :
  Forall2 (fun m n => fst m = fst n /\ R (snd m) (snd n)) d e ->
  map fst d = map fst e.
Proof.
  induction 1 as [|m n d e [Hk _] _ IH]; [reflexivity|].
  cbn [map]. rewrite Hk, IH. reflexivity.
Qed.

(** What [json.dump] wrote for a value reads back as an equal value,
    unless a NaN is in it. *)
Lemma dump_load P v :
  forall depth j,
    dump_value P depth v = Ok j ->
    keyed v = true -> nan_free v = true ->
    py_eq (load_value j) v = true.
Proof.
  induction v as [| b | n | f | s | cs | items IH | entries IH]
    using pyval_induction; intros depth j H Hk Hn.
  - injection H as <-. reflexivity.
  - injection H as <-. cbn [load_value py_eq]. destruct b; reflexivity.
  - cbn [dump_value] in H. destruct (too_long _ n); [discriminate|].
    injection H as <-. cbn [load_value py_eq]. apply Z.eqb_refl.
  - injection H as <-. cbn [load_value py_eq]. apply SFeqb_refl.
    intros ->. discriminate.
  - injection H as <-. cbn [load_value]. unfold str_of.
    rewrite narrow_codes. cbn [py_eq text_of]. apply same_codes_refl.
  - cbn [dump_value] in H. destruct (existsb surrogate cs); [discriminate|].
    injection H as <-. cbn [load_value]. apply py_eq_str_of.
  - destruct depth as [|d]; [discriminate|]. cbn [dump_value] in H. unbind.
    destruct (traverse (dump_value P d) items) as [js|] eqn:Et;
      [|discriminate]. cbn [rbind] in H. injection H as <-.
    cbn [load_value]. apply py_eq_lists.
    apply traverse_forall2 in Et. cbn [keyed nan_free] in Hk, Hn.
    clear -IH Et Hk Hn.
    induction Et as [|x y xs ys Hxy _ IHt]; [constructor|].
    cbn [forallb] in Hk, Hn.
    apply andb_true_iff in Hk as [Hkx Hks].
    apply andb_true_iff in Hn as [Hnx Hns].
    cbn [map]. constructor.
    + apply (Forall_inv IH d y Hxy Hkx Hnx).
    + apply IHt; [apply (Forall_inv_tail IH)|assumption|assumption].
  - destruct depth as [|d]; [discriminate|]. cbn [dump_value] in H. unbind.
    match type of H with
    | rbind (traverse ?f entries) _ = _ =>
        destruct (traverse f entries) as [ms|] eqn:Et; [|discriminate]
    end.
    cbn [rbind] in H. injection H as <-.
    cbn [load_value]. cbn [keyed nan_free] in Hk, Hn.
    apply andb_true_iff in Hk as [Hd Hk].
    apply traverse_forall2 in Et.
    assert (Hall :
      Forall2 (fun m n => fst m = fst n /\ py_eq (snd m) (snd n) = true)
              (map (fun m => (fst m, load_value (snd m))) ms) entries).
    { clear Hd. induction Et as [|e m es ms' Hem _ IHt]; [constructor|].
      cbn [forallb] in Hk, Hn.
      apply andb_true_iff in Hk as [Hkx Hks].
      apply andb_true_iff in Hn as [Hnx Hns].
      cbv beta in Hem. unbind.
      destruct (dump_value P d (snd e)) as [j|] eqn:Ej; [|discriminate].
      cbn [rbind] in Hem. injection Hem as <-.
      cbn [map fst snd]. constructor.
      - split; [reflexivity|].
        apply (Forall_inv IH d j Ej Hkx Hnx).
      - apply IHt; [apply (Forall_inv_tail IH)|assumption|assumption]. }
    rewrite dict_of_distinct.
    + rewrite py_eq_dicts. apply same_entries_aligned; assumption.
    + rewrite (aligned_keys (fun a b => py_eq a b = true) _ _ Hall).
      exact Hd.
Qed.

(** The same for a record: its keys come back in order, and its values
    equal, when they hold no NaN. *)
Lemma record_round_trip P (r : record) d :
  encode_fields P r = Ok d ->
  well_keyed r = true ->
  field_names (load_value (JObject d)) = keys r
  /\ (without_nan r = true ->
      equals_record (load_value (JObject d)) r = true).
Proof.
  intros H Hk. unfold well_keyed in Hk.
  apply andb_true_iff in Hk as [Hd Hk].
  apply encode_fields_keys in H.
  assert (Hkeys : map fst (map (fun m => (fst m, load_value (snd m))) d)
                  = keys r).
  { unfold keys. clear -H. induction H as [|f m r d [Hf _] _ IH];
      [reflexivity|]. cbn [map fst]. rewrite Hf, IH. reflexivity. }
  cbn [load_value]. rewrite dict_of_distinct by (rewrite Hkeys; exact Hd).
  split; [exact Hkeys|].
  intros Hn. unfold equals_record. apply same_entries_aligned; [|exact Hd].
  unfold without_nan in Hn. clear Hd Hkeys.
  induction H as [|f m r d [Hf (v & Ev & Ej)] _ IH]; [constructor|].
  cbn [forallb] in Hk, Hn.
  apply andb_true_iff in Hk as [Hkv Hks].
  apply andb_true_iff in Hn as [Hnv Hns].
  cbn [map]. constructor; [|apply IH; assumption].
  cbn [fst snd]. split; [exact Hf|].
  rewrite Ev in *. unfold equals_value.
  apply (dump_load P v _ _ Ej Hkv Hnv).
Qed.

Lemma records_round_trip P (rs : list record) ds :
  encode_records P rs = Ok ds ->
  forallb well_keyed rs = true ->
  map field_names (map load_value ds) = map keys rs
  /\ (forallb without_nan rs = true ->
      data_equals (load_value (JArray ds)) rs = true).
Proof.
  intros H Hk. apply encode_records_objects in H.
  assert (Hall :
    Forall2 (fun j r =>
               field_names (load_value j) = keys r
               /\ (without_nan r = true ->
                   equals_record (load_value j) r = true)) ds rs).
  { induction H as [|r j rs ds (d & -> & Ed) _ IH]; [constructor|].
    cbn [forallb] in Hk. apply andb_true_iff in Hk as [Hr Hrs].
    constructor; [|apply IH; exact Hrs].
    apply (record_round_trip P r d Ed Hr). }
  clear H Hk. split.
  - induction Hall as [|j r ds rs [Hf _] _ IH]; [reflexivity|].
    cbn [map]. rewrite Hf, IH. reflexivity.
  - intros Hn. cbn [load_value]. unfold data_equals.
    apply andb_true_iff. split.
    + rewrite length_map. apply Nat.eqb_eq.
      clear Hn.
      induction Hall; cbn [List.length]; [reflexivity|f_equal; assumption].
    + induction Hall as [|j r ds rs [_ He] _ IH]; [reflexivity|].
      cbn [forallb] in Hn. apply andb_true_iff in Hn as [Hr Hrs].
      cbn [map combine forallb fst snd]. rewrite (He Hr), (IH Hrs).
      reflexivity.
Qed.

(** The run of [save_to_json] when the dump completes, and when it does
    not. *)
Lemma save_to_json_run P coins filename w ds :
  writable P filename = true ->
  encode_records P coins = Ok ds ->
  save_to_json P coins filename w
  = (Ok tt,
     {| files :=
          <[filename :=
              JsonFile (JObject [("timestamp", JString (codes (now_isoformat P)));
                                 ("count", JInt (len coins));
                                 ("data", JArray ds)])]> (files w);
        stdout := stdout w ++ ["Saved " ++ show_nat (List.length coins)
                               ++ " coins to " ++ filename] |}).
Proof.
  intros Hw Eds. unfold save_to_json, open_w, json_dump. rewrite Hw.
  cbn [data timestamp count]. unbind. rewrite Eds.
  unfold mbind, M_bind, write, lift, print. cbn [rbind files stdout].
  rewrite insert_insert_eq. reflexivity.
Qed.

Lemma save_to_json_stops P coins filename w e :
  writable P filename = true ->
  encode_records P coins = Raise e ->
  save_to_json P coins filename w
  = (Raise e,
     {| files := <[filename := Truncated]> (files w); stdout := stdout w |}).
Proof.
  intros Hw Eds. unfold save_to_json, open_w, json_dump. rewrite Hw.
  cbn [data timestamp count]. unbind. rewrite Eds. reflexivity.
Qed.

(** C8, as stated, fails: the record that [get_top_coins] builds from a
    table row whose name cell holds a tagged symbol has a tag as its symbol;
    [save_to_json] raises on it and leaves a file that cannot be parsed.
    It also raises, whatever the records, when the path cannot be opened. *)
Lemma save_to_json_tag_raises :
  get_top_coins Sample.tagged_site 10 Sample.quiet
  = (Ok Sample.tagged_coins, Sample.quiet)
  /\ writable Sample.tagged_site "coins_data.json" = true
  /\ fst (save_to_json Sample.tagged_site Sample.tagged_coins
                       "coins_data.json" Sample.quiet)
     = Raise (Exn TypeError "Object of type Tag is not JSON serializable")
  /\ json_load
       (files (snd (save_to_json Sample.tagged_site Sample.tagged_coins
                                 "coins_data.json" Sample.quiet))
        !! "coins_data.json")
     = Raise (Exn JSONDecodeError "Expecting value")
  /\ forallb plain Sample.plain_coins = true
  /\ save_to_json Sample.read_only_site Sample.plain_coins "coins_data.json"
                  Sample.quiet
     = (Raise (Exn OSError "cannot open file for writing"), Sample.quiet).
Proof. repeat split; vm_compute; reflexivity. Qed.

(** More records on which the round trip fails, though no field is a tag:
    a name with a lone surrogate, as [json.loads] reads it from an escape,
    stops the dump with [UnicodeEncodeError]; so does, with [ValueError],
    an integer beyond the digit limit and, with [RecursionError], a value
    nested too deep; each leaves a file cut short.  A NaN is written and
    read back, and the data read back differ from the records. *)
Example save_to_json_other_failures :
  forallb plain [Fixture.surrogate_coin; Fixture.long_coin;
                 Fixture.deep_coin; Fixture.nan_coin] = true
  /\ save_to_json Sample.offline_site [Fixture.surrogate_coin] "coins.json"
                  Sample.quiet
     = (Raise (Exn UnicodeEncodeError
          "'utf-8' codec can't encode character: surrogates not allowed"),
        {| files := {[ "coins.json" := Truncated ]}; stdout := [] |})
  /\ save_to_json Fixture.strict_site [Fixture.long_coin] "coins.json"
                  Sample.quiet
     = (Raise (Exn ValueError
                   "Exceeds the limit for integer string conversion"),
        {| files := {[ "coins.json" := Truncated ]}; stdout := [] |})
  /\ save_to_json Fixture.strict_site [Fixture.deep_coin] "coins.json"
                  Sample.quiet
     = (Raise (Exn RecursionError "maximum recursion depth exceeded"),
        {| files := {[ "coins.json" := Truncated ]}; stdout := [] |})
  /\ (exists w' doc d,
         save_to_json Sample.offline_site [Fixture.nan_coin] "coins.json"
                      Sample.quiet = (Ok tt, w')
         /\ json_load (files w' !! "coins.json") = Ok doc
         /\ get doc "data" PNone = Ok d
         /\ data_equals d [Fixture.nan_coin] = false).
Proof.
  split; [reflexivity|].
  split; [vm_compute; reflexivity|].
  split; [vm_compute; reflexivity|].
  split; [vm_compute; reflexivity|].
  eexists _, _, _. split; [vm_compute; reflexivity|].
  split; [vm_compute; reflexivity|].
  split; vm_compute; reflexivity.
Qed.

(** C8, amended. For every list of records that [json.dump] takes (no
    field is a tag, no string holds a lone surrogate, no integer exceeds
    the digit limit, no value nests beyond the recursion limit) and every
    path that can be opened for writing, [save_to_json] returns normally
    and the file at the path then parses to an object whose [count] is the
    number of records, whose [timestamp] is the clock's string and whose
    [data] lists one object per record, with the keys of the record in
    their order; when no float of the records is a NaN, [data == records]
    holds.  No other file changes. *)
Theorem save_to_json_round_trip (P : platform) (records : list record)
        (filename : string) (w : world) :
  writable P filename = true ->
  forallb (serializable P) records = true ->
  forallb well_keyed records = true ->
  exists w' doc ds,
    save_to_json P records filename w = (Ok tt, w')
    /\ json_load (files w' !! filename) = Ok doc
    /\ get doc "count" PNone = Ok (PInt (len records))
    /\ get doc "data" PNone = Ok (PList ds)
    /\ map field_names ds = map keys records
    /\ (forallb without_nan records = true ->
        data_equals (PList ds) records = true)
    /\ get doc "timestamp" PNone = Ok (PStr (now_isoformat P))
    /\ (forall other, other <> filename ->
                      files w' !! other = files w !! other).
Proof.
  intros Hw Hs Hk.
  assert (Hok : is_ok (encode_records P records) = true)
    by (rewrite encode_records_ok; exact Hs).
  destruct (encode_records P records) as [js|] eqn:Ejs; [|discriminate].
  destruct (records_round_trip P records js Ejs Hk) as [Hnames Heq].
  rewrite (save_to_json_run P records filename w js Hw Ejs).
  eexists _, _, (map load_value js). split; [reflexivity|].
  cbn [files]. rewrite lookup_insert_eq. cbn [json_load].
  split; [reflexivity|].
  cbn [load_value]. rewrite dict_of_distinct by reflexivity.
  cbn [map fst snd load_value].
  split; [reflexivity|]. split; [reflexivity|].
  split; [exact Hnames|]. split; [exact Heq|].
  split.
  - unfold str_of. rewrite narrow_codes. reflexivity.
  - intros other Hne. rewrite lookup_insert_ne by congruence. reflexivity.
Qed.

Lemma save_to_json_round_trip_witness :
  exists w' doc ds,
    save_to_json Sample.offline_site Sample.plain_coins "coins.json"
                 Sample.quiet = (Ok tt, w')
    /\ json_load (files w' !! "coins.json") = Ok doc
    /\ get doc "count" PNone = Ok (PInt 2)
    /\ get doc "data" PNone = Ok (PList ds)
    /\ map field_names ds = map keys Sample.plain_coins
    /\ (forallb without_nan Sample.plain_coins = true ->
        data_equals (PList ds) Sample.plain_coins = true)
    /\ get doc "timestamp" PNone = Ok (PStr "2024-01-01T00:00:00")
    /\ (forall other, other <> "coins.json" ->
                      files w' !! other = files Sample.quiet !! other).
Proof.
  apply (save_to_json_round_trip Sample.offline_site Sample.plain_coins
           "coins.json" Sample.quiet); reflexivity.
Defined.

(** ** The theorems at work on the sample platforms *)

Lemma structured_five_limit_three_witness :
  exists c1 c2 c3,
    get_top_coins Sample.structured_site 3 Sample.quiet
    = (Ok [c1; c2; c3], Sample.quiet)
    /\ _parse_coin_data (Sample.listing_item 1 "Bitcoin" "BTC" 60000) = Some c1
    /\ _parse_coin_data (Sample.listing_item 2 "Ethereum" "ETH" 3000) = Some c2
    /\ _parse_coin_data (Sample.listing_item 3 "Tether" "USDT" 1) = Some c3
    /\ map (assoc "rank") [c1; c2; c3]
       = map (fun item => Some (V (rank_of item)))
           [Sample.listing_item 1 "Bitcoin" "BTC" 60000;
            Sample.listing_item 2 "Ethereum" "ETH" 3000;
            Sample.listing_item 3 "Tether" "USDT" 1].
Proof.
  apply (structured_five_limit_three Sample.structured_site Sample.quiet
           Sample.structured_soup _ _ _
           (Sample.listing_item 4 "BNB" "BNB" 500)
           (Sample.listing_item 5 "Solana" "SOL" 150)).
  - exists Sample.page. repeat split.
  - exists [Sample.other_script], Sample.payload_script, [], "{payload}",
      Sample.next_data.
    repeat split.
  - reflexivity.
Defined.

Lemma table_fallback_witness :
  (exists c1 c2 c3 c4,
      get_top_coins Sample.table_site 10 Sample.quiet
      = (Ok [c1; c2; c3; c4], Sample.quiet)
      /\ row_record Sample.table_site
           (Sample.coin_row "1" "Bitcoin" "$60,000.00" "+1.5%" "-2.25%"
                            "$1,200,000" "$35,000") = Ok c1
      /\ row_record Sample.table_site
           (Sample.coin_row "2" "Ethereum" "$3,000.50" "0.10%" "4%"
                            "$360,000" "$15,000") = Ok c2
      /\ row_record Sample.table_site
           (Sample.coin_row "3" "Tether" "$1.00" "0.00%" "0.01%"
                            "$100,000" "$50,000") = Ok c3
      /\ row_record Sample.table_site
           (Sample.coin_row "4" "BNB" "$500" "-0.5%" "1%" "$75,000" "$1,000")
         = Ok c4
      /\ [c1; c2; c3; c4]
         = map (table_record Sample.table_site) Sample.four_rows)
  /\ map (table_record Sample.table_site) Sample.four_rows
     = Sample.table_coins.
Proof.
  split.
  - refine (proj1 (table_fallback Sample.table_site Sample.quiet
                     Sample.table_soup _)
              Sample.header_row _ _ _ _ _ _ _).
    + exists Sample.page. repeat split.
    + reflexivity.
    + reflexivity.
    + reflexivity.
  - vm_compute. reflexivity.
Defined.


(** * Further properties of the code *)

(** ** The secondary API path *)

Lemma api_record_well_formed item :
  api_well_formed item = true -> exists coin, api_record item = Ok coin.
Proof.
  destruct item as [| | | | | | |entries]; try discriminate.
  unfold api_well_formed, api_record. unbind. cbn.
  destruct (assoc "quotes" entries) as [[| | | | | |[|[| | | | | | |q] qs]|]|];
    try discriminate; intros _; cbn; eauto.
Qed.

Lemma api_record_malformed item :
  api_well_formed item = false -> exists e, api_record item = Raise e.
Proof.
  unfold api_well_formed, api_record. unbind.
  destruct item as [| | | | | | |entries]; cbn; eauto.
  destruct (assoc "quotes" entries) as [[| | | |s|cs|[|[| | | | | | |q] qs]|]|];
    try discriminate; intros _; cbn; eauto.
  - destruct s; cbn; eauto.
  - destruct cs as [|c cs]; cbn; eauto.
    unfold str_of. destruct (narrow [c]); cbn; eauto.
Qed.

Lemma collect_leading {A B} (p : A -> bool) (f : A -> result B) xs :
  (forall x, p x = true -> exists b, f x = Ok b) ->
  (forall x, p x = false -> exists e, f x = Raise e) ->
  Forall2 (fun x b => f x = Ok b) (leading p xs) (fst (collect f xs))
  /\ (forallb p xs = true -> snd (collect f xs) = None)
  /\ (forall good bad rest,
         xs = (good ++ bad :: rest)%list -> forallb p good = true ->
         p bad = false ->
         leading p xs = good /\ snd (collect f xs) = Some (match f bad with
                                                           | Raise e => e
                                                           | Ok _ => Exn OSError ""
                                                           end)).
Proof.
  intros Hok Hbad. induction xs as [|x xs (IH1 & IH2 & IH3)].
  - split; [constructor|]. split; [reflexivity|].
    intros [|? ?] ? ? E; discriminate E.
  - cbn [leading collect forallb]. destruct (p x) eqn:Ep.
    + destruct (Hok x Ep) as [b Eb]. rewrite Eb.
      destruct (collect f xs) as [bs failure] eqn:Ec. cbn [fst snd] in *.
      split; [constructor; assumption|]. split; [exact IH2|].
      intros [|g good] bad rest E Hg Hb.
      * injection E as -> _. congruence.
      * injection E as -> E. cbn [forallb] in Hg.
        apply andb_true_iff in Hg as [_ Hg].
        destruct (IH3 good bad rest E Hg Hb) as [El Es].
        cbn [leading]. rewrite El. split; [reflexivity|exact Es].
    + destruct (Hbad x Ep) as [e Ee]. rewrite Ee. cbn [fst snd].
      split; [constructor|]. split; [discriminate|].
      intros [|g good] bad rest E Hg Hb.
      * injection E as <- _. rewrite Ee. split; reflexivity.
      * injection E as <- _. cbn [forallb] in Hg. rewrite Ep in Hg.
        discriminate.
Qed.

Lemma api_block_listed P limit items :
  api_lists P limit items -> api_block P limit = collect api_record items.
Proof.
  intros (response & data & inner & Eg & Ej & Ed & El).
  unfold api_block. unbind. rewrite Eg. cbn [rbind]. rewrite Ej.
  cbn [rbind]. rewrite Ed. cbn [rbind]. rewrite El. reflexivity.
Qed.

(** X1. When the secondary API answers a listing whose items are all
    well-formed, [_fetch_via_api] returns the projection of every item, in
    order and however many there are: [limit] only travels in the request.
    Nothing is printed and no file is touched. *)
Theorem api_returns_every_item (P : platform) (limit : Z) (w : world)
        (items : list pyval) :
  api_lists P limit items ->
  forallb api_well_formed items = true ->
  exists found,
    _fetch_via_api P limit w = (Ok found, w)
    /\ Forall2 (fun item coin => api_record item = Ok coin) items found
    /\ len found = len items.
Proof.
  intros Hl Hall.
  destruct (collect_leading api_well_formed api_record items
              api_record_well_formed api_record_malformed) as (H1 & H2 & _).
  unfold _fetch_via_api. rewrite (api_block_listed P limit items Hl).
  specialize (H2 Hall).
  destruct (collect api_record items) as [found failure]. cbn [fst snd] in *.
  subst failure.
  assert (El : leading api_well_formed items = items).
  { clear -Hall. induction items as [|x xs IH]; [reflexivity|].
    cbn [forallb leading] in *. apply andb_true_iff in Hall as [-> Hxs].
    rewrite (IH Hxs). reflexivity. }
  rewrite El in H1. exists found. split; [reflexivity|]. split; [exact H1|].
  unfold len. f_equal. symmetry. eapply Forall2_length. exact H1.
Qed.

Lemma api_returns_every_item_witness :
  exists found,
    _fetch_via_api Sample.offline_site 1 Sample.quiet = (Ok found, Sample.quiet)
    /\ Forall2 (fun item coin => api_record item = Ok coin)
         [Sample.api_item 1 "Bitcoin" "BTC"; Sample.api_item 2 "Ethereum" "ETH";
          Sample.api_item 3 "Tether" "USDT"] found
    /\ len found = len [Sample.api_item 1 "Bitcoin" "BTC";
                        Sample.api_item 2 "Ethereum" "ETH";
                        Sample.api_item 3 "Tether" "USDT"].
Proof.
  apply (api_returns_every_item Sample.offline_site 1 Sample.quiet).
  - eexists _, _, _. repeat split.
  - reflexivity.
Defined.

(** X2. A malformed item ends the loop of [_fetch_via_api]: the records of
    the items before it are returned, the items after it are dropped, and
    one "API Error" line with the exception's message is printed. *)
Theorem api_stops_at_malformed_item (P : platform) (limit : Z) (w : world)
        (good : list pyval) (bad : pyval) (rest : list pyval) :
  api_lists P limit (good ++ bad :: rest) ->
  forallb api_well_formed good = true ->
  api_well_formed bad = false ->
  exists found e,
    _fetch_via_api P limit w
    = (Ok found,
       {| files := files w;
          stdout := stdout w ++ ["API Error: " ++ exn_msg e] |})
    /\ Forall2 (fun item coin => api_record item = Ok coin) good found
    /\ api_record bad = Raise e.
Proof.
  intros Hl Hg Hb.
  destruct (collect_leading api_well_formed api_record (good ++ bad :: rest)
              api_record_well_formed api_record_malformed) as (H1 & _ & H3).
  destruct (H3 good bad rest eq_refl Hg Hb) as [El Es].
  destruct (api_record_malformed bad Hb) as [e Ee]. rewrite Ee in Es.
  unfold _fetch_via_api. rewrite (api_block_listed P limit _ Hl).
  destruct (collect api_record (good ++ bad :: rest)) as [found failure].
  cbn [fst snd] in *. subst failure. rewrite El in H1.
  exists found, e. repeat split; assumption.
Qed.

Lemma api_stops_at_malformed_item_witness :
  exists found e,
    _fetch_via_api Fixture.broken_api_site 5 Sample.quiet
    = (Ok found,
       {| files := files Sample.quiet;
          stdout := stdout Sample.quiet ++ ["API Error: " ++ exn_msg e] |})
    /\ Forall2 (fun item coin => api_record item = Ok coin)
         [Sample.api_item 1 "Bitcoin" "BTC"] found
    /\ api_record (PDict [("cmcRank", PInt 2); ("quotes", PStr "none")])
       = Raise e.
Proof.
  apply (api_stops_at_malformed_item Fixture.broken_api_site 5 Sample.quiet
           [Sample.api_item 1 "Bitcoin" "BTC"]
           (PDict [("cmcRank", PInt 2); ("quotes", PStr "none")])
           [Sample.api_item 3 "Tether" "USDT"]).
  - eexists _, _, _. repeat split.
  - reflexivity.
  - reflexivity.
Defined.



(** ** The fallback chain of [get_top_coins] *)




(** ** The structured-data path *)

Lemma parse_malformed item :
  is_dict item = true -> well_formed item = false ->
  _parse_coin_data item = None.
Proof.
  destruct item as [| | | | | | |entries]; try discriminate. intros _.
  unfold well_formed, _parse_coin_data. unbind. cbn.
  destruct (assoc "quote" entries) as [[| | | | | | |quotes]|];
    try discriminate; cbn; try reflexivity.
  destruct (assoc "USD" quotes) as [[| | | | | | |usd]|];
    try discriminate; cbn; reflexivity.
Qed.

Lemma add_items_keeps_well_formed items coins :
  exists found,
    for_each items add_item coins = Ok (coins ++ found)%list
    /\ Forall2 (fun item coin => _parse_coin_data item = Some coin)
               (List.filter well_formed items) found.
Proof.
  revert coins. induction items as [|item items IH]; intros coins.
  - exists []. rewrite app_nil_r. split; [reflexivity|constructor].
  - cbn [for_each List.filter]. unbind.
    destruct (well_formed item) eqn:Ew.
    + destruct (parse_well_formed item Ew) as (fd & fds & Ep & _ & Ed).
      destruct (IH (coins ++ [fd :: fds])%list) as (found & Ef & Hall).
      exists ((fd :: fds) :: found). unfold add_item at 1.
      rewrite Ed, Ep. cbn [rbind]. rewrite Ef, <- app_assoc.
      split; [reflexivity|]. constructor; assumption.
    + destruct (IH coins) as (found & Ef & Hall). exists found.
      split; [|exact Hall].
      assert (Ea : add_item item coins = Ok coins).
      { unfold add_item. destruct (is_dict item) eqn:Ed; [|reflexivity].
        rewrite (parse_malformed item Ed Ew). reflexivity. }
      rewrite Ea. exact Ef.
Qed.

(** X6. On the structured-data path a listing item that is not an object,
    or whose quote (or its USD entry) is not an object, is skipped without
    ending the batch: the result holds the projections of the well-formed
    items among the first [limit] ones, in their order. *)
Theorem structured_skips_malformed (P : platform) (limit : Z) (w : world)
        (soup : Soup) (items : list pyval) :
  fetches P soup ->
  embeds P soup items ->
  List.filter well_formed (slice 0 limit items) <> [] ->
  exists found,
    get_top_coins P limit w = (Ok found, w)
    /\ Forall2 (fun item coin => _parse_coin_data item = Some coin)
               (List.filter well_formed (slice 0 limit items)) found.
Proof.
  intros Hf He Hne.
  destruct (add_items_keeps_well_formed (slice 0 limit items) [])
    as (found & Ef & Hall).
  exists found. split; [|exact Hall].
  apply get_top_coins_primary. rewrite (primary_fetched P limit soup Hf).
  unfold extract. unbind. fold (structured P limit soup).
  rewrite (structured_embedded P limit soup items He), Ef. cbn [rbind app].
  destruct found as [|c cs]; [|reflexivity].
  inversion Hall as [E|]. congruence.
Qed.

Lemma structured_skips_malformed_witness :
  exists found,
    get_top_coins Fixture.mixed_site 5 Sample.quiet = (Ok found, Sample.quiet)
    /\ Forall2 (fun item coin => _parse_coin_data item = Some coin)
         [Sample.listing_item 1 "Bitcoin" "BTC" 60000;
          Sample.listing_item 3 "Tether" "USDT" 1] found.
Proof.
  apply (structured_skips_malformed Fixture.mixed_site 5 Sample.quiet
           Sample.structured_soup Fixture.mixed_items).
  - exists Sample.page. repeat split.
  - exists [Sample.other_script], Sample.payload_script, [], "{payload}",
      Fixture.mixed_data.
    repeat split.
  - discriminate.
Defined.

(** X7. As long as at most one script tag of the page carries a payload,
    a result that comes from the primary block (payload or table) has at
    most [limit] records, for every non-negative [limit]. *)
Theorem primary_keeps_limit (P : platform) (limit : Z) (w w' : world)
        (soup : Soup) (coins : list record) :
  fetches P soup ->
  0 <= limit ->
  (List.length (List.filter (fun script => negb (no_payload script))
                            (soup_scripts soup)) <= 1)%nat ->
  is_ok (primary P limit) = true ->
  get_top_coins P limit w = (Ok coins, w') ->
  len coins <= limit.
Proof.
  intros Hf Hl Hone Hok Hrun.
  destruct (primary P limit) as [found|e] eqn:Ep; [|discriminate].
  rewrite (get_top_coins_primary P limit w found Ep) in Hrun.
  injection Hrun as <- _.
  rewrite (primary_fetched P limit soup Hf) in Ep.
  eapply extract_bounded; eassumption.
Qed.

Lemma primary_keeps_limit_witness : len Sample.first_three <= 3.
Proof.
  apply (primary_keeps_limit Sample.structured_site 3 Sample.quiet
           Sample.quiet Sample.structured_soup Sample.first_three).
  - exists Sample.page. repeat split.
  - discriminate.
  - apply Nat.leb_le. reflexivity.
  - reflexivity.
  - reflexivity.
Defined.

(** X8. With limit 0 the primary block finds nothing: if it does not
    raise, [get_top_coins] returns the empty list, whatever the page
    embeds or tabulates. *)
Theorem limit_zero_gives_nothing (P : platform) (w : world) (soup : Soup) :
  fetches P soup ->
  is_ok (primary P 0) = true ->
  get_top_coins P 0 w = (Ok [], w).
Proof.
  intros Hf Hok. apply get_top_coins_primary.
  destruct (primary P 0) as [found|e] eqn:Ep; [|discriminate]. f_equal.
  rewrite (primary_fetched P 0 soup Hf) in Ep. unfold extract in Ep.
  unbind. destruct (for_each _ _ _) as [coins|e] eqn:E; [|discriminate].
  cbn [rbind] in Ep.
  assert (Hc : len coins <= 0).
  { apply (for_each_invariant (fun acc : list record => len acc <= 0)
             (scan_script P 0) (soup_scripts soup) [] coins);
      [|unfold len; cbn; lia|exact E].
    intros script acc acc' Es Hacc.
    apply scan_script_length in Es; [|lia].
    destruct (no_payload script); lia. }
  destruct coins as [|c cs]; [|unfold len in Hc; cbn in Hc; lia].
  apply parse_table_length in Ep; [|lia].
  destruct found; [reflexivity|unfold len in Ep; cbn in Ep; lia].
Qed.

Lemma limit_zero_gives_nothing_witness :
  get_top_coins Sample.table_site 0 Sample.quiet = (Ok [], Sample.quiet).
Proof.
  apply (limit_zero_gives_nothing Sample.table_site Sample.quiet
           Sample.table_soup).
  - exists Sample.page. repeat split.
  - reflexivity.
Defined.

(** ** The table path *)

Lemma rows_to_wide_records P (rows : list Row) (coins : list record) :
  exists found,
    for_each rows
      (fun row (coins : list record) =>
         if 7 <=? len row
         then rtry (coin ← row_record P row; mret (coins ++ [coin])%list)
                   (fun _ => Ok coins)
         else Ok coins)
      coins
    = Ok (coins ++ found)%list
    /\ Forall2 (fun row coin => row_record P row = Ok coin)
               (List.filter wide rows) found.
Proof.
  revert coins. induction rows as [|row rows IH]; intros coins.
  - exists []. rewrite app_nil_r. split; [reflexivity|constructor].
  - cbn [for_each List.filter]. unbind. unfold wide at 1.
    destruct (7 <=? len row) eqn:Ew.
    + destruct (row_record_total P row) as [coin Ec];
        [apply Z.leb_le, Ew|].
      destruct (IH (coins ++ [coin])%list) as (found & Ef & Hall).
      exists (coin :: found). rewrite Ec. cbn [rbind rtry].
      rewrite Ef, <- app_assoc. split; [reflexivity|].
      constructor; assumption.
    + cbn [rbind]. apply IH.
Qed.

(** X9. [_parse_table] skips the first row of the table and reads the
    next [limit] rows: each of them that has at least seven cells yields
    one record, in order, and a shorter row is passed over without ending
    the loop. *)
Theorem parse_table_reads_wide_rows (P : platform) (soup : Soup) (limit : Z)
        (table : Table) :
  soup_table soup = Some table ->
  exists found,
    _parse_table P soup limit = Ok found
    /\ Forall2 (fun row coin => row_record P row = Ok coin)
               (List.filter wide (slice 1 (limit + 1) table)) found.
Proof.
  intros Et. unfold _parse_table. rewrite Et.
  destruct (rows_to_wide_records P (slice 1 (limit + 1) table) [])
    as (found & Ef & Hall).
  exists found. split; assumption.
Qed.

Lemma parse_table_reads_wide_rows_witness :
  exists found,
    _parse_table Fixture.gappy_site Fixture.gappy_soup 5 = Ok found
    /\ Forall2 (fun row coin => row_record Fixture.gappy_site row = Ok coin)
         [Sample.coin_row "1" "Bitcoin" "$60,000.00" "+1.5%" "-2.25%"
                          "$1,200,000" "$35,000";
          Sample.coin_row "2" "Ethereum" "$3,000.50" "0.10%" "4%"
                          "$360,000" "$15,000"] found.
Proof.
  exact (parse_table_reads_wide_rows Fixture.gappy_site Fixture.gappy_soup 5
           (default [] (soup_table Fixture.gappy_soup)) eq_refl).
Defined.

(** X10. [_parse_table] never raises; for a non-negative [limit] it
    returns at most [limit] records, and none when the page has no
    table. *)
Theorem parse_table_at_most_limit (P : platform) (soup : Soup) (limit : Z) :
  0 <= limit ->
  exists coins,
    _parse_table P soup limit = Ok coins
    /\ len coins <= limit
    /\ (soup_table soup = None -> coins = []).
Proof.
  intros Hl. destruct (parse_table_total P soup limit) as [coins E].
  exists coins. split; [exact E|]. split.
  - eapply parse_table_length; eassumption.
  - intros En. unfold _parse_table in E. rewrite En in E.
    injection E as <-. reflexivity.
Qed.

Lemma parse_table_at_most_limit_witness :
  exists coins,
    _parse_table Sample.table_site Sample.table_soup 2 = Ok coins
    /\ len coins <= 2
    /\ (soup_table Sample.table_soup = None -> coins = []).
Proof.
  apply (parse_table_at_most_limit Sample.table_site Sample.table_soup 2).
  discriminate.
Defined.

(** The record of a row, field by field. *)
Lemma row_record_fields P (cells : Row) coin :
  row_record P cells = Ok coin ->
  exists c1 c2 c3 c4 c5 c6 rank price day week cap volume,
    nth_error cells 1 = Some c1 /\ nth_error cells 2 = Some c2
    /\ nth_error cells 3 = Some c3 /\ nth_error cells 4 = Some c4
    /\ nth_error cells 5 = Some c5 /\ nth_error cells 6 = Some c6
    /\ _clean_number P (cell_text_strip c1) = Ok rank
    /\ _clean_price (cell_text_strip c3) = Ok price
    /\ _clean_percent (cell_text_strip c4) = Ok day
    /\ _clean_percent (cell_text_strip c5) = Ok week
    /\ _clean_price (cell_text_strip c6) = Ok cap
    /\ ((len cells <= 7 /\ volume = V PNone)
        \/ (7 < len cells /\ exists f, volume = V (PFloat f)))
    /\ coin
       = [("rank", V (PInt rank));
          ("name", V (PStr (List.hd EmptyString
                              (Py.split newline (cell_text_strip c2)))));
          ("symbol",
           if Py.contains newline (cell_text c2)
           then match cell_symbol c2 with
                | Some tag => T tag
                | None => V (PStr (List.last
                                     (Py.split newline (cell_text_strip c2))
                                     EmptyString))
                end
           else V (PStr EmptyString));
          ("price", V (PFloat price)); ("change_24h", V (PFloat day));
          ("change_7d", V (PFloat week)); ("market_cap", V (PFloat cap));
          ("volume_24h", volume)].
Proof.
  unfold row_record, index. unbind. intros H.
  destruct (nth_error cells 1) as [c1|] eqn:N1; [|discriminate]. cbn [rbind] in H.
  destruct (_clean_number P (cell_text_strip c1)) as [rank|] eqn:E1;
    [|discriminate]. cbn [rbind] in H.
  destruct (nth_error cells 2) as [c2|] eqn:N2; [|discriminate]. cbn [rbind] in H.
  destruct (nth_error cells 3) as [c3|] eqn:N3; [|discriminate]. cbn [rbind] in H.
  destruct (_clean_price (cell_text_strip c3)) as [price|] eqn:E3;
    [|discriminate]. cbn [rbind] in H.
  destruct (nth_error cells 4) as [c4|] eqn:N4; [|discriminate]. cbn [rbind] in H.
  destruct (_clean_percent (cell_text_strip c4)) as [day|] eqn:E4;
    [|discriminate]. cbn [rbind] in H.
  destruct (nth_error cells 5) as [c5|] eqn:N5; [|discriminate]. cbn [rbind] in H.
  destruct (_clean_percent (cell_text_strip c5)) as [week|] eqn:E5;
    [|discriminate]. cbn [rbind] in H.
  destruct (nth_error cells 6) as [c6|] eqn:N6; [|discriminate]. cbn [rbind] in H.
  destruct (_clean_price (cell_text_strip c6)) as [cap|] eqn:E6;
    [|discriminate]. cbn [rbind] in H.
  match type of H with
  | rbind ?vol _ = _ => destruct vol as [volume|] eqn:Ev; [|discriminate]
  end.
  cbn [rbind] in H. injection H as <-.
  exists c1, c2, c3, c4, c5, c6, rank, price, day, week, cap, volume.
  repeat (split; [first [reflexivity | assumption]|]). split; [|reflexivity].
  destruct (7 <? len cells) eqn:E7.
  - apply Z.ltb_lt in E7. repeat on_result; try discriminate.
    injection Ev as <-. eauto.
  - apply Z.ltb_ge in E7. injection Ev as <-. left. split; [exact E7|].
    reflexivity.
Qed.

Lemma row_record_plain P (cells : Row) coin :
  row_record P cells = Ok coin -> plain coin = negb (tagged cells).
Proof.
  intros H.
  destruct (row_record_fields P cells coin H)
    as (c1 & c2 & c3 & c4 & c5 & c6 & rank & price & day & week & cap
        & volume & _ & E2 & _ & _ & _ & _ & _ & _ & _ & _ & _ & Hv & ->).
  unfold tagged. rewrite E2.
  destruct Hv as [[_ ->]|[_ [f ->]]];
    destruct (Py.contains newline (cell_text c2)), (cell_symbol c2);
    reflexivity.
Qed.

(** ** More on the cleaning functions *)

Lemma digit_value_range c : Py.isdecimal c = true -> 0 <= Py.digit_value c <= 9.
Proof.
  destruct c as [[] [] [] [] [] [] [] []]; try discriminate;
    intros _; vm_compute; split; discriminate.
Qed.

Lemma decimal_value_nonneg s :
  Py.all Py.isdecimal s = true -> 0 <= Py.decimal_value (Py.digit_values s).
Proof.
  unfold Py.decimal_value, Py.digit_values.
  assert (G : forall t acc, Py.all Py.isdecimal t = true -> 0 <= acc ->
              0 <= fold_left (fun a d => 10 * a + d)
                     (map Py.digit_value (list_ascii_of_string t)) acc).
  { induction t as [|c t IH]; intros acc Ht Hacc; [exact Hacc|].
    cbn [Py.all] in Ht. apply andb_true_iff in Ht as [Hc Ht].
    cbn [list_ascii_of_string map fold_left]. apply IH; [exact Ht|].
    pose proof (digit_value_range c Hc). lia. }
  intros H. apply G; [exact H|lia].
Qed.

Lemma clean_number_result P text :
  exists n, _clean_number P text = Ok n /\ 0 <= n.
Proof.
  rewrite clean_number_value. eexists. split; [reflexivity|].
  destruct (Py.readable_digits _ _) eqn:E; [|lia].
  apply decimal_value_nonneg. unfold Py.readable_digits in E.
  destruct (Py.filter_join Py.isdigit text); [discriminate|].
  apply andb_true_iff in E as [E _]. exact E.
Qed.

Lemma decimal_value_bound s :
  Py.all Py.isdecimal s = true ->
  Py.decimal_value (Py.digit_values s) < 10 ^ Z.of_nat (String.length s).
Proof.
  unfold Py.decimal_value, Py.digit_values.
  assert (G : forall t acc k,
            Py.all Py.isdecimal t = true -> 0 <= k -> 0 <= acc < 10 ^ k ->
            fold_left (fun a d => 10 * a + d)
              (map Py.digit_value (list_ascii_of_string t)) acc
            < 10 ^ (k + Z.of_nat (String.length t))).
  { induction t as [|c t IH]; intros acc k Ht Hk Hacc.
    - cbn [String.length list_ascii_of_string map fold_left].
      rewrite Z.add_0_r. lia.
    - cbn [Py.all] in Ht. apply andb_true_iff in Ht as [Hc Ht].
      cbn [list_ascii_of_string map fold_left String.length].
      replace (k + Z.of_nat (S (String.length t)))
        with ((k + 1) + Z.of_nat (String.length t)) by lia.
      apply IH; [exact Ht|lia|].
      pose proof (digit_value_range c Hc).
      rewrite Z.pow_add_r by lia. change (10 ^ 1) with 10. lia. }
  intros H. apply (G s 0 0 H); [lia|]. cbn. lia.
Qed.

(** The integer that [_clean_number] returns is one that [int] could read,
    so it has a [repr] under the same digit limit. *)
Lemma clean_number_fits P text n :
  _clean_number P text = Ok n -> too_long (int_max_str_digits P) n = false.
Proof.
  rewrite clean_number_value. intros H. injection H as <-.
  unfold too_long.
  destruct (Nat.eqb (int_max_str_digits P) 0) eqn:E0; [reflexivity|].
  cbn [negb andb]. apply Z.leb_gt.
  pose proof (Z.pow_pos_nonneg 10 (Z.of_nat (int_max_str_digits P))) as Hpos.
  destruct (Py.readable_digits _ _) eqn:E; [|cbn; lia].
  unfold Py.readable_digits in E.
  destruct (Py.filter_join Py.isdigit text) as [|c s] eqn:Es; [discriminate|].
  apply andb_true_iff in E as [Hall Hlen]. rewrite E0 in Hlen.
  cbn [orb] in Hlen. apply Nat.leb_le in Hlen.
  pose proof (decimal_value_bound _ Hall) as Hb.
  pose proof (decimal_value_nonneg _ Hall) as Hn.
  rewrite Z.abs_eq by exact Hn.
  eapply Z.lt_le_trans; [exact Hb|].
  apply Z.pow_le_mono_r; lia.
Qed.

Lemma row_record_sound P (cells : Row) coin :
  row_record P cells = Ok coin -> sound P coin = true.
Proof.
  intros H.
  destruct (row_record_fields P cells coin H)
    as (c1 & c2 & c3 & c4 & c5 & c6 & rank & price & day & week & cap
        & volume & _ & _ & _ & _ & _ & _ & E1 & _ & _ & _ & _ & Hv & ->).
  unfold sound. cbn [forallb snd dumpable].
  rewrite (clean_number_fits P _ _ E1).
  destruct Hv as [[_ ->]|[_ [f ->]]];
    destruct (Py.contains newline (cell_text c2)), (cell_symbol c2);
    reflexivity.
Qed.



(** X12. [_clean_number] never returns a negative number: a minus sign in
    the text is dropped like every other character that is no digit. *)
Theorem clean_number_nonneg (P : platform) (text : string) :
  exists n, _clean_number P text = Ok n /\ 0 <= n.
Proof. apply clean_number_result. Qed.

(** X13. A character that is no digit never changes what [_clean_number]
    returns, wherever it stands: signs, decimal points and separators are
    all ignored, so "1.5" reads as 15. *)
Theorem clean_number_ignores_other_characters (P : platform) (a b : string)
        (c : ascii) :
  Py.isdigit c = false ->
  _clean_number P (a ++ String c b) = _clean_number P (a ++ b).
Proof.
  intros Hc. unfold _clean_number. rewrite !filter_join_app.
  cbn [Py.filter_join]. rewrite Hc. reflexivity.
Qed.

Lemma clean_number_ignores_other_characters_witness :
  _clean_number Sample.offline_site ("1" ++ String "." "5")
  = _clean_number Sample.offline_site ("1" ++ "5").
Proof.
  apply (clean_number_ignores_other_characters Sample.offline_site "1" "5" ".").
  reflexivity.
Defined.

(** X14. The numbers of a table record: its rank is a non-negative
    integer, its price, changes and market cap are floats (0.0 for a cell
    that does not parse, never [None]), and its volume is [None] exactly
    when the row has only seven cells. *)
Theorem table_record_numbers (P : platform) (cells : Row) (coin : record) :
  row_record P cells = Ok coin ->
  exists rank price day week cap,
    assoc "rank" coin = Some (V (PInt rank)) /\ 0 <= rank
    /\ assoc "price" coin = Some (V (PFloat price))
    /\ assoc "change_24h" coin = Some (V (PFloat day))
    /\ assoc "change_7d" coin = Some (V (PFloat week))
    /\ assoc "market_cap" coin = Some (V (PFloat cap))
    /\ (assoc "volume_24h" coin = Some (V PNone) <-> len cells = 7).
Proof.
  intros H.
  destruct (row_record_fields P cells coin H)
    as (c1 & c2 & c3 & c4 & c5 & c6 & rank & price & day & week & cap
        & volume & _ & _ & _ & _ & _ & N6 & E1 & _ & _ & _ & _ & Hv & ->).
  exists rank, price, day, week, cap. repeat split; try reflexivity.
  - destruct (clean_number_result P (cell_text_strip c1)) as (n & En & Hn).
    congruence.
  - cbn. intros Ev. injection Ev as ->.
    destruct Hv as [[Hle _]|[_ [f Hf]]]; [|discriminate].
    assert (Hn : (6 < List.length cells)%nat)
      by (apply nth_error_Some; congruence).
    unfold len in *. lia.
  - cbn. intros El. destruct Hv as [[_ ->]|[Hlt _]]; [reflexivity|lia].
Qed.

Lemma table_record_numbers_witness :
  exists rank price day week cap,
    assoc "rank" (List.hd [] Sample.tagged_coins) = Some (V (PInt rank))
    /\ 0 <= rank
    /\ assoc "price" (List.hd [] Sample.tagged_coins) = Some (V (PFloat price))
    /\ assoc "change_24h" (List.hd [] Sample.tagged_coins)
       = Some (V (PFloat day))
    /\ assoc "change_7d" (List.hd [] Sample.tagged_coins)
       = Some (V (PFloat week))
    /\ assoc "market_cap" (List.hd [] Sample.tagged_coins)
       = Some (V (PFloat cap))
    /\ (assoc "volume_24h" (List.hd [] Sample.tagged_coins) = Some (V PNone)
        <-> len Sample.tagged_row = 7).
Proof.
  apply (table_record_numbers Sample.tagged_site). reflexivity.
Defined.

Lemma remove_commutes c d s :
  Py.remove c (Py.remove d s) = Py.remove d (Py.remove c s).
Proof.
  unfold Py.remove. induction s as [|x s IH]; [reflexivity|].
  cbn [Py.filter_join].
  destruct (negb (Ascii.eqb x d)) eqn:Ed, (negb (Ascii.eqb x c)) eqn:Ec;
    cbn [Py.filter_join]; rewrite ?Ed, ?Ec, IH; reflexivity.
Qed.

(** X15. [_clean_percent] drops every percent sign and every comma of the
    text, reads what is left as a floating-point literal and returns 0.0
    when it is not one.  It differs from [_clean_price] only by the symbol
    it drops. *)
Theorem clean_percent_spec (text a b : string) :
  _clean_percent (a ++ "%" ++ b) = _clean_percent (a ++ b)
  /\ _clean_percent (a ++ "," ++ b) = _clean_percent (a ++ b)
  /\ _clean_percent text
     = Ok (match Py.float (Py.strip (Py.remove "," (Py.remove "%" text))) with
           | Ok x => x
           | Raise _ => zero
           end)
  /\ _clean_percent (Py.remove "$" text) = _clean_price (Py.remove "%" text).
Proof.
  split; [|split; [|split]].
  - unfold _clean_percent, Py.remove. rewrite !filter_join_app. reflexivity.
  - unfold _clean_percent, Py.remove. rewrite !filter_join_app. reflexivity.
  - apply rtry_default.
  - unfold _clean_percent, _clean_price.
    rewrite (remove_commutes "%" "$" text). reflexivity.
Qed.

Lemma str_app_assoc (a b c : string) : (a ++ b) ++ c = a ++ (b ++ c).
Proof.
  induction a as [|x a IH]; [reflexivity|].
  change (String x ((a ++ b) ++ c) = String x (a ++ (b ++ c))).
  rewrite IH. reflexivity.
Qed.

Lemma all_app p a b : Py.all p (a ++ b) = Py.all p a && Py.all p b.
Proof.
  induction a as [|c a IH]; [reflexivity|]. simpl.
  rewrite IH. apply andb_assoc.
Qed.

Lemma all_before_lstrip p s :
  Py.all p (Py.lstrip s) = true ->
  Py.all (fun c => p c || Py.isspace c) s = true.
Proof.
  induction s as [|c s IH]; [reflexivity|]. cbn [Py.lstrip Py.all].
  destruct (Py.isspace c) eqn:Ec.
  - intros H. rewrite orb_true_r. exact (IH H).
  - cbn [Py.all]. intros [Hc Hs]%andb_true_iff. rewrite Hc. cbn [orb andb].
    revert Hs. apply all_weaken. intros d ->. reflexivity.
Qed.

Lemma all_before_rstrip p s :
  Py.all p (Py.rstrip s) = true ->
  Py.all (fun c => p c || Py.isspace c) s = true.
Proof.
  induction s as [|c s IH]; [reflexivity|]. cbn [Py.rstrip Py.all].
  destruct (Py.rstrip s) as [|k kept] eqn:Er.
  - intros H. rewrite (IH eq_refl), andb_true_r.
    destruct (Py.isspace c); [apply orb_true_r|].
    cbn [Py.all] in H. apply andb_true_iff in H as [-> _]. reflexivity.
  - change (Py.all p (String c (String k kept)))
      with (p c && Py.all p (String k kept)).
    intros [Hc Hs]%andb_true_iff. rewrite Hc, (IH Hs). reflexivity.
Qed.

Lemma all_before_strip p s :
  Py.all p (Py.strip s) = true ->
  Py.all (fun c => p c || Py.isspace c) s = true.
Proof.
  intros H. apply all_before_rstrip, all_before_lstrip in H.
  revert H. apply all_weaken. intros c Hc.
  destruct (p c); [reflexivity|]. destruct (Py.isspace c); [reflexivity|].
  discriminate.
Qed.

Lemma all_before_remove p d s :
  Py.all p (Py.remove d s) = true ->
  Py.all (fun c => p c || Ascii.eqb c d) s = true.
Proof.
  unfold Py.remove. induction s as [|c s IH]; [reflexivity|].
  cbn [Py.filter_join Py.all]. destruct (Ascii.eqb c d).
  - cbn [negb]. intros H. rewrite orb_true_r. exact (IH H).
  - cbn [negb Py.all]. intros [Hc Hs]%andb_true_iff.
    rewrite Hc, (IH Hs). reflexivity.
Qed.

Lemma isdecimal_numeric c : Py.isdecimal c = true -> numeric_char c = true.
Proof. unfold numeric_char. intros ->. reflexivity. Qed.

Lemma digits_tail_consumes s :
  exists pre,
    s = pre ++ snd (Py.digits_tail s) /\ Py.all numeric_char pre = true.
Proof.
  induction s as [|c s (pre & Es & Hp)]; [exists EmptyString; split; reflexivity|].
  cbn [Py.digits_tail]. destruct (Py.isdecimal c) eqn:Ec.
  - destruct (Py.digits_tail s) as [ds r]. cbn [snd] in *.
    exists (String c pre). split; [rewrite Es; reflexivity|].
    cbn [Py.all]. rewrite (isdecimal_numeric c Ec), Hp. reflexivity.
  - destruct (Ascii.eqb c "_") eqn:Eu;
      [|exists EmptyString; split; reflexivity].
    destruct s as [|d s']; [exists EmptyString; split; reflexivity|].
    destruct (Py.isdecimal d) eqn:Ed;
      [|exists EmptyString; split; reflexivity].
    cbn [Py.digits_tail] in Es. rewrite Ed in Es.
    destruct (Py.digits_tail s') as [ds r]. cbn [snd] in *.
    exists (String c pre). split; [rewrite Es; reflexivity|].
    cbn [Py.all]. rewrite Hp.
    apply Ascii.eqb_eq in Eu. subst c. reflexivity.
Qed.

Lemma digitpart_consumes s ds r :
  Py.digitpart s = Some (ds, r) ->
  exists pre, s = pre ++ r /\ Py.all numeric_char pre = true.
Proof.
  destruct s as [|c s]; [discriminate|]. cbn [Py.digitpart].
  destruct (Py.isdecimal c) eqn:Ec; [|discriminate].
  destruct (digits_tail_consumes s) as (pre & Es & Hp).
  destruct (Py.digits_tail s) as [ds' r']. cbn [snd] in Es.
  intros E. injection E as _ <-.
  exists (String c pre). split; [rewrite Es; reflexivity|].
  cbn [Py.all]. rewrite (isdecimal_numeric c Ec), Hp. reflexivity.
Qed.

Lemma sign_consumes s :
  exists pre,
    s = pre ++ snd (Py.sign s) /\ Py.all numeric_char pre = true.
Proof.
  destruct s as [|c s]; [exists EmptyString; split; reflexivity|].
  destruct (Ascii.eqb c "-") eqn:Em.
  - apply Ascii.eqb_eq in Em. subst c. exists "-". split; reflexivity.
  - destruct (Ascii.eqb c "+") eqn:Ep.
    + apply Ascii.eqb_eq in Ep. subst c. exists "+". split; reflexivity.
    + exists EmptyString. split; [|reflexivity].
      destruct c as [[] [] [] [] [] [] [] []]; try discriminate; reflexivity.
Qed.

Lemma number_consumes s ip fp r :
  Py.number s = Some (ip, fp, r) ->
  exists pre, s = pre ++ r /\ Py.all numeric_char pre = true.
Proof.
  unfold Py.number. destruct (Py.digitpart s) as [[ds r1]|] eqn:Ed.
  - destruct (digitpart_consumes s ds r1 Ed) as (pre & Es & Hp).
    assert (Hdot : forall r2,
               r1 = String "." r2 ->
               match Py.digitpart r2 with
               | Some (fp', r') => Some (ds, fp', r')
               | None => Some (ds, [], r2)
               end = Some (ip, fp, r) ->
               exists pre0, s = pre0 ++ r /\ Py.all numeric_char pre0 = true).
    { intros r2 -> E.
      destruct (Py.digitpart r2) as [[fp' r']|] eqn:Ef.
      - destruct (digitpart_consumes r2 fp' r' Ef) as (pre2 & E2 & Hp2).
        injection E as _ _ <-. exists (pre ++ "." ++ pre2).
        rewrite !all_app, Hp, Hp2. split; [|reflexivity].
        rewrite Es, E2, ?str_app_assoc. reflexivity.
      - injection E as _ _ <-. exists (pre ++ ".").
        rewrite all_app, Hp. split; [|reflexivity].
        rewrite Es, ?str_app_assoc. reflexivity. }
    destruct r1 as [|c r2].
    + intros E. injection E as _ _ <-. eauto.
    + destruct (Ascii.eqb c ".") eqn:Ec.
      * apply Ascii.eqb_eq in Ec. subst c. apply Hdot. reflexivity.
      * intros E.
        assert (Er : String c r2 = r).
        { destruct c as [[] [] [] [] [] [] [] []]; try discriminate;
            injection E as _ _ <-; reflexivity. }
        subst r. eauto.
  - destruct s as [|c r2]; [discriminate|].
    destruct (Ascii.eqb c ".") eqn:Ec.
    + apply Ascii.eqb_eq in Ec. subst c.
      destruct (Py.digitpart r2) as [[fp' r']|] eqn:Ef; [|discriminate].
      destruct (digitpart_consumes r2 fp' r' Ef) as (pre2 & E2 & Hp2).
      intros E. injection E as _ _ <-. exists ("." ++ pre2).
      rewrite all_app, Hp2. split; [|reflexivity].
      rewrite E2. reflexivity.
    + destruct c as [[] [] [] [] [] [] [] []]; discriminate.
Qed.

Lemma exponent_consumes s e r :
  Py.exponent s = Some (e, r) ->
  exists pre, s = pre ++ r /\ Py.all numeric_char pre = true.
Proof.
  unfold Py.exponent. destruct (sign_consumes s) as (pre & Es & Hp).
  destruct (Py.sign s) as [neg body]. cbn [snd] in Es.
  destruct (Py.digitpart body) as [[ds r']|] eqn:Ed; [|discriminate].
  destruct (digitpart_consumes body ds r' Ed) as (pre2 & E2 & Hp2).
  intros E. injection E as _ <-. exists (pre ++ pre2).
  rewrite all_app, Hp, Hp2. split; [|reflexivity].
  rewrite Es, E2, ?str_app_assoc. reflexivity.
Qed.

(** A text that [float] reads as a finite number is, once stripped, made
    of the characters of a numeric literal. *)
Lemma float_numeric s x :
  Py.float s = Ok x -> Py.inf_or_nan s = None ->
  Py.all numeric_char (Py.strip s) = true.
Proof.
  unfold Py.float, Py.inf_or_nan.
  destruct (sign_consumes (Py.strip s)) as (pre & Es & Hp).
  destruct (Py.sign (Py.strip s)) as [neg body]. cbn [snd] in Es.
  intros H Hn. rewrite Hn in H.
  destruct (Py.number body) as [[[ip fp] r]|] eqn:En; [|discriminate].
  destruct (number_consumes body ip fp r En) as (pre2 & E2 & Hp2).
  rewrite Es, E2, !all_app, Hp, Hp2. cbn [andb].
  destruct r as [|c r']; [reflexivity|].
  destruct (Ascii.eqb (Py.lower c) "e") eqn:Ee; [|discriminate].
  destruct (Py.exponent r') as [[e [|? ?]]|] eqn:Ex; try discriminate.
  destruct (exponent_consumes r' e EmptyString Ex) as (pre3 & E3 & Hp3).
  cbn [Py.all]. rewrite E3, all_app, Hp3. cbn [Py.all].
  rewrite !andb_true_r. clear -Ee.
  destruct c as [[] [] [] [] [] [] [] []]; try discriminate; reflexivity.
Qed.

Lemma cleaned_text_chars symbol text x :
  Py.float (Py.strip (Py.remove "," (Py.remove symbol text))) = Ok x ->
  Py.inf_or_nan (Py.strip (Py.remove "," (Py.remove symbol text))) = None ->
  Py.all (cell_char symbol) text = true.
Proof.
  intros Hf Hn.
  pose proof (float_numeric _ x Hf Hn) as H.
  apply all_before_strip, all_before_strip, all_before_remove,
    all_before_remove in H.
  revert H. apply all_weaken. intros c Hc. unfold cell_char.
  destruct (numeric_char c); [reflexivity|].
  destruct (Py.isspace c); [reflexivity|].
  destruct (Ascii.eqb c ","); [reflexivity|].
  destruct (Ascii.eqb c symbol); [reflexivity|]. discriminate.
Qed.

(** X16. Abbreviated and annotated amounts are lost: when the text has a
    character other than those of a numeric literal (digits, point,
    underscore, signs, e, E), the dropped symbol, commas and whitespace, and
    what is left does not spell an infinity or NaN, [_clean_price] and
    [_clean_percent] return 0.0.  So "$1.2T" cleans to 0.0. *)
Theorem cleaning_rejects_other_characters (text : string) :
  (Py.all (cell_char "$") text = false ->
   Py.inf_or_nan (Py.strip (Py.remove "," (Py.remove "$" text))) = None ->
   _clean_price text = Ok zero)
  /\ (Py.all (cell_char "%") text = false ->
      Py.inf_or_nan (Py.strip (Py.remove "," (Py.remove "%" text))) = None ->
      _clean_percent text = Ok zero).
Proof.
  split; intros Hc Hn.
  - unfold _clean_price. rewrite rtry_default.
    destruct (Py.float _) as [x|e] eqn:Ef; [|reflexivity].
    rewrite (cleaned_text_chars "$" text x Ef Hn) in Hc. discriminate.
  - unfold _clean_percent. rewrite rtry_default.
    destruct (Py.float _) as [x|e] eqn:Ef; [|reflexivity].
    rewrite (cleaned_text_chars "%" text x Ef Hn) in Hc. discriminate.
Qed.

Lemma cleaning_rejects_other_characters_witness :
  _clean_price "$1.2T" = Ok zero /\ _clean_percent "3.5 pts" = Ok zero.
Proof.
  split.
  - apply (cleaning_rejects_other_characters "$1.2T"); reflexivity.
  - apply (cleaning_rejects_other_characters "3.5 pts"); reflexivity.
Defined.

(** ** More on the writers *)

Lemma fits_own_header (r : record) : fits (keys r) r = true.
Proof.
  unfold fits. apply forallb_forall. intros k. apply in_header_keys.
Qed.

Lemma collect_stops {A B} (f : A -> result B) (g : A -> B) good bad rest e :
  Forall (fun x => f x = Ok (g x)) good ->
  f bad = Raise e ->
  collect f (good ++ bad :: rest)%list = (map g good, Some e).
Proof.
  intros Hg Hb. induction Hg as [|x good Hx _ IH].
  - cbn [app collect map]. rewrite Hb. reflexivity.
  - cbn [app collect map]. rewrite Hx, IH. reflexivity.
Qed.

Lemma dict_to_list_fits header r :
  fits header r = true -> _dict_to_list header r = Ok (csv_row header r).
Proof. unfold _dict_to_list, fits. intros ->. reflexivity. Qed.

Lemma dict_to_list_misfit header r :
  fits header r = false ->
  _dict_to_list header r
  = Raise (Exn ValueError "dict contains fields not in fieldnames").
Proof. unfold _dict_to_list, fits. intros ->. reflexivity. Qed.

Lemma fitting_rows header (rs : list record) :
  forallb (fits header) rs = true ->
  Forall (fun r => _dict_to_list header r = Ok (csv_row header r)) rs.
Proof.
  intros H. apply List.Forall_forall. intros r Hr.
  apply dict_to_list_fits. exact (proj1 (forallb_forall _ _) H r Hr).
Qed.





(** X19. When the path cannot be opened for writing, [save_to_json], and
    [save_to_csv] on a non-empty list, raise before anything happens: no
    file changes and nothing is printed. *)
Theorem writers_raise_on_unwritable_path (P : platform) (first : record)
        (rest : list record) (filename : string) (w : world) :
  writable P filename = false ->
  save_to_json P (first :: rest) filename w
  = (Raise (Exn OSError "cannot open file for writing"), w)
  /\ save_to_json P [] filename w
     = (Raise (Exn OSError "cannot open file for writing"), w)
  /\ save_to_csv P (first :: rest) filename w
     = (Raise (Exn OSError "cannot open file for writing"), w).
Proof.
  intros Hw. unfold save_to_json, save_to_csv, open_w. rewrite Hw.
  repeat split.
Qed.

Lemma writers_raise_on_unwritable_path_witness :
  save_to_json Sample.read_only_site [Fixture.two_keys] "coins.json"
               Fixture.stocked
  = (Raise (Exn OSError "cannot open file for writing"), Fixture.stocked)
  /\ save_to_json Sample.read_only_site [] "coins.json" Fixture.stocked
     = (Raise (Exn OSError "cannot open file for writing"), Fixture.stocked)
  /\ save_to_csv Sample.read_only_site [Fixture.two_keys] "coins.json"
                 Fixture.stocked
     = (Raise (Exn OSError "cannot open file for writing"), Fixture.stocked).
Proof.
  apply (writers_raise_on_unwritable_path Sample.read_only_site
           Fixture.two_keys [] "coins.json" Fixture.stocked).
  reflexivity.
Defined.

(** X20. A record with a tag among its fields makes [save_to_json] raise
    after the file has been opened: whatever the file held before is gone
    and what is left does not parse; nothing is printed and no other file
    changes.  The exception is the [TypeError] of the tag, unless the dump
    stops earlier at a plain value that it cannot write. *)
Theorem save_to_json_tag_destroys_file (P : platform)
        (coins : list record) (filename : string) (w : world) :
  writable P filename = true ->
  forallb plain coins = false ->
  exists e w',
    save_to_json P coins filename w = (Raise e, w')
    /\ (forallb (sound P) coins = true ->
        e = Exn TypeError "Object of type Tag is not JSON serializable")
    /\ files w' !! filename = Some Truncated
    /\ is_ok (json_load (files w' !! filename)) = false
    /\ stdout w' = stdout w
    /\ (forall other, other <> filename ->
                      files w' !! other = files w !! other).
Proof.
  intros Hw Hp.
  pose proof (encode_records_refused P coins Hp) as Hno.
  destruct (encode_records P coins) as [ds|e] eqn:Eds; [discriminate|].
  rewrite (save_to_json_stops P coins filename w e Hw Eds).
  eexists _, _. split; [reflexivity|]. cbn [files stdout].
  rewrite lookup_insert_eq. split.
  - intros Hs. rewrite (encode_records_tagged P coins Hp Hs) in Eds.
    injection Eds as <-. reflexivity.
  - repeat split.
    intros other Hne. rewrite lookup_insert_ne by congruence. reflexivity.
Qed.

Lemma save_to_json_tag_destroys_file_witness :
  exists e w',
    save_to_json Sample.tagged_site Sample.tagged_coins "coins_data.json"
                 Fixture.stocked
    = (Raise e, w')
    /\ (forallb (sound Sample.tagged_site) Sample.tagged_coins = true ->
        e = Exn TypeError "Object of type Tag is not JSON serializable")
    /\ files w' !! "coins_data.json" = Some Truncated
    /\ is_ok (json_load (files w' !! "coins_data.json")) = false
    /\ stdout w' = stdout Fixture.stocked
    /\ (forall other, other <> "coins_data.json" ->
                      files w' !! other = files Fixture.stocked !! other).
Proof.
  apply (save_to_json_tag_destroys_file Sample.tagged_site Sample.tagged_coins
           "coins_data.json" Fixture.stocked); reflexivity.
Defined.

Lemma save_to_json_files P coins filename w ds :
  writable P filename = true ->
  encode_records P coins = Ok ds ->
  files (snd (save_to_json P coins filename w))
  = <[filename :=
        JsonFile (JObject [("timestamp", JString (codes (now_isoformat P)));
                           ("count", JInt (len coins));
                           ("data", JArray ds)])]> (files w).
Proof.
  intros Hw Eds. rewrite (save_to_json_run P coins filename w ds Hw Eds).
  reflexivity.
Qed.

(** Whether or not the dump completes, a save on a path that opens leaves
    the earlier files with something new at the path. *)
Lemma save_to_json_writes P coins filename w :
  writable P filename = true ->
  exists f,
    files (snd (save_to_json P coins filename w)) = <[filename := f]> (files w).
Proof.
  intros Hw. destruct (encode_records P coins) as [ds|e] eqn:Eds.
  - rewrite (save_to_json_run P coins filename w ds Hw Eds). eauto.
  - rewrite (save_to_json_stops P coins filename w e Hw Eds). eauto.
Qed.

(** X21. [save_to_json] overwrites: after a successful save the files are
    the earlier ones with the new document at the path, so two worlds that
    differ only in what the path held end with the same files, and saving
    twice leaves what the second save alone would leave, whatever the
    first save wrote and whether or not it completed. *)
Theorem save_to_json_overwrites (P : platform) (coins : list record)
        (filename : string) (w1 w2 : world) :
  writable P filename = true ->
  forallb (serializable P) coins = true ->
  (forall other, other <> filename -> files w1 !! other = files w2 !! other) ->
  exists doc,
    files (snd (save_to_json P coins filename w1))
    = <[filename := JsonFile doc]> (files w1)
    /\ files (snd (save_to_json P coins filename w1))
       = files (snd (save_to_json P coins filename w2))
    /\ forall earlier,
         files (snd (save_to_json P coins filename
                       (snd (save_to_json P earlier filename w1))))
         = files (snd (save_to_json P coins filename w1)).
Proof.
  intros Hw Hp Hagree.
  assert (Hok : is_ok (encode_records P coins) = true)
    by (rewrite encode_records_ok; exact Hp).
  destruct (encode_records P coins) as [ds|] eqn:Eds; [|discriminate].
  eexists. split; [apply (save_to_json_files P coins filename w1 ds Hw Eds)|].
  split.
  - rewrite !(save_to_json_files P coins filename _ ds Hw Eds).
    apply map_eq. intros k.
    destruct (decide (filename = k)) as [<-|Hne].
    + rewrite !lookup_insert_eq. reflexivity.
    + rewrite !lookup_insert_ne by exact Hne. apply Hagree. congruence.
  - intros earlier.
    destruct (save_to_json_writes P earlier filename w1 Hw) as [f Ef].
    rewrite !(save_to_json_files P coins filename _ ds Hw Eds).
    rewrite Ef. apply insert_insert_eq.
Qed.

Lemma save_to_json_overwrites_witness :
  exists doc,
    files (snd (save_to_json Sample.offline_site Sample.plain_coins
                             "coins_data.json" Fixture.stocked))
    = <["coins_data.json" := JsonFile doc]> (files Fixture.stocked)
    /\ files (snd (save_to_json Sample.offline_site Sample.plain_coins
                                "coins_data.json" Fixture.stocked))
       = files (snd (save_to_json Sample.offline_site Sample.plain_coins
                                  "coins_data.json" Sample.quiet))
    /\ forall earlier,
         files (snd (save_to_json Sample.offline_site Sample.plain_coins
                       "coins_data.json"
                       (snd (save_to_json Sample.offline_site earlier
                               "coins_data.json" Fixture.stocked))))
         = files (snd (save_to_json Sample.offline_site Sample.plain_coins
                                    "coins_data.json" Fixture.stocked)).
Proof.
  apply (save_to_json_overwrites Sample.offline_site Sample.plain_coins
           "coins_data.json" Fixture.stocked Sample.quiet).
  - reflexivity.
  - reflexivity.
  - intros other Hne. unfold Fixture.stocked, Sample.quiet. cbn [files].
    rewrite lookup_singleton_ne by congruence. reflexivity.
Defined.

(** ** From fetching to saving *)

Lemma in_firstn {A} n (l : list A) x : In x (firstn n l) -> In x l.
Proof.
  revert l. induction n as [|n IH]; intros [|y l]; cbn; try contradiction.
  intros [->|H]; [left; reflexivity|right; apply IH, H].
Qed.

Lemma in_skipn {A} n (l : list A) x : In x (skipn n l) -> In x l.
Proof.
  revert l. induction n as [|n IH]; intros [|y l]; cbn; try contradiction;
    try (intros H; exact H).
  intros H. right. apply IH, H.
Qed.

Lemma in_slice {A} lo hi (l : list A) x : In x (slice lo hi l) -> In x l.
Proof. unfold slice. intros H. eapply in_skipn, in_firstn, H. Qed.

Lemma for_each_invariant_in {A S} (Inv : S -> Prop)
      (body : A -> S -> result S) xs acc out :
  (forall x a a', In x xs -> body x a = Ok a' -> Inv a -> Inv a') ->
  Inv acc -> for_each xs body acc = Ok out -> Inv out.
Proof.
  revert acc. induction xs as [|x xs IH]; cbn [for_each]; intros acc Hs Ha E.
  - injection E as <-. exact Ha.
  - unbind. destruct (body x acc) as [a'|e] eqn:Eb; [|discriminate].
    cbn [rbind] in E. eapply IH; [| |exact E].
    + intros y a b Hy. apply Hs. right. exact Hy.
    + eapply Hs; [left; reflexivity|exact Eb|exact Ha].
Qed.

Lemma forallb_snoc {A} (p : A -> bool) xs x :
  forallb p (xs ++ [x]) = forallb p xs && p x.
Proof. rewrite forallb_app. cbn. rewrite andb_true_r. reflexivity. Qed.

Lemma parse_coin_data_plain item coin :
  _parse_coin_data item = Some coin -> plain coin = true.
Proof.
  unfold _parse_coin_data. unbind. intros H.
  repeat on_result; try discriminate; injection H as <-; reflexivity.
Qed.

Lemma api_record_plain item coin :
  api_record item = Ok coin -> plain coin = true.
Proof.
  unfold api_record. unbind. intros H.
  repeat on_result; try discriminate; injection H as <-; reflexivity.
Qed.

Lemma structured_plain P limit soup coins :
  structured P limit soup = Ok coins -> forallb plain coins = true.
Proof.
  apply (for_each_invariant (fun acc => forallb plain acc = true));
    [|reflexivity].
  intros script acc acc' Es Hacc. unfold scan_script in Es. unbind.
  destruct (_ && _); [|injection Es as <-; exact Hacc].
  destruct (re_search _); [|injection Es as <-; exact Hacc].
  repeat on_result; try discriminate.
  revert Es.
  apply (for_each_invariant (fun acc => forallb plain acc = true));
    [|exact Hacc].
  intros item ? ? Ea Ha. unfold add_item in Ea.
  destruct (is_dict item); [|injection Ea as <-; exact Ha].
  destruct (_parse_coin_data item) as [[|fd fds]|] eqn:Ep;
    injection Ea as <-; try exact Ha.
  rewrite forallb_snoc, Ha. apply (parse_coin_data_plain item), Ep.
Qed.

Lemma parse_table_plain P soup limit coins :
  (forall table, soup_table soup = Some table ->
                 forallb (fun row => negb (tagged row)) table = true) ->
  _parse_table P soup limit = Ok coins -> forallb plain coins = true.
Proof.
  intros Hclean. unfold _parse_table.
  destruct (soup_table soup) as [table|];
    [|intros E; injection E as <-; reflexivity].
  specialize (Hclean table eq_refl).
  apply (for_each_invariant_in (fun acc => forallb plain acc = true));
    [|reflexivity].
  intros row acc acc' Hin E Hacc. cbv beta in E.
  destruct (7 <=? len row); [|injection E as <-; exact Hacc].
  unbind. destruct (row_record P row) as [coin|e] eqn:Er; cbn in E;
    injection E as <-; [|exact Hacc].
  rewrite forallb_snoc, Hacc, (row_record_plain P row coin Er).
  apply in_slice in Hin.
  exact (proj1 (forallb_forall _ _) Hclean row Hin).
Qed.

(** *** What the answers of [json.loads] bring into the records *)

Lemma dumpable_mono P v :
  forall d d', (d <= d')%nat -> dumpable P d v = true -> dumpable P d' v = true.
Proof.
  induction v as [| b | n | f | s | cs | items IH | entries IH]
    using pyval_induction; intros d d' Hle H; try exact H.
  - destruct d as [|d]; [discriminate|].
    destruct d' as [|d']; [lia|]. cbn [dumpable] in H |- *.
    apply forallb_forall. intros x Hx.
    apply (proj1 (List.Forall_forall _ _) IH x Hx d d'); [lia|].
    apply (proj1 (forallb_forall _ _) H x Hx).
  - destruct d as [|d]; [discriminate|].
    destruct d' as [|d']; [lia|]. cbn [dumpable] in H |- *.
    apply forallb_forall. intros e He.
    apply (proj1 (List.Forall_forall _ _) IH e He d d'); [lia|].
    apply (proj1 (forallb_forall _ _) H e He).
Qed.

Lemma assoc_in {A} k (entries : list (string * A)) x :
  assoc k entries = Some x -> exists k', In (k', x) entries.
Proof.
  induction entries as [|[k0 x0] entries IH]; [discriminate|].
  cbn [assoc]. destruct (String.eqb k0 k).
  - intros H. injection H as ->. exists k0. left. reflexivity.
  - intros H. destruct (IH H) as [k' Hin]. exists k'. right. exact Hin.
Qed.

Lemma dumpable_get P n v key dflt x :
  dumpable P (S n) v = true -> dumpable P n dflt = true ->
  get v key dflt = Ok x -> dumpable P n x = true.
Proof.
  intros Hv Hd H. destruct v; try discriminate.
  cbn [get] in H. injection H as <-. cbn [dumpable] in Hv.
  destruct (assoc key entries) as [x|] eqn:E; [|exact Hd].
  destruct (assoc_in _ _ _ E) as [k' Hin].
  apply (proj1 (forallb_forall _ _) Hv (k', x) Hin).
Qed.

Lemma dumpable_str_of P n cs :
  existsb surrogate cs = false -> dumpable P n (str_of cs) = true.
Proof.
  intros H. unfold str_of. destruct (narrow cs); [reflexivity|].
  cbn [dumpable]. rewrite H. reflexivity.
Qed.

Lemma dumpable_chars P n s x : In x (chars s) -> dumpable P n x = true.
Proof.
  unfold chars. intros H. apply in_map_iff in H as (c & <- & _). reflexivity.
Qed.

Lemma dumpable_wide_chars P n cs x :
  existsb surrogate cs = false -> In x (wide_chars cs) ->
  dumpable P n x = true.
Proof.
  unfold wide_chars. intros Hs H. apply in_map_iff in H as (c & <- & Hc).
  apply dumpable_str_of. cbn [existsb]. rewrite orb_false_r.
  destruct (surrogate c) eqn:E; [|reflexivity].
  assert (Hex : existsb surrogate cs = true)
    by (apply existsb_exists; exists c; split; assumption).
  congruence.
Qed.

Lemma dumpable_first P n v x :
  dumpable P (S n) v = true -> first_item v = Ok x -> dumpable P n x = true.
Proof.
  intros Hv H. destruct v as [| | | |s|cs|items|]; try discriminate.
  - destruct s; [discriminate|]. injection H as <-. reflexivity.
  - destruct cs as [|c cs]; [discriminate|]. injection H as <-.
    cbn [dumpable existsb] in Hv. apply negb_true_iff in Hv.
    apply orb_false_iff in Hv as [Hc _].
    apply dumpable_str_of. cbn [existsb]. rewrite Hc. reflexivity.
  - destruct items as [|y ys]; [discriminate|]. injection H as <-.
    cbn [dumpable forallb] in Hv. apply andb_true_iff in Hv as [Hy _].
    exact Hy.
Qed.

Lemma dumpable_items P n v items x :
  dumpable P (S n) v = true -> items_of v = Ok items -> In x items ->
  dumpable P n x = true.
Proof.
  intros Hv H Hin. destruct v as [| | | |s|cs|ys|entries]; try discriminate;
    injection H as <-.
  - eapply dumpable_chars, Hin.
  - cbn [dumpable] in Hv. apply negb_true_iff in Hv.
    eapply dumpable_wide_chars; eassumption.
  - cbn [dumpable] in Hv. apply (proj1 (forallb_forall _ _) Hv x Hin).
  - apply in_map_iff in Hin as (e & <- & _). reflexivity.
Qed.

Lemma dumpable_slice P n v limit items x :
  dumpable P (S n) v = true -> slice_items v limit = Ok items -> In x items ->
  dumpable P n x = true.
Proof.
  intros Hv H Hin. destruct v as [| | | |s|cs|ys|entries]; try discriminate;
    injection H as <-; apply in_slice in Hin.
  - eapply dumpable_chars, Hin.
  - cbn [dumpable] in Hv. apply negb_true_iff in Hv.
    eapply dumpable_wide_chars; eassumption.
  - cbn [dumpable] in Hv. apply (proj1 (forallb_forall _ _) Hv x Hin).
Qed.

(** One [get] of a chain: the value read is as deep as [n] allows. *)
Ltac read_at P H n :=
  match type of H with
  | context [rbind (get ?v ?k ?d) _] =>
      let E := fresh "E" in
      let x := fresh "x" in
      let Hx := fresh "Hx" in
      destruct (get v k d) as [x|] eqn:E; [|discriminate H];
      cbn [rbind] in H;
      assert (Hx : dumpable P n x = true)
        by (apply (dumpable_get P n v k d x);
            [eapply dumpable_mono; [|eassumption]; lia
            |first [reflexivity|assumption]
            |exact E])
  end.

Lemma parse_coin_data_sound P item coin :
  dumpable P (nesting_limit P) item = true ->
  _parse_coin_data item = Some coin -> sound P coin = true.
Proof.
  intros Hitem. unfold _parse_coin_data. unbind.
  match goal with
  | |- match ?body with _ => _ end = _ -> _ =>
      destruct body as [c|] eqn:H; [|discriminate]
  end.
  intros Hc. injection Hc as <-.
  read_at P H (S (S (nesting_limit P))).
  read_at P H (S (nesting_limit P)).
  do 11 read_at P H (nesting_limit P).
  injection H as <-. unfold sound. cbn [forallb snd].
  repeat match goal with
         | Hx : dumpable P (nesting_limit P) ?x = true |- _ =>
             rewrite Hx; clear Hx
         end.
  reflexivity.
Qed.

Lemma api_record_sound P item coin :
  dumpable P (nesting_limit P) item = true ->
  api_record item = Ok coin -> sound P coin = true.
Proof.
  intros Hitem H. unfold api_record in H. unbind.
  assert (Hdflt : dumpable P (S (S (nesting_limit P))) (PList [PDict []])
                  = true) by reflexivity.
  read_at P H (S (S (nesting_limit P))).
  match type of H with
  | rbind (first_item ?q) _ = _ =>
      destruct (first_item q) as [quote|] eqn:Eq; [|discriminate];
      cbn [rbind] in H;
      assert (Hquote : dumpable P (S (nesting_limit P)) quote = true)
        by (eapply dumpable_first; [|exact Eq]; assumption)
  end.
  do 10 read_at P H (nesting_limit P).
  injection H as <-. unfold sound. cbn [forallb snd].
  repeat match goal with
         | Hx : dumpable P (nesting_limit P) ?x = true |- _ =>
             rewrite Hx; clear Hx
         end.
  reflexivity.
Qed.

Lemma structured_sound P limit soup coins :
  (forall text v, json_loads P text = Ok v ->
                  dumpable P (nesting_limit P) v = true) ->
  structured P limit soup = Ok coins -> forallb (sound P) coins = true.
Proof.
  intros Hloads.
  apply (for_each_invariant (fun acc => forallb (sound P) acc = true));
    [|reflexivity].
  intros script acc acc' Es Hacc. unfold scan_script in Es. unbind.
  destruct (_ && _); [|injection Es as <-; exact Hacc].
  destruct (re_search _) as [group1|]; [|injection Es as <-; exact Hacc].
  destruct (json_loads P group1) as [data|] eqn:Ed; [|discriminate].
  cbn [rbind] in Es. apply Hloads in Ed.
  unfold listings_of in Es. unbind.
  assert (Hlist : dumpable P (S (nesting_limit P)) (PList []) = true)
    by reflexivity.
  do 5 read_at P Es (S (nesting_limit P)).
  match type of Es with
  | rbind (slice_items ?l limit) _ = _ =>
      destruct (slice_items l limit) as [items|] eqn:Ei; [|discriminate]
  end.
  cbn [rbind] in Es. revert Es.
  apply (for_each_invariant_in (fun acc => forallb (sound P) acc = true));
    [|exact Hacc].
  intros item ? ? Hin Ea Ha. unfold add_item in Ea.
  destruct (is_dict item); [|injection Ea as <-; exact Ha].
  destruct (_parse_coin_data item) as [[|fd fds]|] eqn:Ep;
    injection Ea as <-; try exact Ha.
  rewrite forallb_snoc, Ha. apply (parse_coin_data_sound P item); [|exact Ep].
  eapply dumpable_slice; [|exact Ei|exact Hin]. assumption.
Qed.

Lemma parse_table_sound P soup limit coins :
  _parse_table P soup limit = Ok coins -> forallb (sound P) coins = true.
Proof.
  unfold _parse_table.
  destruct (soup_table soup) as [table|];
    [|intros E; injection E as <-; reflexivity].
  apply (for_each_invariant (fun acc => forallb (sound P) acc = true));
    [|reflexivity].
  intros row acc acc' E Hacc. cbv beta in E.
  destruct (7 <=? len row); [|injection E as <-; exact Hacc].
  unbind. destruct (row_record P row) as [coin|e] eqn:Er; cbn in E;
    injection E as <-; [|exact Hacc].
  rewrite forallb_snoc, Hacc, (row_record_sound P row coin Er). reflexivity.
Qed.

Lemma collect_sound {A} (f : A -> result record) P xs :
  (forall x b, In x xs -> f x = Ok b -> sound P b = true) ->
  forallb (sound P) (fst (collect f xs)) = true.
Proof.
  induction xs as [|x xs IH]; intros Hf; [reflexivity|].
  cbn [collect]. destruct (f x) as [b|e] eqn:E; [|reflexivity].
  destruct (collect f xs) as [bs failure]. cbn [fst forallb] in *.
  rewrite (Hf x b (or_introl eq_refl) E), IH; [reflexivity|].
  intros y c Hy. apply Hf. right. exact Hy.
Qed.

Lemma api_block_sound P limit :
  (forall text v, json_loads P text = Ok v ->
                  dumpable P (nesting_limit P) v = true) ->
  forallb (sound P) (fst (api_block P limit)) = true.
Proof.
  intros Hloads. unfold api_block. unbind.
  destruct (session_get P api_url (api_params limit)) as [response|];
    [|reflexivity]. cbn [rbind].
  destruct (json_loads P (text response)) as [data|] eqn:Ed; [|reflexivity].
  cbn [rbind]. apply Hloads in Ed.
  match goal with
  | |- forallb _ (fst match ?listed with _ => _ end) = true =>
      destruct listed as [items|] eqn:H; [|reflexivity]
  end.
  assert (Hlist : dumpable P (S (nesting_limit P)) (PList []) = true)
    by reflexivity.
  do 2 read_at P H (S (nesting_limit P)).
  apply collect_sound. intros item coin Hin Ec.
  apply (api_record_sound P item coin); [|exact Ec].
  eapply dumpable_items; [|exact H|exact Hin]. assumption.
Qed.



(** ** The pattern of the embedded payload *)

Lemma after_sound needle s rest :
  after needle s = Some rest -> s = needle ++ rest.
Proof.
  revert s. induction needle as [|a needle IH]; intros s.
  - cbn. intros E. injection E as <-. reflexivity.
  - destruct s as [|b s]; [discriminate|]. cbn [after].
    destruct (Ascii.eqb a b) eqn:Eab; [|discriminate].
    apply Ascii.eqb_eq in Eab. subst b. intros E.
    rewrite (IH s E). reflexivity.
Qed.

Lemma after_prefix needle rest : after needle (needle ++ rest) = Some rest.
Proof.
  induction needle as [|a needle IH]; [reflexivity|].
  change (after (String a needle) (String a (needle ++ rest)) = Some rest).
  cbn [after]. rewrite Ascii.eqb_refl. exact IH.
Qed.

Lemma starts_with_sound stop s :
  Py.starts_with stop s = true -> exists post, s = stop ++ post.
Proof.
  revert s. induction stop as [|a stop IH]; intros s.
  - exists s. reflexivity.
  - destruct s as [|b s]; [discriminate|]. cbn [Py.starts_with].
    intros [Eab Hs]%andb_true_iff. apply Ascii.eqb_eq in Eab. subst b.
    destruct (IH s Hs) as [post ->]. exists post. reflexivity.
Qed.

Lemma starts_with_longer stop s post :
  Py.starts_with stop s = true -> Py.starts_with stop (s ++ post) = true.
Proof.
  revert s. induction stop as [|a stop IH]; intros s; [reflexivity|].
  destruct s as [|b s]; [discriminate|].
  cbn [Py.starts_with]. intros [Eab Hs]%andb_true_iff.
  change (Py.starts_with (String a stop) (String b (s ++ post)) = true).
  cbn [Py.starts_with]. rewrite Eab. exact (IH s Hs).
Qed.

Lemma shortest_before_unfold stop s :
  shortest_before stop s
  = if Py.starts_with stop s then Some EmptyString
    else match s with
         | EmptyString => None
         | String c rest => String c <$> shortest_before stop rest
         end.
Proof. destruct s; reflexivity. Qed.

Lemma shortest_before_sound stop s g :
  shortest_before stop s = Some g ->
  (exists post, s = g ++ stop ++ post)
  /\ (stop <> EmptyString -> Py.contains_str stop g = false).
Proof.
  revert g. induction s as [|c s IH]; intros g; rewrite shortest_before_unfold.
  - destruct (Py.starts_with stop EmptyString) eqn:Es; [|discriminate].
    intros E. injection E as <-. destruct (starts_with_sound _ _ Es) as [post E].
    split; [exists post; exact E|].
    intros Hne. destruct stop; [congruence|reflexivity].
  - destruct (Py.starts_with stop (String c s)) eqn:Es.
    + intros E. injection E as <-.
      destruct (starts_with_sound _ _ Es) as [post E].
      split; [exists post; exact E|].
      intros Hne. destruct stop; [congruence|reflexivity].
    + destruct (shortest_before stop s) as [g'|] eqn:Eg; [|discriminate].
      intros E. injection E as <-.
      destruct (IH g' eq_refl) as [[post Ep] Hc].
      split; [exists post; rewrite Ep; reflexivity|].
      intros Hne. cbn [Py.contains_str]. rewrite (Hc Hne), orb_false_r.
      destruct (Py.starts_with stop (String c g')) eqn:Eg'; [|reflexivity].
      rewrite Ep in Es.
      pose proof (starts_with_longer stop (String c g') (stop ++ post) Eg')
        as Hl.
      change (String c g' ++ stop ++ post)
        with (String c (g' ++ stop ++ post)) in Hl.
      congruence.
Qed.

Lemma re_search_unfold s :
  re_search s
  = match match_here s with
    | Some group => Some group
    | None =>
        match s with
        | EmptyString => None
        | String _ rest => re_search rest
        end
    end.
Proof. destruct s; reflexivity. Qed.

(** X23. What the pattern of [get_top_coins] captures: the text matched
    lies between the literal opening tag of the payload script and a
    closing [</script>] in [str(script)], and it holds no closing tag
    itself, so a payload is cut at the first closing tag it contains.  A
    text that matches also contains the marker, which makes the marker test
    of the loop redundant. *)
Theorem re_search_sound (s g : string) :
  re_search s = Some g ->
  (exists pre post, s = pre ++ opening_tag ++ g ++ closing_tag ++ post)
  /\ Py.contains_str closing_tag g = false
  /\ Py.contains_str "__NEXT_DATA__" s = true.
Proof.
  induction s as [|c s IH]; rewrite re_search_unfold.
  - destruct (match_here EmptyString) eqn:Em; discriminate.
  - destruct (match_here (String c s)) as [g'|] eqn:Em.
    + intros E. injection E as ->. unfold match_here in Em.
      destruct (after opening_tag (String c s)) as [rest|] eqn:Ea;
        [|discriminate].
      cbn in Em. apply after_sound in Ea.
      destruct (shortest_before_sound closing_tag rest g Em) as [[post Ep] Hc].
      split; [|split].
      * exists EmptyString, post. rewrite Ea, Ep. reflexivity.
      * apply Hc. discriminate.
      * rewrite Ea. reflexivity.
    + intros E. destruct (IH E) as ((pre & post & Es) & Hc & Hm).
      split; [|split].
      * exists (String c pre), post. rewrite Es. reflexivity.
      * exact Hc.
      * cbn [Py.contains_str]. rewrite Hm. apply orb_true_r.
Qed.

Lemma re_search_sound_witness :
  (exists pre post,
      script_str Sample.payload_script
      = pre ++ opening_tag ++ "{payload}" ++ closing_tag ++ post)
  /\ Py.contains_str closing_tag "{payload}" = false
  /\ Py.contains_str "__NEXT_DATA__" (script_str Sample.payload_script) = true.
Proof.
  apply (re_search_sound (script_str Sample.payload_script) "{payload}").
  reflexivity.
Defined.

Lemma shortest_before_payload payload post :
  Py.contains "<" payload = false ->
  shortest_before closing_tag (payload ++ closing_tag ++ post) = Some payload.
Proof.
  induction payload as [|c payload IH]; intros H.
  - reflexivity.
  - cbn [Py.contains] in H. apply orb_false_iff in H as [Hc Hp].
    change (String c payload ++ closing_tag ++ post)
      with (String c (payload ++ closing_tag ++ post)).
    rewrite shortest_before_unfold.
    assert (Es : Py.starts_with closing_tag
                   (String c (payload ++ closing_tag ++ post)) = false).
    { unfold closing_tag. cbn [Py.starts_with].
      rewrite Ascii.eqb_sym, Hc. reflexivity. }
    rewrite Es, (IH Hp). reflexivity.
Qed.

(** X24. The pattern finds what the rendering wraps: on a script rendered
    as the opening tag, a payload without any [<] and the closing tag, the
    captured group is that payload, whatever follows. *)
Theorem re_search_finds_payload (payload post : string) :
  Py.contains "<" payload = false ->
  re_search (opening_tag ++ payload ++ closing_tag ++ post) = Some payload.
Proof.
  intros H. rewrite re_search_unfold. unfold match_here.
  rewrite after_prefix. cbn [mbind option_bind].
  rewrite (shortest_before_payload payload post H). reflexivity.
Qed.

Lemma re_search_finds_payload_witness :
  re_search (opening_tag ++ "{payload}" ++ closing_tag ++ "") = Some "{payload}".
Proof. apply (re_search_finds_payload "{payload}" ""). reflexivity. Defined.

(** ** The driver *)

Import Driver.

Lemma get_top_coins_fetched P limit w :
  exists w',
    get_top_coins P limit w = (Ok (fetched P limit), w')
    /\ files w' = files w.
Proof.
  destruct (get_top_coins_run P limit w) as (w' & E & Hf & _). eauto.
Qed.

Lemma print_line_frame F line w :
  files (snd (print_line F line w)) = files w.
Proof.
  unfold print_line. destruct (narrow line); [reflexivity|].
  destruct (existsb surrogate line); [reflexivity|].
  unfold mbind, M_bind, lift, print. destruct (console F line); reflexivity.
Qed.

Lemma print_line_ok F line w :
  printable F line = true ->
  exists w', print_line F line w = (Ok tt, w') /\ files w' = files w.
Proof.
  unfold printable, print_line. destruct (narrow line).
  - intros _. eexists. split; reflexivity.
  - destruct (existsb surrogate line); [discriminate|]. cbn [negb andb].
    unfold mbind, M_bind, lift, print.
    destruct (console F line); [|discriminate].
    intros _. eexists. split; reflexivity.
Qed.

Lemma show_cons F coin rest w :
  show F (coin :: rest) w
  = match line_of F coin with
    | Ok line =>
        match print_line F line w with
        | (Ok _, w') => show F rest w'
        | (Raise e, w') => (Raise e, w')
        end
    | Raise e => (Raise e, w)
    end.
Proof.
  cbn [show]. unfold mbind, M_bind, lift.
  destruct (line_of F coin); reflexivity.
Qed.

Lemma show_all_ok F coins w :
  forallb (shown F) coins = true ->
  exists w', show F coins w = (Ok tt, w') /\ files w' = files w.
Proof.
  revert w. induction coins as [|coin coins IH]; intros w H.
  - exists w. split; reflexivity.
  - cbn [forallb] in H. apply andb_true_iff in H as [Hc Hs].
    unfold shown in Hc. rewrite show_cons.
    destruct (line_of F coin) as [line|e]; [|discriminate].
    destruct (print_line_ok F line w Hc) as (w1 & E1 & Hf1). rewrite E1.
    destruct (IH w1 Hs) as (w' & E & Hf).
    exists w'. split; [exact E|]. rewrite Hf. exact Hf1.
Qed.

Lemma show_frame F coins w : files (snd (show F coins w)) = files w.
Proof.
  revert w. induction coins as [|coin coins IH]; intros w; [reflexivity|].
  rewrite show_cons. destruct (line_of F coin) as [line|e]; [|reflexivity].
  pose proof (print_line_frame F line w) as Hp.
  destruct (print_line F line w) as [[[]|e] w1]; cbn [snd] in Hp;
    [|exact Hp].
  rewrite IH. exact Hp.
Qed.

Lemma show_fails F coins w :
  forallb (fun coin => is_ok (line_of F coin)) coins = false ->
  exists e w', show F coins w = (Raise e, w') /\ files w' = files w.
Proof.
  intros H. pose proof (show_frame F coins w) as Hf.
  destruct (show F coins w) as [[[]|e] w'] eqn:E; [|eauto].
  exfalso. clear Hf. revert w w' E H.
  induction coins as [|coin coins IH]; intros w w' E H; [discriminate|].
  cbn [forallb] in H. rewrite show_cons in E.
  destruct (line_of F coin) as [line|e]; [|discriminate].
  cbn [is_ok andb] in H.
  destruct (print_line F line w) as [[[]|e] w1]; [|discriminate].
  apply (IH w1 w' E H).
Qed.

Lemma save_to_json_frame P coins filename w other :
  other <> filename ->
  files (snd (save_to_json P coins filename w)) !! other = files w !! other.
Proof.
  intros Hne. unfold save_to_json, open_w.
  destruct (writable P filename) eqn:Hw; [|reflexivity].
  destruct (save_to_json_writes P coins filename w Hw) as [f Ef].
  unfold save_to_json, open_w in Ef. rewrite Hw in Ef. rewrite Ef.
  apply lookup_insert_ne. congruence.
Qed.

Lemma save_to_csv_frame P coins filename w other :
  other <> filename ->
  files (snd (save_to_csv P coins filename w)) !! other = files w !! other.
Proof.
  intros Hne. unfold save_to_csv, open_w.
  destruct coins as [|first rest]; [reflexivity|].
  destruct (writable P filename); [|reflexivity].
  unfold mbind, M_bind, write, lift, print.
  destruct (collect _ _) as [rows [e|]]; cbn [files snd];
    rewrite ?lookup_insert_ne by congruence; reflexivity.
Qed.

(** The run of [main] once the records are fetched. *)
Lemma main_run P F w :
  exists w1,
    files w1 = files w
    /\ main P F w
       = match fetched P 20 with
         | [] => print "No data retrieved" w1
         | coins =>
             (print (String newline rule);; print heading;; print rule;;
              show F coins;; print (rule ++ String newline EmptyString);;
              save_to_json P coins "coins_data.json";;
              save_to_csv P coins "coins_data.csv") w1
         end.
Proof.
  unfold main. unfold mbind at 1. unfold M_bind at 1. unfold print at 1.
  unfold mbind at 1. unfold M_bind at 1.
  match goal with
  | |- context [get_top_coins P 20 ?w0] =>
      destruct (get_top_coins_fetched P 20 w0) as (w1 & E & Hf)
  end.
  exists w1. split; [exact Hf|].
  rewrite E. destruct (fetched P 20); reflexivity.
Qed.

(** X25. When [get_top_coins] comes back empty, [main] prints
    "No data retrieved" as its last line, returns normally and writes no
    file: the writers are not called. *)
Theorem main_without_data (P : platform) (F : formatter) (w : world) :
  fetched P 20 = [] ->
  exists w' before,
    main P F w = (Ok tt, w')
    /\ files w' = files w
    /\ stdout w' = (before ++ ["No data retrieved"])%list.
Proof.
  intros Hnone. destruct (main_run P F w) as (w1 & Hf & E).
  rewrite Hnone in E. rewrite E. unfold print.
  eexists _, _. split; [reflexivity|]. split; [exact Hf|reflexivity].
Qed.

Lemma main_without_data_witness :
  exists w' before,
    main Fixture.dead_site Fixture.plain_formatter Fixture.stocked = (Ok tt, w')
    /\ files w' = files Fixture.stocked
    /\ stdout w' = (before ++ ["No data retrieved"])%list.
Proof.
  apply (main_without_data Fixture.dead_site Fixture.plain_formatter
           Fixture.stocked).
  reflexivity.
Defined.

(** X26. Whatever happens, [main] changes no file other than
    [coins_data.json] and [coins_data.csv]. *)
Theorem main_touches_two_files (P : platform) (F : formatter) (w : world)
        (other : string) :
  other <> "coins_data.json" -> other <> "coins_data.csv" ->
  files (snd (main P F w)) !! other = files w !! other.
Proof.
  intros Hj Hc. destruct (main_run P F w) as (w1 & Hf & E). rewrite E.
  rewrite <- Hf. clear E Hf.
  destruct (fetched P 20) as [|coin coins]; [reflexivity|].
  unfold mbind, M_bind, print.
  match goal with
  | |- context [show F ?cs ?w0] =>
      pose proof (show_frame F cs w0) as Hs;
      destruct (show F cs w0) as [[[]|e] w2]
  end; cbn [snd files] in *; [|rewrite Hs; reflexivity].
  match goal with
  | |- context [save_to_json P ?cs ?f ?w0] =>
      pose proof (save_to_json_frame P cs f w0 other Hj) as Hjs;
      destruct (save_to_json P cs f w0) as [[[]|e] w3]
  end; cbn [snd files] in *; [|rewrite Hjs, Hs; reflexivity].
  rewrite (save_to_csv_frame P _ "coins_data.csv" w3 other Hc), Hjs, Hs.
  reflexivity.
Qed.

Lemma main_touches_two_files_witness :
  files (snd (main Sample.structured_site Fixture.plain_formatter
                   Fixture.stocked)) !! "notes.txt"
  = files Fixture.stocked !! "notes.txt".
Proof.
  apply (main_touches_two_files Sample.structured_site Fixture.plain_formatter
           Fixture.stocked "notes.txt"); discriminate.
Defined.

(** [main] stops in the loop over the records when a line cannot be
    built. *)
Lemma main_stops_in_show P F w coin :
  In coin (fetched P 20) ->
  is_ok (line_of F coin) = false ->
  exists e w', main P F w = (Raise e, w') /\ files w' = files w.
Proof.
  intros Hin Hline.
  destruct (main_run P F w) as (w1 & Hf & E). rewrite E.
  destruct (fetched P 20) as [|c cs] eqn:Efetched; [contradiction|].
  assert (Hbad : forallb (fun coin => is_ok (line_of F coin)) (c :: cs)
                 = false).
  { apply not_true_is_false. intros Hall.
    rewrite (proj1 (forallb_forall _ _) Hall coin Hin) in Hline.
    discriminate. }
  unfold mbind, M_bind, print.
  match goal with
  | |- context [show F ?cs0 ?w0] =>
      destruct (show_fails F cs0 w0 Hbad) as (e & w2 & Es & Hfs)
  end.
  rewrite Es. exists e, w2. split; [reflexivity|].
  rewrite Hfs. exact Hf.
Qed.

(** X27. A record whose rank, symbol or name is [None] cannot be shown:
    whatever the formatter answers, building its line raises.  When the
    fetched records hold such a record, [main] raises and no file is
    written, although records were retrieved. *)
Theorem main_fails_on_none_field (P : platform) (F : formatter) (w : world)
        (coin : record) (key : string) :
  In coin (fetched P 20) ->
  In key ["rank"; "symbol"; "name"] ->
  assoc key coin = Some (V PNone) ->
  is_ok (line_of F coin) = false
  /\ exists e w', main P F w = (Raise e, w') /\ files w' = files w.
Proof.
  intros Hin Hkey Hnone.
  assert (Hline : is_ok (line_of F coin) = false).
  { assert (Hf : forall dflt, field coin key dflt = V PNone)
      by (intros dflt; unfold field; rewrite Hnone; reflexivity).
    unfold line_of. unfold mbind, result_bind, mret, result_ret.
    destruct Hkey as [<-|[<-|[<-|[]]]]; rewrite Hf; cbn [left_aligned];
      repeat match goal with
             | |- is_ok (rbind ?r _) = false =>
                 first [reflexivity
                       | destruct r; [cbn [rbind]|reflexivity]]
             end. }
  split; [exact Hline|].
  apply (main_stops_in_show P F w coin Hin Hline).
Qed.

Lemma main_fails_on_none_field_witness :
  is_ok (line_of Fixture.plain_formatter
           [("rank", V (PInt 2)); ("name", V PNone); ("symbol", V PNone);
            ("price", V PNone); ("change_1h", V PNone); ("change_24h", V PNone);
            ("change_7d", V PNone); ("market_cap", V PNone);
            ("volume_24h", V PNone); ("circulating_supply", V PNone)]) = false
  /\ exists e w',
       main Fixture.mixed_api_site Fixture.plain_formatter Sample.quiet
       = (Raise e, w')
       /\ files w' = files Sample.quiet.
Proof.
  apply (main_fails_on_none_field Fixture.mixed_api_site
           Fixture.plain_formatter Sample.quiet _ "name").
  - right. left. reflexivity.
  - right. right. left. reflexivity.
  - reflexivity.
Defined.

Lemma fetched_keys P limit :
  Forall (fun r => keys r = ten_keys) (fetched P limit)
  \/ Forall (fun r => keys r = eight_keys) (fetched P limit).
Proof.
  unfold fetched. destruct (primary P limit) as [found|e] eqn:Ep.
  - unfold primary in Ep. unbind. repeat on_result; try discriminate.
    eapply extract_keys, Ep.
  - left. apply api_block_keys.
Qed.

(** X28. When records were fetched, every line of the table can be built
    and printed, the records are ones that [json.dump] writes (no tag, no
    lone surrogate, no integer beyond the digit limit, no nesting beyond
    the recursion limit) and both paths can be opened, [main] returns
    normally and leaves both files: [coins_data.json] parses to an object
    with the count and one object per record, with the record's keys in
    order and, when no float is a NaN, equal to the record;
    [coins_data.csv] has the keys of the first record as header and one
    row of values per record. *)
Theorem main_saves_both_files (P : platform) (F : formatter) (w : world)
        (first : record) (rest : list record) :
  fetched P 20 = first :: rest ->
  forallb (shown F) (first :: rest) = true ->
  forallb (serializable P) (first :: rest) = true ->
  forallb well_keyed (first :: rest) = true ->
  writable P "coins_data.json" = true ->
  writable P "coins_data.csv" = true ->
  exists w' doc ds,
    main P F w = (Ok tt, w')
    /\ json_load (files w' !! "coins_data.json") = Ok doc
    /\ get doc "count" PNone = Ok (PInt (len (first :: rest)))
    /\ get doc "data" PNone = Ok (PList ds)
    /\ map field_names ds = map keys (first :: rest)
    /\ (forallb without_nan (first :: rest) = true ->
        data_equals (PList ds) (first :: rest) = true)
    /\ files w' !! "coins_data.csv"
       = Some (CsvFile (keys first) (map values (first :: rest))).
Proof.
  intros Efetched Hshow Hser Hkeyed Hwj Hwc.
  destruct (main_run P F w) as (w1 & Hf & E). rewrite E, Efetched.
  clear E.
  assert (Hok : is_ok (encode_records P (first :: rest)) = true)
    by (rewrite encode_records_ok; exact Hser).
  destruct (encode_records P (first :: rest)) as [js|] eqn:Ejs;
    [|discriminate].
  destruct (records_round_trip P _ js Ejs Hkeyed) as [Hnames Heq].
  assert (Hkeys : Forall (fun r => keys r = keys first) (first :: rest)
                  /\ List.NoDup (keys first)).
  { pose proof (fetched_keys P 20) as Hk. rewrite Efetched in Hk.
    destruct Hk as [H|H]; pose proof (Forall_inv H) as Hfirst;
      rewrite Hfirst; (split; [exact H|]).
    - apply ten_keys_distinct.
    - apply eight_keys_distinct. }
  destruct Hkeys as [Hsame Hnd].
  unfold mbind, M_bind, print.
  match goal with
  | |- context [show F ?cs ?w0] =>
      destruct (show_all_ok F cs w0 Hshow) as (w2 & Es & _)
  end.
  rewrite Es.
  rewrite (save_to_json_run P _ "coins_data.json" _ js Hwj Ejs).
  match goal with
  | |- context [save_to_csv P ?cs ?f ?w0] =>
      destruct (save_to_csv_uniform P first rest f w0 Hnd Hsame Hwc)
        as (w4 & Ec & Hc);
      pose proof (save_to_csv_frame P cs f w0 "coins_data.json") as Hfr
  end.
  rewrite Ec in Hfr |- *. cbn [snd files] in Hfr.
  rewrite lookup_insert_eq in Hfr.
  eexists w4, _, (map load_value js). split; [reflexivity|].
  rewrite Hfr by discriminate. cbn [json_load].
  split; [reflexivity|].
  cbn [load_value]. rewrite dict_of_distinct by reflexivity.
  cbn [map fst snd load_value].
  split; [reflexivity|]. split; [reflexivity|].
  split; [exact Hnames|]. split; [exact Heq|exact Hc].
Qed.

Lemma main_saves_both_files_witness :
  exists w' doc ds,
    main Sample.offline_site Fixture.plain_formatter Sample.quiet = (Ok tt, w')
    /\ json_load (files w' !! "coins_data.json") = Ok doc
    /\ get doc "count" PNone = Ok (PInt 3)
    /\ get doc "data" PNone = Ok (PList ds)
    /\ map field_names ds
       = map keys [Sample.api_coin 1 "Bitcoin" "BTC";
                   Sample.api_coin 2 "Ethereum" "ETH";
                   Sample.api_coin 3 "Tether" "USDT"]
    /\ (forallb without_nan [Sample.api_coin 1 "Bitcoin" "BTC";
                             Sample.api_coin 2 "Ethereum" "ETH";
                             Sample.api_coin 3 "Tether" "USDT"] = true ->
        data_equals (PList ds) [Sample.api_coin 1 "Bitcoin" "BTC";
                                Sample.api_coin 2 "Ethereum" "ETH";
                                Sample.api_coin 3 "Tether" "USDT"] = true)
    /\ files w' !! "coins_data.csv"
       = Some (CsvFile (keys (Sample.api_coin 1 "Bitcoin" "BTC"))
                 (map values [Sample.api_coin 1 "Bitcoin" "BTC";
                              Sample.api_coin 2 "Ethereum" "ETH";
                              Sample.api_coin 3 "Tether" "USDT"])).
Proof.
  apply (main_saves_both_files Sample.offline_site Fixture.plain_formatter
           Sample.quiet (Sample.api_coin 1 "Bitcoin" "BTC")
           [Sample.api_coin 2 "Ethereum" "ETH";
            Sample.api_coin 3 "Tether" "USDT"]); reflexivity.
Defined.

(** A tag among the fetched records sits in the symbol of a table record. *)
Lemma api_block_plain P limit :
  forallb plain (fst (api_block P limit)) = true.
Proof.
  unfold api_block.
  destruct (_ ← _; _) as [items|e0]; [|reflexivity].
  induction items as [|item items IH]; [reflexivity|].
  cbn [collect]. destruct (api_record item) as [coin|] eqn:Ea;
    [|reflexivity].
  destruct (collect api_record items) as [bs failure]. cbn [fst] in *.
  cbn [forallb]. rewrite IH, (api_record_plain item coin Ea).
  reflexivity.
Qed.

Lemma row_record_symbol P (cells : Row) coin :
  row_record P cells = Ok coin -> plain coin = false ->
  exists tag, assoc "symbol" coin = Some (T tag).
Proof.
  intros H.
  destruct (row_record_fields P cells coin H)
    as (c1 & c2 & c3 & c4 & c5 & c6 & rank & price & day & week & cap
        & volume & _ & _ & _ & _ & _ & _ & _ & _ & _ & _ & _ & Hv & ->).
  destruct Hv as [[_ ->]|[_ [f ->]]];
    destruct (Py.contains newline (cell_text c2)), (cell_symbol c2);
    try discriminate; intros _; eexists; reflexivity.
Qed.

Lemma parse_table_symbols P soup limit coins :
  _parse_table P soup limit = Ok coins ->
  Forall (fun coin => plain coin = false ->
                      exists tag, assoc "symbol" coin = Some (T tag)) coins.
Proof.
  unfold _parse_table.
  destruct (soup_table soup) as [table|];
    [|intros E; injection E as <-; constructor].
  apply (for_each_invariant
           (Forall (fun coin => plain coin = false ->
                                exists tag, assoc "symbol" coin
                                            = Some (T tag))));
    [|constructor].
  intros row acc acc' E Hacc. cbv beta in E.
  destruct (7 <=? len row); [|injection E as <-; exact Hacc].
  unbind. destruct (row_record P row) as [coin|e] eqn:Er; cbn in E;
    injection E as <-; [|exact Hacc].
  apply Forall_app. split; [exact Hacc|].
  constructor; [|constructor]. apply (row_record_symbol P row coin Er).
Qed.

Lemma fetched_tag_is_symbol P limit coin :
  In coin (fetched P limit) -> plain coin = false ->
  exists tag, assoc "symbol" coin = Some (T tag).
Proof.
  unfold fetched. destruct (primary P limit) as [found|e] eqn:Ep.
  - unfold primary in Ep. unbind. repeat on_result; try discriminate.
    unfold extract in Ep. unbind.
    match type of Ep with
    | rbind ?r _ = _ => destruct r as [got|] eqn:Est; [|discriminate]
    end.
    cbn [rbind] in Ep.
    pose proof (structured_plain P limit _ got Est) as Hgot.
    destruct got as [|c cs].
    + intros Hin. apply parse_table_symbols in Ep.
      apply (proj1 (List.Forall_forall _ _) Ep coin Hin).
    + injection Ep as <-. intros Hin Hp.
      rewrite (proj1 (forallb_forall _ _) Hgot coin Hin) in Hp.
      discriminate.
  - intros Hin Hp.
    rewrite (proj1 (forallb_forall _ _) (api_block_plain P limit) coin Hin)
      in Hp.
    discriminate.
Qed.

Lemma tagged_line_fails F coin tag :
  assoc "symbol" coin = Some (T tag) -> is_ok (line_of F coin) = false.
Proof.
  intros Htag.
  assert (Hf : forall dflt, field coin "symbol" dflt = T tag)
    by (intros dflt; unfold field; rewrite Htag; reflexivity).
  unfold line_of. unfold mbind, result_bind, mret, result_ret.
  rewrite Hf. cbn [left_aligned].
  repeat match goal with
         | |- is_ok (rbind ?r _) = false =>
             first [reflexivity
                   | destruct r; [cbn [rbind]|reflexivity]]
         end.
Qed.

(** X29. [main] saves the JSON file first: when the table was shown but
    the dump stops (at a string with a lone surrogate in a field that is
    not shown, say), [main] ends with the exception of the dump,
    [coins_data.json] is left cut short and [save_to_csv] is never reached,
    so [coins_data.csv] stays as it was.  A tag is never the cause: a
    fetched record with a tag cannot be shown. *)
Theorem main_json_failure_skips_csv (P : platform) (F : formatter)
        (w : world) (first : record) (rest : list record) (e : exn) :
  fetched P 20 = first :: rest ->
  forallb (shown F) (first :: rest) = true ->
  encode_records P (first :: rest) = Raise e ->
  writable P "coins_data.json" = true ->
  forallb plain (first :: rest) = true
  /\ exists w',
       main P F w = (Raise e, w')
       /\ files w' !! "coins_data.json" = Some Truncated
       /\ files w' !! "coins_data.csv" = files w !! "coins_data.csv".
Proof.
  intros Efetched Hshow Hdump Hwj. split.
  { apply forallb_forall. intros coin Hin.
    destruct (plain coin) eqn:Hp; [reflexivity|]. exfalso.
    assert (Hf : In coin (fetched P 20)) by (rewrite Efetched; exact Hin).
    destruct (fetched_tag_is_symbol P 20 coin Hf Hp) as [tag Htag].
    pose proof (proj1 (forallb_forall _ _) Hshow coin Hin) as Hs.
    unfold shown in Hs.
    pose proof (tagged_line_fails F coin tag Htag) as Hline.
    destruct (line_of F coin); discriminate. }
  destruct (main_run P F w) as (w1 & Hf & E). rewrite E, Efetched. clear E.
  unfold mbind, M_bind, print.
  match goal with
  | |- context [show F ?cs ?w0] =>
      destruct (show_all_ok F cs w0 Hshow) as (w2 & Es & Hfs)
  end.
  rewrite Es.
  rewrite (save_to_json_stops P _ "coins_data.json" _ e Hwj Hdump).
  eexists. split; [reflexivity|]. cbn [files]. split.
  - apply lookup_insert_eq.
  - rewrite lookup_insert_ne by discriminate. rewrite Hfs. cbn [files].
    rewrite Hf. reflexivity.
Qed.

Lemma main_json_failure_skips_csv_witness :
  forallb plain [Fixture.torn_coin] = true
  /\ exists w',
       main Fixture.torn_site Fixture.plain_formatter Fixture.stocked
       = (Raise (Exn UnicodeEncodeError
            "'utf-8' codec can't encode character: surrogates not allowed"),
          w')
       /\ files w' !! "coins_data.json" = Some Truncated
       /\ files w' !! "coins_data.csv"
          = files Fixture.stocked !! "coins_data.csv".
Proof.
  apply (main_json_failure_skips_csv Fixture.torn_site Fixture.plain_formatter
           Fixture.stocked Fixture.torn_coin []); reflexivity.
Defined.

(** A name with a lone surrogate, as [json.loads] reads it from an escape,
    is padded like any text, but [print] cannot encode the line: [main]
    stops there and writes no file. *)
Example main_cannot_print_surrogate :
  fst (main Fixture.unprintable_site Fixture.plain_formatter Fixture.stocked)
  = Raise (Exn UnicodeEncodeError
                "codec can't encode character: surrogates not allowed")
  /\ files (snd (main Fixture.unprintable_site Fixture.plain_formatter
                      Fixture.stocked))
     = files Fixture.stocked.
Proof. split; vm_compute; reflexivity. Qed.

(** X30. A fetched record with a tag (the symbol of a table row whose
    name cell spans lines and holds a symbol paragraph) cannot be shown:
    formatting the tag with a width raises, whatever the formatter answers
    for numbers.  [main] then raises in the loop over the records and no
    file is written, so [save_to_json] never sees a tag that [main]
    fetched. *)
Theorem main_fails_on_tag (P : platform) (F : formatter) (w : world)
        (coin : record) :
  In coin (fetched P 20) ->
  plain coin = false ->
  (exists tag, assoc "symbol" coin = Some (T tag))
  /\ is_ok (line_of F coin) = false
  /\ exists e w', main P F w = (Raise e, w') /\ files w' = files w.
Proof.
  intros Hin Hp.
  destruct (fetched_tag_is_symbol P 20 coin Hin Hp) as [tag Htag].
  pose proof (tagged_line_fails F coin tag Htag) as Hline.
  split; [eauto|]. split; [exact Hline|].
  apply (main_stops_in_show P F w coin Hin Hline).
Qed.

Lemma main_fails_on_tag_witness :
  (exists tag, assoc "symbol" (List.hd [] Sample.tagged_coins) = Some (T tag))
  /\ is_ok (line_of Fixture.plain_formatter (List.hd [] Sample.tagged_coins))
     = false
  /\ exists e w',
       main Sample.tagged_site Fixture.plain_formatter Fixture.stocked
       = (Raise e, w')
       /\ files w' = files Fixture.stocked.
Proof.
  apply (main_fails_on_tag Sample.tagged_site Fixture.plain_formatter
           Fixture.stocked (List.hd [] Sample.tagged_coins)).
  - left. reflexivity.
  - reflexivity.
Defined.
